(** * Online Trail: the turn engine and the room/turn-timer core

    A shallow embedding of the Go sources [pkg/game] (the turn engine,
    [GameState]) and [cmd/server/main.go] (rooms, turn timer, joins, loot
    sites, the stale-room sweep) together with the session directory of
    [cmd/server/session.go] and the leaderboard.

    Conventions of the embedding.
    - A Go [float64] is modelled by an exact rational ([Q]): the properties
      verified here are about signs, comparisons and which assignments are
      executed, not about rounding.
    - A Go [int] is modelled by [Z]; slice indices and lengths by [nat].
    - A [*Player] is an address into the store [Heap] carried by the engine
      state; [nil] is [None].  Two references alias iff the addresses agree.
    - [*rand.Rand] is an oracle: an infinite supply of draws with a cursor.
    - [time.Now()] is an explicit argument.
    - A Go [map] is a [gmap]; where the source ranges over a map the model
      visits [map_to_list], one of the orders Go may choose. *)

From Stdlib Require Import QArith Qabs Qround Lqa ZArith Lia Sorted.
From stdpp Require Import base strings gmap list pretty.

Local Open Scope string_scope.

(** ** Numbers *)

(** [x < y] on rationals, as a boolean. *)
Definition Qltb (x y : Q) : bool := if Qlt_le_dec x y then true else false.
(** [x <= y] on rationals, as a boolean. *)
Definition Qleb (x y : Q) : bool := if Qlt_le_dec y x then false else true.

(** Go's [int] is 64 bits wide; arithmetic wraps around. *)
Definition wrap64 (z : Z) : Z := ((z + 2 ^ 63) mod 2 ^ 64 - 2 ^ 63)%Z.

(** [float64(n)] for an [int] [n]. *)
Definition float64 (n : Z) : Q := inject_Z n.

(** [int(x)] for a [float64] [x]: truncation toward zero. *)
Definition int_of_float (x : Q) : Z :=
  if Qltb x 0 then (- Qfloor (- x))%Z else Qfloor x.

(** Rounding to the nearest integer, ties to even, of the absolute value:
    the digits printed by the verb [%.0f]. *)
Definition round_half_even_abs (x : Q) : Z :=
  let a := Qabs x in
  let f := Qfloor a in
  let d := (a - inject_Z f)%Q in
  if Qltb d (1 # 2) then f
  else if Qltb (1 # 2) d then (f + 1)%Z
  else if Z.even f then f else (f + 1)%Z.

(** [fmt.Sprintf("%.0f", x)]. *)
Definition fmt_f0 (x : Q) : string :=
  (if Qltb x 0 then "-" else "") +:+ pretty (Z.to_N (round_half_even_abs x)).

(** [fmt.Sprintf("%d", n)]. *)
Definition fmt_d (n : Z) : string := pretty n.

(** * Package [game]: the turn engine *)

Module Game.

(** ** Data model of [pkg/game] *)

Inductive PlayerType := PlayerTypeHuman | PlayerTypeCPU.

Definition PlayerType_eqb (a b : PlayerType) : bool :=
  match a, b with
  | PlayerTypeHuman, PlayerTypeHuman | PlayerTypeCPU, PlayerTypeCPU => true
  | _, _ => false
  end.

Record PartyMember := mkPartyMember {
  MemberName : string;
  MemberAlive : bool;
  Health : Z;
  Injured : bool
}.

(** The channels [InputChan] and [OutputChan] of the Go struct are never
    used by the engine or the server and are not represented. *)
Record Player := mkPlayer {
  ID : string;
  Name : string;
  PType : PlayerType;
  Party : list PartyMember;
  Connected : bool;
  ShootingRank : Z;
  Alive : bool
}.

Record LootSite := mkLootSite {
  SiteID : string;
  SiteMileage : Q;
  PlayerName : string;
  SiteFood : Q;
  SiteBullets : Q;
  SiteClothing : Q;
  SiteMiscSupplies : Q;
  SiteCash : Q;
  SiteOxenCost : Q;
  DateCreated : Z;
  IsLooted : bool;
  LootedBy : string;
  LootedAt : option Z
}.

Inductive TurnPhase :=
| PhaseStart | PhaseMainMenu | PhaseFort | PhaseHunting | PhaseEating
| PhaseRiders | PhaseEvents | PhaseMountains | PhaseFinalTurn
| PhaseGameOver | PhaseShooting | PhaseIllness | PhaseRiverCrossing.

Definition TurnPhase_eqb (a b : TurnPhase) : bool :=
  match a, b with
  | PhaseStart, PhaseStart | PhaseMainMenu, PhaseMainMenu
  | PhaseFort, PhaseFort | PhaseHunting, PhaseHunting
  | PhaseEating, PhaseEating | PhaseRiders, PhaseRiders
  | PhaseEvents, PhaseEvents | PhaseMountains, PhaseMountains
  | PhaseFinalTurn, PhaseFinalTurn | PhaseGameOver, PhaseGameOver
  | PhaseShooting, PhaseShooting | PhaseIllness, PhaseIllness
  | PhaseRiverCrossing, PhaseRiverCrossing => true
  | _, _ => false
  end.

(** The random source: [floats i] is the [i]-th value a call of [Float64]
    may return, [ints i] the raw value behind a call of [Intn]; [cursor]
    counts the draws made so far. *)
Record RandSrc := mkRand {
  floats : nat -> Q;
  ints : nat -> Z;
  cursor : nat
}.

(** Every [Float64] draw lies in the half-open unit interval. *)
Definition rand_ok (r : RandSrc) : Prop :=
  forall i, (0 <= floats r i)%Q /\ (floats r i < 1)%Q.

(** A reference to a [Player]. *)
Definition ptr := nat.

Record GameState := mkGameState {
  Heap : list Player;
  Players : list ptr;
  CurrentPlayerIdx : nat;
  TurnNumber : Z;
  Week : Z;
  Day : Z;
  Mileage : Q;
  Food : Q;
  Bullets : Q;
  Clothing : Q;
  MiscSupplies : Q;
  Cash : Q;
  OxenCost : Q;
  DistanceTraveled : Z;
  Phase : TurnPhase;
  EventLog : list string;
  GameOver : bool;
  Win : bool;
  FinalDate : string;
  Rand : RandSrc;
  PendingRiderHostile : bool;
  PendingEatingLevel : Z;
  PendingRiderCount : Z;
  HuntWord : string;
  FortAvailable : bool;
  LootSites : list LootSite
}.

(** The Go field [TurnPhase] is called [Phase] here, the name [TurnPhase]
    being taken by its type.  Field updates, one per field. *)
Definition set_Heap v g := mkGameState v (Players g) (CurrentPlayerIdx g) (TurnNumber g) (Week g) (Day g) (Mileage g) (Food g) (Bullets g) (Clothing g) (MiscSupplies g) (Cash g) (OxenCost g) (DistanceTraveled g) (Phase g) (EventLog g) (GameOver g) (Win g) (FinalDate g) (Rand g) (PendingRiderHostile g) (PendingEatingLevel g) (PendingRiderCount g) (HuntWord g) (FortAvailable g) (LootSites g).
Definition set_Players v g := mkGameState (Heap g) v (CurrentPlayerIdx g) (TurnNumber g) (Week g) (Day g) (Mileage g) (Food g) (Bullets g) (Clothing g) (MiscSupplies g) (Cash g) (OxenCost g) (DistanceTraveled g) (Phase g) (EventLog g) (GameOver g) (Win g) (FinalDate g) (Rand g) (PendingRiderHostile g) (PendingEatingLevel g) (PendingRiderCount g) (HuntWord g) (FortAvailable g) (LootSites g).
Definition set_CurrentPlayerIdx v g := mkGameState (Heap g) (Players g) v (TurnNumber g) (Week g) (Day g) (Mileage g) (Food g) (Bullets g) (Clothing g) (MiscSupplies g) (Cash g) (OxenCost g) (DistanceTraveled g) (Phase g) (EventLog g) (GameOver g) (Win g) (FinalDate g) (Rand g) (PendingRiderHostile g) (PendingEatingLevel g) (PendingRiderCount g) (HuntWord g) (FortAvailable g) (LootSites g).
Definition set_TurnNumber v g := mkGameState (Heap g) (Players g) (CurrentPlayerIdx g) v (Week g) (Day g) (Mileage g) (Food g) (Bullets g) (Clothing g) (MiscSupplies g) (Cash g) (OxenCost g) (DistanceTraveled g) (Phase g) (EventLog g) (GameOver g) (Win g) (FinalDate g) (Rand g) (PendingRiderHostile g) (PendingEatingLevel g) (PendingRiderCount g) (HuntWord g) (FortAvailable g) (LootSites g).
Definition set_Week v g := mkGameState (Heap g) (Players g) (CurrentPlayerIdx g) (TurnNumber g) v (Day g) (Mileage g) (Food g) (Bullets g) (Clothing g) (MiscSupplies g) (Cash g) (OxenCost g) (DistanceTraveled g) (Phase g) (EventLog g) (GameOver g) (Win g) (FinalDate g) (Rand g) (PendingRiderHostile g) (PendingEatingLevel g) (PendingRiderCount g) (HuntWord g) (FortAvailable g) (LootSites g).
Definition set_Day v g := mkGameState (Heap g) (Players g) (CurrentPlayerIdx g) (TurnNumber g) (Week g) v (Mileage g) (Food g) (Bullets g) (Clothing g) (MiscSupplies g) (Cash g) (OxenCost g) (DistanceTraveled g) (Phase g) (EventLog g) (GameOver g) (Win g) (FinalDate g) (Rand g) (PendingRiderHostile g) (PendingEatingLevel g) (PendingRiderCount g) (HuntWord g) (FortAvailable g) (LootSites g).
Definition set_Mileage v g := mkGameState (Heap g) (Players g) (CurrentPlayerIdx g) (TurnNumber g) (Week g) (Day g) v (Food g) (Bullets g) (Clothing g) (MiscSupplies g) (Cash g) (OxenCost g) (DistanceTraveled g) (Phase g) (EventLog g) (GameOver g) (Win g) (FinalDate g) (Rand g) (PendingRiderHostile g) (PendingEatingLevel g) (PendingRiderCount g) (HuntWord g) (FortAvailable g) (LootSites g).
Definition set_Food v g := mkGameState (Heap g) (Players g) (CurrentPlayerIdx g) (TurnNumber g) (Week g) (Day g) (Mileage g) v (Bullets g) (Clothing g) (MiscSupplies g) (Cash g) (OxenCost g) (DistanceTraveled g) (Phase g) (EventLog g) (GameOver g) (Win g) (FinalDate g) (Rand g) (PendingRiderHostile g) (PendingEatingLevel g) (PendingRiderCount g) (HuntWord g) (FortAvailable g) (LootSites g).
Definition set_Bullets v g := mkGameState (Heap g) (Players g) (CurrentPlayerIdx g) (TurnNumber g) (Week g) (Day g) (Mileage g) (Food g) v (Clothing g) (MiscSupplies g) (Cash g) (OxenCost g) (DistanceTraveled g) (Phase g) (EventLog g) (GameOver g) (Win g) (FinalDate g) (Rand g) (PendingRiderHostile g) (PendingEatingLevel g) (PendingRiderCount g) (HuntWord g) (FortAvailable g) (LootSites g).
Definition set_Clothing v g := mkGameState (Heap g) (Players g) (CurrentPlayerIdx g) (TurnNumber g) (Week g) (Day g) (Mileage g) (Food g) (Bullets g) v (MiscSupplies g) (Cash g) (OxenCost g) (DistanceTraveled g) (Phase g) (EventLog g) (GameOver g) (Win g) (FinalDate g) (Rand g) (PendingRiderHostile g) (PendingEatingLevel g) (PendingRiderCount g) (HuntWord g) (FortAvailable g) (LootSites g).
Definition set_MiscSupplies v g := mkGameState (Heap g) (Players g) (CurrentPlayerIdx g) (TurnNumber g) (Week g) (Day g) (Mileage g) (Food g) (Bullets g) (Clothing g) v (Cash g) (OxenCost g) (DistanceTraveled g) (Phase g) (EventLog g) (GameOver g) (Win g) (FinalDate g) (Rand g) (PendingRiderHostile g) (PendingEatingLevel g) (PendingRiderCount g) (HuntWord g) (FortAvailable g) (LootSites g).
Definition set_Cash v g := mkGameState (Heap g) (Players g) (CurrentPlayerIdx g) (TurnNumber g) (Week g) (Day g) (Mileage g) (Food g) (Bullets g) (Clothing g) (MiscSupplies g) v (OxenCost g) (DistanceTraveled g) (Phase g) (EventLog g) (GameOver g) (Win g) (FinalDate g) (Rand g) (PendingRiderHostile g) (PendingEatingLevel g) (PendingRiderCount g) (HuntWord g) (FortAvailable g) (LootSites g).
Definition set_OxenCost v g := mkGameState (Heap g) (Players g) (CurrentPlayerIdx g) (TurnNumber g) (Week g) (Day g) (Mileage g) (Food g) (Bullets g) (Clothing g) (MiscSupplies g) (Cash g) v (DistanceTraveled g) (Phase g) (EventLog g) (GameOver g) (Win g) (FinalDate g) (Rand g) (PendingRiderHostile g) (PendingEatingLevel g) (PendingRiderCount g) (HuntWord g) (FortAvailable g) (LootSites g).
Definition set_DistanceTraveled v g := mkGameState (Heap g) (Players g) (CurrentPlayerIdx g) (TurnNumber g) (Week g) (Day g) (Mileage g) (Food g) (Bullets g) (Clothing g) (MiscSupplies g) (Cash g) (OxenCost g) v (Phase g) (EventLog g) (GameOver g) (Win g) (FinalDate g) (Rand g) (PendingRiderHostile g) (PendingEatingLevel g) (PendingRiderCount g) (HuntWord g) (FortAvailable g) (LootSites g).
Definition set_Phase v g := mkGameState (Heap g) (Players g) (CurrentPlayerIdx g) (TurnNumber g) (Week g) (Day g) (Mileage g) (Food g) (Bullets g) (Clothing g) (MiscSupplies g) (Cash g) (OxenCost g) (DistanceTraveled g) v (EventLog g) (GameOver g) (Win g) (FinalDate g) (Rand g) (PendingRiderHostile g) (PendingEatingLevel g) (PendingRiderCount g) (HuntWord g) (FortAvailable g) (LootSites g).
Definition set_EventLog v g := mkGameState (Heap g) (Players g) (CurrentPlayerIdx g) (TurnNumber g) (Week g) (Day g) (Mileage g) (Food g) (Bullets g) (Clothing g) (MiscSupplies g) (Cash g) (OxenCost g) (DistanceTraveled g) (Phase g) v (GameOver g) (Win g) (FinalDate g) (Rand g) (PendingRiderHostile g) (PendingEatingLevel g) (PendingRiderCount g) (HuntWord g) (FortAvailable g) (LootSites g).
Definition set_GameOver v g := mkGameState (Heap g) (Players g) (CurrentPlayerIdx g) (TurnNumber g) (Week g) (Day g) (Mileage g) (Food g) (Bullets g) (Clothing g) (MiscSupplies g) (Cash g) (OxenCost g) (DistanceTraveled g) (Phase g) (EventLog g) v (Win g) (FinalDate g) (Rand g) (PendingRiderHostile g) (PendingEatingLevel g) (PendingRiderCount g) (HuntWord g) (FortAvailable g) (LootSites g).
Definition set_Win v g := mkGameState (Heap g) (Players g) (CurrentPlayerIdx g) (TurnNumber g) (Week g) (Day g) (Mileage g) (Food g) (Bullets g) (Clothing g) (MiscSupplies g) (Cash g) (OxenCost g) (DistanceTraveled g) (Phase g) (EventLog g) (GameOver g) v (FinalDate g) (Rand g) (PendingRiderHostile g) (PendingEatingLevel g) (PendingRiderCount g) (HuntWord g) (FortAvailable g) (LootSites g).
Definition set_FinalDate v g := mkGameState (Heap g) (Players g) (CurrentPlayerIdx g) (TurnNumber g) (Week g) (Day g) (Mileage g) (Food g) (Bullets g) (Clothing g) (MiscSupplies g) (Cash g) (OxenCost g) (DistanceTraveled g) (Phase g) (EventLog g) (GameOver g) (Win g) v (Rand g) (PendingRiderHostile g) (PendingEatingLevel g) (PendingRiderCount g) (HuntWord g) (FortAvailable g) (LootSites g).
Definition set_Rand v g := mkGameState (Heap g) (Players g) (CurrentPlayerIdx g) (TurnNumber g) (Week g) (Day g) (Mileage g) (Food g) (Bullets g) (Clothing g) (MiscSupplies g) (Cash g) (OxenCost g) (DistanceTraveled g) (Phase g) (EventLog g) (GameOver g) (Win g) (FinalDate g) v (PendingRiderHostile g) (PendingEatingLevel g) (PendingRiderCount g) (HuntWord g) (FortAvailable g) (LootSites g).
Definition set_PendingRiderHostile v g := mkGameState (Heap g) (Players g) (CurrentPlayerIdx g) (TurnNumber g) (Week g) (Day g) (Mileage g) (Food g) (Bullets g) (Clothing g) (MiscSupplies g) (Cash g) (OxenCost g) (DistanceTraveled g) (Phase g) (EventLog g) (GameOver g) (Win g) (FinalDate g) (Rand g) v (PendingEatingLevel g) (PendingRiderCount g) (HuntWord g) (FortAvailable g) (LootSites g).
Definition set_PendingEatingLevel v g := mkGameState (Heap g) (Players g) (CurrentPlayerIdx g) (TurnNumber g) (Week g) (Day g) (Mileage g) (Food g) (Bullets g) (Clothing g) (MiscSupplies g) (Cash g) (OxenCost g) (DistanceTraveled g) (Phase g) (EventLog g) (GameOver g) (Win g) (FinalDate g) (Rand g) (PendingRiderHostile g) v (PendingRiderCount g) (HuntWord g) (FortAvailable g) (LootSites g).
Definition set_PendingRiderCount v g := mkGameState (Heap g) (Players g) (CurrentPlayerIdx g) (TurnNumber g) (Week g) (Day g) (Mileage g) (Food g) (Bullets g) (Clothing g) (MiscSupplies g) (Cash g) (OxenCost g) (DistanceTraveled g) (Phase g) (EventLog g) (GameOver g) (Win g) (FinalDate g) (Rand g) (PendingRiderHostile g) (PendingEatingLevel g) v (HuntWord g) (FortAvailable g) (LootSites g).
Definition set_HuntWord v g := mkGameState (Heap g) (Players g) (CurrentPlayerIdx g) (TurnNumber g) (Week g) (Day g) (Mileage g) (Food g) (Bullets g) (Clothing g) (MiscSupplies g) (Cash g) (OxenCost g) (DistanceTraveled g) (Phase g) (EventLog g) (GameOver g) (Win g) (FinalDate g) (Rand g) (PendingRiderHostile g) (PendingEatingLevel g) (PendingRiderCount g) v (FortAvailable g) (LootSites g).
Definition set_FortAvailable v g := mkGameState (Heap g) (Players g) (CurrentPlayerIdx g) (TurnNumber g) (Week g) (Day g) (Mileage g) (Food g) (Bullets g) (Clothing g) (MiscSupplies g) (Cash g) (OxenCost g) (DistanceTraveled g) (Phase g) (EventLog g) (GameOver g) (Win g) (FinalDate g) (Rand g) (PendingRiderHostile g) (PendingEatingLevel g) (PendingRiderCount g) (HuntWord g) v (LootSites g).
Definition set_LootSites v g := mkGameState (Heap g) (Players g) (CurrentPlayerIdx g) (TurnNumber g) (Week g) (Day g) (Mileage g) (Food g) (Bullets g) (Clothing g) (MiscSupplies g) (Cash g) (OxenCost g) (DistanceTraveled g) (Phase g) (EventLog g) (GameOver g) (Win g) (FinalDate g) (Rand g) (PendingRiderHostile g) (PendingEatingLevel g) (PendingRiderCount g) (HuntWord g) (FortAvailable g) v.

Definition set_Party v p := mkPlayer (ID p) (Name p) (PType p) v (Connected p) (ShootingRank p) (Alive p).
Definition set_Alive v p := mkPlayer (ID p) (Name p) (PType p) (Party p) (Connected p) (ShootingRank p) v.
Definition set_ID v p := mkPlayer v (Name p) (PType p) (Party p) (Connected p) (ShootingRank p) (Alive p).

(** ** The engine as a state transformer *)

(** A method of [*GameState] returning [A]. *)
Definition M (A : Type) : Type := GameState -> A * GameState.

Definition ret {A} (x : A) : M A := fun g => (x, g).
Definition bind {A B} (m : M A) (k : A -> M B) : M B :=
  fun g => let '(x, g') := m g in k x g'.
Definition get : M GameState := fun g => (g, g).
Definition modify (f : GameState -> GameState) : M unit := fun g => (tt, f g).

Notation "x <- c ;; k" := (bind c (fun x => k))
  (at level 100, c at next level, right associativity).
Notation "c ;;; k" := (bind c (fun _ => k))
  (at level 100, right associativity).

(** The line feed the Go literals write as a backslash followed by n. *)
Definition nl : string := String (Ascii.ascii_of_nat 10) EmptyString.
(** A text followed by a line feed. *)
Definition ln (s : string) : string := s +:+ nl.

(** [g.Rand.Float64()]. *)
Definition Float64 : M Q := fun g =>
  let r := Rand g in
  (floats r (cursor r), set_Rand (mkRand (floats r) (ints r) (S (cursor r))) g).

(** [g.Rand.Intn(n)], for [n > 0]. *)
Definition Intn (n : nat) : M nat := fun g =>
  let r := Rand g in
  (Z.to_nat (ints r (cursor r) mod Z.of_nat n),
   set_Rand (mkRand (floats r) (ints r) (S (cursor r))) g).

(** The value read through a reference that is not allocated.  The engine
    and the server only hold references returned by [AddPlayer], so this
    value is never observed in a state they produce. *)
Definition nilPlayer : Player :=
  mkPlayer EmptyString EmptyString PlayerTypeHuman [] false 0 false.

(** [*p] *)
Definition deref (a : ptr) (g : GameState) : Player :=
  default nilPlayer (Heap g !! a).

(** [*p = v] *)
Definition store (a : ptr) (v : Player) (g : GameState) : GameState :=
  set_Heap (<[a := v]> (Heap g)) g.

Definition TrailLength : Z := 4500.
Definition MountainThreshold : Z := 2500.
Definition shootingWords : list string := ["BANG"; "BLAM"; "POW"; "WHAM"].

Definition NewGameState (rnd : RandSrc) : GameState :=
  mkGameState [] [] 0 0 1 1 0 0 0 0 0 0 0 0 PhaseStart [] false false
    EmptyString rnd false 0 0 EmptyString false [].

Definition GetCurrentPlayer (g : GameState) : option ptr :=
  if (length (Players g) <=? CurrentPlayerIdx g)%nat then None
  else Players g !! CurrentPlayerIdx g.

Definition is_alive_human (g : GameState) (a : ptr) : bool :=
  PlayerType_eqb (PType (deref a g)) PlayerTypeHuman && Alive (deref a g).

Definition GetHumanPlayers (g : GameState) : list ptr :=
  List.filter (is_alive_human g) (Players g).

Definition GetAllHumanPlayers (g : GameState) : list ptr :=
  List.filter (fun a => PlayerType_eqb (PType (deref a g)) PlayerTypeHuman)
    (Players g).

(** [for idx, p := range l { if test p { return idx } }]: the index of the
    first element passing the test. *)
Fixpoint index_where {A} (test : A -> bool) (l : list A) : option nat :=
  match l with
  | [] => None
  | x :: l' => if test x then Some 0%nat else S <$> index_where test l'
  end.

(** The loop [for idx, p := range g.Players { if test p { g.CurrentPlayerIdx
    = idx; break } }]; the result tells whether the assignment happened. *)
Definition point_at (test : ptr -> bool) (g : GameState) : bool * GameState :=
  match index_where test (Players g) with
  | Some idx => (true, set_CurrentPlayerIdx idx g)
  | None => (false, g)
  end.

Definition NextTurn (g : GameState) : GameState :=
  let humans := GetHumanPlayers g in
  match humans with
  | [] => set_GameOver true g
  | h0 :: rest =>
    let g := set_TurnNumber (wrap64 (TurnNumber g + 1)) g in
    let g := if (Z.rem (TurnNumber g) 4 =? 0)%Z
             then set_Week (wrap64 (Week g + 1)) g else g in
    match rest with
    | [] => snd (point_at (Nat.eqb h0) g)
    | _ :: _ =>
      let currentHuman := GetCurrentPlayer g in
      let found_g :=
        match index_where (fun h => bool_decide (Some h = currentHuman)) humans with
        | Some i =>
          let nextIdx := ((i + 1) mod length humans)%nat in
          match humans !! nextIdx with
          | Some nh => point_at (Nat.eqb nh) g
          | None => (false, g)
          end
        | None => (false, g)
        end in
      if fst found_g then snd found_g
      else snd (point_at (is_alive_human (snd found_g)) (snd found_g))
    end
  end.

Definition newParty : list PartyMember :=
  (fun n => mkPartyMember n true 100 false) <$> ["You"; "Wife"; "Son"; "Daughter"; "Baby"].

(** [generateID()], at the time [now] (nanoseconds). *)
Definition generateID (now : Z) : string := "player-" +:+ fmt_d now.

(** [g.AddPlayer(name, pType)]: the new [Player] is allocated at the end of
    the store and its reference appended to the roster. *)
Definition AddPlayer (now : Z) (name : string) (pType : PlayerType) : M ptr := fun g =>
  let a := length (Heap g) in
  let player := mkPlayer (generateID now) name pType newParty true 3 true in
  (a, set_Players (Players g ++ [a]) (set_Heap (Heap g ++ [player]) g)).

(** [g.ResetGame()].  The [Player]s stay in the store, where the clients
    that still refer to them find them. *)
Definition ResetGame (g : GameState) : GameState :=
  mkGameState (Heap g) [] 0 0 1 1 0 0 0 0 0 0 0 0 PhaseStart [] false false
    EmptyString (Rand g) false 0 0 EmptyString false [].

Definition clamp0 (x : Q) : Q := if Qltb x 0 then 0%Q else x.

Definition ClampResources (g : GameState) : GameState :=
  let g := set_Food (clamp0 (Food g)) g in
  let g := set_Bullets (clamp0 (Bullets g)) g in
  let g := set_Clothing (clamp0 (Clothing g)) g in
  let g := set_MiscSupplies (clamp0 (MiscSupplies g)) g in
  let g := set_Cash (clamp0 (Cash g)) g in
  let g := set_Mileage (clamp0 (Mileage g)) g in
  set_OxenCost (clamp0 (OxenCost g)) g.

Definition CheckAllPlayersDead : M bool := fun g =>
  if existsb (is_alive_human g) (Players g) then (false, g)
  else (true, set_GameOver true g).

(** [g.DamagePartyMember(p, memberIdx, amount)] for a reference [p] that is
    not nil. *)
Definition DamagePartyMember (a : ptr) (memberIdx : nat) (amount : Z) : M string := fun g =>
  let p := deref a g in
  match Party p !! memberIdx with
  | None => (EmptyString, g)
  | Some m =>
    if negb (MemberAlive m) then (EmptyString, g)
    else
      let h := wrap64 (Health m - amount) in
      if (h <=? 0)%Z then
        let m' := mkPartyMember (MemberName m) false 0 (Injured m) in
        let p1 := set_Party (<[memberIdx := m']> (Party p)) p in
        let msg := ln (MemberName m +:+ " has died!") in
        if (memberIdx =? 0)%nat then
          let g1 := store a (set_Alive false p1) g in
          let g2 := snd (CheckAllPlayersDead g1) in
          (msg +:+ ln (Name p +:+ "'s party leader has fallen! They are out of the game."), g2)
        else (msg, store a p1 g)
      else
        let m' := mkPartyMember (MemberName m) true h true in
        (ln (MemberName m +:+ " took " +:+ fmt_d amount +:+ " damage! (HP: " +:+ fmt_d h +:+ ")"),
         store a (set_Party (<[memberIdx := m']> (Party p)) p) g)
  end.

(** The indices of the living members of a party. *)
Definition alive_indices (party : list PartyMember) : list nat :=
  List.filter (fun i => match party !! i with Some m => MemberAlive m | None => false end)
    (seq 0 (length party)).

Definition DamageRandomMember (a : ptr) (amount : Z) : M string := fun g =>
  let alive := alive_indices (Party (deref a g)) in
  match alive with
  | [] => (EmptyString, g)
  | _ :: _ =>
    let '(k, g1) := Intn (length alive) g in
    DamagePartyMember a (default 0%nat (alive !! k)) amount g1
  end.

(** Compound assignments [g.F += x] and [g.F -= x]. *)
Definition add_Mileage (x : Q) : M unit := modify (fun g => set_Mileage (Mileage g + x) g).
Definition sub_Mileage (x : Q) : M unit := modify (fun g => set_Mileage (Mileage g - x) g).
Definition add_Food (x : Q) : M unit := modify (fun g => set_Food (Food g + x) g).
Definition sub_Food (x : Q) : M unit := modify (fun g => set_Food (Food g - x) g).
Definition add_Bullets (x : Q) : M unit := modify (fun g => set_Bullets (Bullets g + x) g).
Definition sub_Bullets (x : Q) : M unit := modify (fun g => set_Bullets (Bullets g - x) g).
Definition add_Clothing (x : Q) : M unit := modify (fun g => set_Clothing (Clothing g + x) g).
Definition sub_Clothing (x : Q) : M unit := modify (fun g => set_Clothing (Clothing g - x) g).
Definition add_MiscSupplies (x : Q) : M unit := modify (fun g => set_MiscSupplies (MiscSupplies g + x) g).
Definition sub_MiscSupplies (x : Q) : M unit := modify (fun g => set_MiscSupplies (MiscSupplies g - x) g).
Definition add_Cash (x : Q) : M unit := modify (fun g => set_Cash (Cash g + x) g).
Definition sub_Cash (x : Q) : M unit := modify (fun g => set_Cash (Cash g - x) g).
Definition add_OxenCost (x : Q) : M unit := modify (fun g => set_OxenCost (OxenCost g + x) g).
Definition sub_OxenCost (x : Q) : M unit := modify (fun g => set_OxenCost (OxenCost g - x) g).

(** One river band of [HandleRiverCrossing]: the mishap draw, the two
    losses, the mileage lost, the clamp and the damage. *)
Definition river_band (p : ptr) (title mishap safe : string) (chance : Q)
    (lose1 lose2 : M unit) (span base : Q) (damage : Z) : M string :=
  r <- Float64 ;;
  if Qltb r chance then
    lose1 ;;; lose2 ;;;
    r2 <- Float64 ;;
    sub_Mileage (r2 * span + base) ;;;
    modify ClampResources ;;;
    d <- DamageRandomMember p damage ;;
    ret (ln title +:+ ln mishap +:+ d)
  else ret (ln title +:+ ln safe).

Definition HandleRiverCrossing (p : ptr) : M string :=
  g <- get ;;
  let m := Mileage g in
  if Qleb 600 m && Qltb m 1200 then
    river_band p "KANSAS RIVER CROSSING" "Your wagon was swamped!" "You crossed safely."
      0.15 (sub_Food 30) (sub_Clothing 20) 20 20 5
  else if Qleb 2000 m && Qltb m 2600 then
    river_band p "GREEN RIVER CROSSING" "Strong currents! You lost supplies!" "Safe crossing."
      0.2 (sub_Food 40) (sub_MiscSupplies 10) 30 25 10
  else if Qleb 3000 m && Qltb m 3400 then
    river_band p "SNAKE RIVER CROSSING" "Treacherous waters! The wagon nearly capsized!"
      "Careful crossing - you made it!"
      0.22 (sub_Food 35) (sub_Bullets 30) 25 20 15
  else if Qleb 3800 m && Qltb m 4200 then
    river_band p "COLUMBIA RIVER - THE FINAL RIVER" "Dangerous rapids! Supplies lost!"
      "You made it across!"
      0.25 (sub_Food 50) (sub_Clothing 30) 40 30 20
  else ret EmptyString.

Definition illnessChance (eatingLevel : Z) : Q :=
  if (eatingLevel =? 1)%Z then 0.65
  else if (eatingLevel =? 2)%Z then 0.50
  else if (eatingLevel =? 3)%Z then 0.25
  else 0.

Definition HandleIllness (p : ptr) (eatingLevel : Z) : M string :=
  r <- Float64 ;;
  if Qltb r (illnessChance eatingLevel) then
    severity <- Float64 ;;
    first <-
      (if Qltb severity 0.33 then
         sub_Mileage 5 ;;; sub_MiscSupplies 2 ;;;
         d <- DamageRandomMember p 10 ;;
         ret (ln "MILD ILLNESS - Medicine used" +:+ d)
       else if Qltb severity 0.66 then
         sub_Mileage 5 ;;; sub_MiscSupplies 5 ;;;
         d <- DamageRandomMember p 20 ;;
         ret (ln "BAD ILLNESS - Medicine used" +:+ d)
       else
         sub_MiscSupplies 10 ;;; sub_Cash 20 ;;;
         d <- DamageRandomMember p 30 ;;
         ret (ln "SERIOUS ILLNESS - Must stop for medical attention"
              +:+ ln "Doctor's bill is $20" +:+ d)) ;;
    g <- get ;;
    if Qltb (MiscSupplies g) 0 && negb (GameOver g) then
      d <- DamageRandomMember p 40 ;;
      ret (first +:+ ln "You ran out of medical supplies!" +:+ d)
    else ret first
  else ret EmptyString.

Definition CheckRiders : M bool :=
  g <- get ;;
  let baseChance := (Mileage g / 100 - 4)%Q in
  let chance := ((baseChance * baseChance + 72) / (baseChance * baseChance + 12))%Q in
  r <- Float64 ;;
  let chance := (chance * 10 * r)%Q in
  if Qltb 1 chance then ret false
  else
    h <- Float64 ;;
    modify (set_PendingRiderHostile (Qltb h 0.8)) ;;;
    n <- Intn 8 ;;
    modify (set_PendingRiderCount (wrap64 (3 + Z.of_nat n))) ;;;
    ret true.

(** [g.getShootingTime(p)], reading the two fields of [p] it uses. *)
Definition getShootingTime (pType : PlayerType) (shootingRank : Z) : M Q :=
  match pType with
  | PlayerTypeCPU =>
    r <- Float64 ;;
    ret (0.5 + r * 1.5 - float64 (wrap64 (shootingRank - 1)) * 0.15)%Q
  | PlayerTypeHuman => ret 0%Q
  end.

Definition calculateAccuracy (shootTime : Q) (shootingRank : Z) : Q :=
  let baseTime := (shootTime * 3600)%Q in
  let accuracy := (baseTime - float64 (wrap64 (shootingRank - 1)))%Q in
  let accuracy := if Qleb accuracy 0 then 0%Q else accuracy in
  if Qltb 9 accuracy then 9%Q else accuracy.

(** The accuracy of the shot of player [p]. *)
Definition shot_accuracy (p : ptr) : M Q :=
  g <- get ;;
  let pl := deref p g in
  shootTime <- getShootingTime (PType pl) (ShootingRank pl) ;;
  ret (calculateAccuracy shootTime (ShootingRank pl)).

(** The tail shared by every exit of [ResolveRiderTactic] but one. *)
Definition riders_epilogue (p : ptr) (text : string) : M string :=
  g <- get ;;
  out <- (if Qltb (Bullets g) 0 then
            d <- DamageRandomMember p 50 ;;
            ret (ln "You ran out of bullets in the fight!" +:+ d)
          else ret EmptyString) ;;
  modify ClampResources ;;;
  ret (text +:+ out).

Definition ResolveRiderTactic (p : ptr) (tactic : Z) : M string :=
  g <- get ;;
  let hostile := PendingRiderHostile g in
  if hostile then
    if (tactic =? 1)%Z then
      add_Mileage 20 ;;; sub_MiscSupplies 15 ;;; sub_Bullets 50 ;;; sub_OxenCost 40 ;;;
      r <- Float64 ;;
      t <- (if Qltb r 0.3 then
              d <- DamageRandomMember p 15 ;;
              ret (ln "They got some shots off as you fled!" +:+ d)
            else ret EmptyString) ;;
      riders_epilogue p (ln "You fled from the riders!" +:+ t)
    else if (tactic =? 2)%Z then
      accuracy <- shot_accuracy p ;;
      sub_Bullets (accuracy * 40 + 80) ;;;
      t <- (if Qleb accuracy 1 then ret (ln "NICE SHOOTING - You drove them off!")
            else if Qltb 4 accuracy then
              sub_Cash 20 ;;;
              d <- DamageRandomMember p 25 ;;
              ret (ln "LOUSY SHOT - You got knifed!" +:+ ln "You have to see the doctor." +:+ d)
            else
              d <- DamageRandomMember p 15 ;;
              ret (ln "Kinda slow with your Colt .45" +:+ d)) ;;
      riders_epilogue p t
    else if (tactic =? 3)%Z then
      r <- Float64 ;;
      if Qltb 0.8 r then
        modify ClampResources ;;;
        ret (ln "They did not attack.")
      else
        sub_Bullets 50 ;;; sub_MiscSupplies 15 ;;;
        d <- DamageRandomMember p 20 ;;
        riders_epilogue p (ln "They attacked and you defended." +:+ d)
    else if (tactic =? 4)%Z then
      accuracy <- shot_accuracy p ;;
      sub_Bullets (accuracy * 30 + 80) ;;;
      sub_Mileage 25 ;;;
      t <- (if Qleb accuracy 1 then ret (ln "NICE SHOOTING - You drove them off!")
            else if Qltb 4 accuracy then
              sub_Cash 20 ;;;
              d <- DamageRandomMember p 30 ;;
              ret (ln "LOUSY SHOT - You got knifed!" +:+ d)
            else
              d <- DamageRandomMember p 15 ;;
              ret (ln "KINDA SLOW - They got some licks in" +:+ d)) ;;
      riders_epilogue p t
    else riders_epilogue p EmptyString
  else
    if (tactic =? 1)%Z then
      add_Mileage 15 ;;; sub_OxenCost 10 ;;;
      riders_epilogue p (ln "You ran from friendly riders. Wasted energy.")
    else if (tactic =? 2)%Z then
      sub_Mileage 5 ;;; sub_Bullets 50 ;;;
      d <- DamageRandomMember p 20 ;;
      riders_epilogue p (ln "You attacked friendly riders! They fought back." +:+ d)
    else if (tactic =? 3)%Z then
      riders_epilogue p (ln "They passed by peacefully. Nothing happened.")
    else if (tactic =? 4)%Z then
      sub_Mileage 20 ;;;
      riders_epilogue p (ln "You circled wagons but they meant no harm. Time lost.")
    else riders_epilogue p EmptyString.

(** The loop of [cpuChooseTactic] over the weights 0.2, 0.3, 0.2, 0.3 with
    its running sum. *)
Fixpoint choose_weighted (r sum : Q) (i : Z) (weights : list Q) : Z :=
  match weights with
  | [] => 3
  | w :: ws =>
    let sum := (sum + w)%Q in
    if Qleb r sum then (i + 1)%Z else choose_weighted r sum (i + 1)%Z ws
  end.

Definition cpuChooseTactic (hostile : bool) : M Z :=
  if negb hostile then ret 3%Z
  else
    r <- Float64 ;;
    ret (choose_weighted r 0 0 [0.2; 0.3; 0.2; 0.3]%Q).

(** [HandleRiders]: the automatic resolution of a rider encounter. *)
Definition HandleRiders (p : ptr) : M string :=
  seen <- CheckRiders ;;
  if negb seen then ret EmptyString
  else
    g <- get ;;
    let head :=
      if PendingRiderHostile g
      then ln ("RIDERS AHEAD! " +:+ fmt_d (PendingRiderCount g) +:+ " hostile riders!")
      else ln ("RIDERS AHEAD. " +:+ fmt_d (PendingRiderCount g)
               +:+ " riders, they don't look hostile.") in
    tactic <- (match PType (deref p g) with
               | PlayerTypeCPU => cpuChooseTactic (PendingRiderHostile g)
               | PlayerTypeHuman => ret 3%Z
               end) ;;
    t <- ResolveRiderTactic p tactic ;;
    ret (head +:+ t).

(** ** Random events *)

Definition eventWagonBreakdown (p : ptr) : M string :=
  r <- Float64 ;;
  sub_Mileage (15 + r * 5) ;;;
  sub_MiscSupplies 8 ;;;
  ret (ln "WAGON BREAKS DOWN - Lose time and supplies fixing it").

Definition eventOxInjury (p : ptr) : M string :=
  sub_Mileage 25 ;;; sub_OxenCost 20 ;;;
  ret (ln "OX INJURES LEG - Slows you down rest of trip").

(** [len(p.Party) > i && p.Party[i].Alive] *)
Definition member_alive (p : ptr) (i : nat) (g : GameState) : bool :=
  match Party (deref p g) !! i with
  | Some m => MemberAlive m
  | None => false
  end.

Definition eventDaughterBrokenArm (p : ptr) : M string :=
  r <- Float64 ;;
  sub_Mileage (5 + r * 4) ;;;
  r2 <- Float64 ;;
  sub_MiscSupplies (2 + r2 * 3) ;;;
  g <- get ;;
  d <- (if member_alive p 3 g then DamagePartyMember p 3 10 else ret EmptyString) ;;
  ret (ln "BAD LUCK - Your daughter broke her arm"
       +:+ ln "You had to stop and use supplies to make a sling" +:+ d).

Definition eventOxWandersOff (p : ptr) : M string :=
  sub_Mileage 17 ;;;
  ret (ln "OX WANDERS OFF - Spend time looking for it").

Definition eventSonGetsLost (p : ptr) : M string :=
  sub_Mileage 10 ;;;
  g <- get ;;
  d <- (if member_alive p 2 g then DamagePartyMember p 2 8 else ret EmptyString) ;;
  ret (ln "YOUR SON GETS LOST - Spend half the day looking for him" +:+ d).

Definition eventUnsafeWater (p : ptr) : M string :=
  r <- Float64 ;;
  sub_Mileage (10 + r * 10) ;;;
  d <- DamageRandomMember p 8 ;;
  ret (ln "UNSAFE WATER - Lose time looking for clean spring" +:+ d).

Definition eventHeavyRains (p : ptr) : M string :=
  g <- get ;;
  if Qltb (float64 MountainThreshold) (Mileage g) then
    r <- Float64 ;;
    if Qltb (22 + r * 4) (Clothing g) then
      ret (ln "COLD WEATHER - You have enough clothing to keep you warm")
    else
      d <- DamageRandomMember p 12 ;;
      ret (ln "COLD WEATHER - You don't have enough clothing! Risk of illness." +:+ d)
  else
    sub_Food 10 ;;; sub_Bullets 50 ;;; sub_MiscSupplies 15 ;;;
    r <- Float64 ;;
    sub_Mileage (10 + r * 10) ;;;
    ret (ln "HEAVY RAINS - Time and supplies lost").

(** The shot of the anonymous gunman [&Player{Type: PlayerTypeCPU}], whose
    [ShootingRank] is the zero value, rated at rank 3. *)
Definition cpu_shot_accuracy : M Q :=
  shootTime <- getShootingTime PlayerTypeCPU 0 ;;
  ret (calculateAccuracy shootTime 3).

Definition eventBandits (p : ptr) : M string :=
  accuracy <- cpu_shot_accuracy ;;
  sub_Bullets (20 * accuracy) ;;;
  g <- get ;;
  if Qltb (Bullets g) 0 then
    modify (fun g => set_Cash (Cash g / 3) g) ;;;
    sub_Cash 20 ;;; sub_OxenCost 20 ;;; sub_MiscSupplies 5 ;;;
    d <- DamageRandomMember p 30 ;;
    ret (ln "BANDITS ATTACK - You ran out of bullets! They took cash and an ox!" +:+ d)
  else if Qleb accuracy 1 then
    r1 <- Float64 ;; r2 <- Float64 ;; r3 <- Float64 ;;
    let lootCash := (30 + r1 * 50)%Q in
    let lootFood := (15 + r2 * 25)%Q in
    let lootBullets := (30 + r3 * 70)%Q in
    add_Cash lootCash ;;; add_Food lootFood ;;; add_Bullets lootBullets ;;;
    modify ClampResources ;;;
    ret (ln "BANDITS ATTACK - Quickest draw outside of Dodge City! You got 'em!"
         +:+ ln ("You looted their camp: $" +:+ fmt_f0 lootCash +:+ " cash, "
                 +:+ fmt_f0 lootFood +:+ " food, " +:+ fmt_f0 lootBullets +:+ " bullets!"))
  else
    sub_OxenCost 20 ;;; sub_MiscSupplies 5 ;;;
    d <- DamageRandomMember p 20 ;;
    ret (ln "BANDITS ATTACK - You got shot in the leg! Better have a doc look at it." +:+ d).

Definition eventFireInWagon (p : ptr) : M string :=
  sub_Food 40 ;;; sub_Bullets 40 ;;;
  r <- Float64 ;;
  sub_MiscSupplies (3 + r * 8) ;;;
  sub_Mileage 15 ;;;
  r2 <- Float64 ;;
  d <- (if Qltb r2 0.3 then DamageRandomMember p 15 else ret EmptyString) ;;
  ret (ln "FIRE IN WAGON - Food and supplies damaged" +:+ d).

Definition eventLostInFog (p : ptr) : M string :=
  r <- Float64 ;;
  sub_Mileage (10 + r * 5) ;;;
  ret (ln "LOST IN HEAVY FOG - Time is lost").

Definition eventSnakeBite (p : ptr) : M string :=
  sub_Bullets 10 ;;; sub_MiscSupplies 5 ;;;
  g <- get ;;
  if Qltb (MiscSupplies g) 0 then
    d <- DamageRandomMember p 40 ;;
    ret ("SNAKE BITE! " +:+ ln "No medicine available!" +:+ d)
  else
    d <- DamageRandomMember p 25 ;;
    ret ("SNAKE BITE! " +:+ ln "You killed a poisonous snake after it bit you" +:+ d).

Definition eventWagonSwamped (p : ptr) : M string :=
  sub_Food 30 ;;; sub_Clothing 20 ;;;
  r <- Float64 ;;
  sub_Mileage (20 + r * 20) ;;;
  ret (ln "WAGON GETS SWAMPED FORDING RIVER - Lose food and clothes").

Definition eventWildAnimals (p : ptr) : M string :=
  accuracy <- cpu_shot_accuracy ;;
  g <- get ;;
  if Qltb (Bullets g) 40 then
    d <- DamageRandomMember p 35 ;;
    ret (ln "WILD ANIMALS ATTACK - You were too low on bullets! The wolves overpowered you."
         +:+ d)
  else
    sub_Bullets (20 * accuracy) ;;;
    sub_Clothing (accuracy * 4) ;;;
    sub_Food (accuracy * 8) ;;;
    if Qleb accuracy 2 then ret (ln "NICE SHOOTIN' PARTNER - They didn't get much")
    else
      d <- DamageRandomMember p 15 ;;
      ret (ln "SLOW ON THE DRAW - They got at your food and clothes" +:+ d).

Definition eventHailStorm (p : ptr) : M string :=
  r <- Float64 ;;
  sub_Mileage (5 + r * 10) ;;;
  sub_Bullets 20 ;;;
  r2 <- Float64 ;;
  sub_MiscSupplies (4 + r2 * 3) ;;;
  r3 <- Float64 ;;
  d <- (if Qltb r3 0.2 then DamageRandomMember p 10 else ret EmptyString) ;;
  ret (ln "HAIL STORM - Supplies damaged" +:+ d).

Definition eventBadFood (p : ptr) : M string :=
  d <- DamageRandomMember p 12 ;;
  ret (ln "You got sick from something you ate." +:+ d).

Definition eventAbandonedWagon (p : ptr) : M string :=
  r1 <- Float64 ;; r2 <- Float64 ;; r3 <- Float64 ;;
  let cashFound := (20 + r1 * 30)%Q in
  let foodFound := (20 + r2 * 40)%Q in
  let bulletsFound := (50 + r3 * 100)%Q in
  add_Cash cashFound ;;; add_Food foodFound ;;; add_Bullets bulletsFound ;;;
  modify ClampResources ;;;
  ret (nl +:+ ln "*** LUCKY FIND! ***"
       +:+ ln "You discovered an abandoned wagon by the trail!"
       +:+ ln ("Found: $" +:+ fmt_f0 cashFound +:+ " cash, " +:+ fmt_f0 foodFound
               +:+ " food, " +:+ fmt_f0 bulletsFound +:+ " bullets")).

Definition events : list (ptr -> M string) :=
  [eventWagonBreakdown; eventOxInjury; eventDaughterBrokenArm; eventOxWandersOff;
   eventSonGetsLost; eventUnsafeWater; eventHeavyRains; eventBandits;
   eventFireInWagon; eventLostInFog; eventSnakeBite; eventWagonSwamped;
   eventWildAnimals; eventHailStorm; eventBadFood].

Definition thresholds : list Q :=
  [6; 11; 13; 15; 17; 22; 32; 35; 37; 42; 44; 54; 64; 69; 100]%Q.

Definition HandleRandomEvent (p : ptr) : M string :=
  r0 <- Float64 ;;
  let r := (r0 * 100)%Q in
  let eventIdx := default 0%nat (index_where (Qltb r) thresholds) in
  t <- nth eventIdx events eventWagonBreakdown p ;;
  r2 <- Float64 ;;
  w <- (if Qltb r2 0.05 then eventAbandonedWagon p else ret EmptyString) ;;
  ret (t +:+ w).

(** ** Turn resolution *)

Definition HandleMountains (p : ptr) : M string :=
  g <- get ;;
  let mileRef := (Mileage g / 100)%Q in
  let baseChance := (mileRef - float64 MountainThreshold / 100)%Q in
  let mountainFactor :=
    (9 - (baseChance * baseChance + 72) / (baseChance * baseChance + 12))%Q in
  r0 <- Float64 ;;
  rugged <-
    (if Qltb 0 (r0 * 10 * mountainFactor) then
       r <- Float64 ;;
       if Qleb r 0.1 then
         sub_Mileage 60 ;;;
         ret (ln "RUGGED MOUNTAINS"
              +:+ ln "YOU GOT LOST - Lose valuable time trying to find trail!")
       else if Qleb r 0.11 then
         sub_MiscSupplies 5 ;;; sub_Bullets 20 ;;;
         r2 <- Float64 ;;
         sub_Mileage (20 + r2 * 30) ;;;
         ret (ln "RUGGED MOUNTAINS" +:+ ln "WAGON DAMAGED! - Lose time and supplies")
       else
         r2 <- Float64 ;;
         sub_Mileage (45 + r2 * 50) ;;;
         ret (ln "RUGGED MOUNTAINS" +:+ ln "THE GOING GETS SLOW")
     else ret EmptyString) ;;
  g <- get ;;
  blizzard <-
    (if Qltb 3800 (Mileage g) && Qltb (Mileage g) (float64 TrailLength) then
       r <- Float64 ;;
       if Qltb r 0.3 then
         sub_Food 25 ;;; sub_MiscSupplies 10 ;;; sub_Bullets 30 ;;;
         r2 <- Float64 ;;
         sub_Mileage (30 + r2 * 40) ;;;
         g <- get ;;
         r3 <- Float64 ;;
         ill <- (if Qltb (Clothing g) (18 + r3 * 2) then HandleIllness p 2
                 else ret EmptyString) ;;
         ret (ln "BLIZZARD IN MOUNTAIN PASS - Time and supplies lost" +:+ ill)
       else ret EmptyString
     else ret EmptyString) ;;
  modify ClampResources ;;;
  ret (nl +:+ ln "*** MOUNTAINS ***" +:+ rugged +:+ blizzard).

(** The calendar of Go's [time] package, as far as [calculateArrivalDate]
    uses it: the day number of a civil date and back (proleptic Gregorian
    calendar, day 0 being 1 March of year 0). *)
Definition days_from_civil (y m d : Z) : Z :=
  let y := if (m <=? 2)%Z then (y - 1)%Z else y in
  let era := (y / 400)%Z in
  let yoe := (y - era * 400)%Z in
  let mp := if (2 <? m)%Z then (m - 3)%Z else (m + 9)%Z in
  let doy := ((153 * mp + 2) / 5 + d - 1)%Z in
  let doe := (yoe * 365 + yoe / 4 - yoe / 100 + doy)%Z in
  (era * 146097 + doe)%Z.

(** Month and day of the civil date with a given day number. *)
Definition civil_from_days (z : Z) : Z * Z :=
  let era := (z / 146097)%Z in
  let doe := (z - era * 146097)%Z in
  let yoe := ((doe - doe / 1460 + doe / 36524 - doe / 146096) / 365)%Z in
  let doy := (doe - (365 * yoe + yoe / 4 - yoe / 100))%Z in
  let mp := ((5 * doy + 2) / 153)%Z in
  let d := (doy - (153 * mp + 2) / 5 + 1)%Z in
  let m := if (mp <? 10)%Z then (mp + 3)%Z else (mp - 9)%Z in
  (m, d).

(** [time.Month.String()] *)
Definition month_name (m : Z) : string :=
  nth (Z.to_nat (m - 1))
    ["January"; "February"; "March"; "April"; "May"; "June"; "July"; "August";
     "September"; "October"; "November"; "December"] "January".

Definition calculateArrivalDate (g : GameState) : string :=
  let days := wrap64 (TurnNumber g * 7) in
  let '(month, day) := civil_from_days (days_from_civil 1847 3 29 + days) in
  month_name month +:+ " " +:+ fmt_d day +:+ ", 1847".

(** [g.HandleFinalTurn(p)].  Every caller discards the congratulation text
    it returns; the model keeps what it does to the state. *)
Definition HandleFinalTurn (p : ptr) : M unit :=
  g <- get ;;
  let arrivalDate := calculateArrivalDate g in
  modify (set_GameOver true) ;;;
  modify (set_Win true) ;;;
  modify (set_FinalDate arrivalDate).

Definition HandleEatingResult (p : ptr) (eatingLevel : Z) : M string :=
  HandleIllness p eatingLevel.

(** [!g.GameOver && p.Alive] *)
Definition still_playing (p : ptr) (g : GameState) : bool :=
  negb (GameOver g) && Alive (deref p g).

Definition FinishTurn (p : ptr) (eatingLevel : Z) : M string :=
  g <- get ;;
  ev <- (if still_playing p g then HandleRandomEvent p else ret EmptyString) ;;
  g <- get ;;
  mo <- (if still_playing p g && Qltb (float64 MountainThreshold) (Mileage g)
         then HandleMountains p else ret EmptyString) ;;
  HandleEatingResult p eatingLevel ;;;
  modify ClampResources ;;;
  g <- get ;;
  (if negb (GameOver g) && Qleb (float64 TrailLength) (Mileage g)
   then HandleFinalTurn p else ret tt) ;;;
  ret (ev +:+ mo).

(** The body shared by [HandleHunting] and [HandleHuntShoot] once the
    accuracy is known; [big] is the accuracy up to which the shot is a
    bull's eye. *)
Definition hunt_outcome (accuracy big : Q) : M string :=
  shot <-
    (if Qleb accuracy big then
       r <- Float64 ;;
       let foodGained := (52 + r * 6)%Q in
       add_Food foodGained ;;;
       ret (ln "RIGHT BETWEEN THE EYES! You got a big one!"
            +:+ ln ("Full bellies tonight! (+" +:+ fmt_f0 foodGained +:+ " food)"))
     else
       r <- Float64 ;;
       if Qltb (r * 100) (13 * accuracy) then
         ret (ln "You missed - and your dinner got away...")
       else
         let foodGained := (48 - 2 * accuracy)%Q in
         add_Food foodGained ;;;
         ret (ln ("Nice shot! Right on target! Good eatin' tonight! (+"
                  +:+ fmt_f0 foodGained +:+ " food)"))) ;;
  sub_Bullets (10 + 3 * accuracy) ;;;
  modify (fun g => if Qltb (Bullets g) 0 then set_Bullets 0 g else g) ;;;
  r <- Float64 ;;
  let huntTravel := (45 + r * 20)%Q in
  add_Mileage huntTravel ;;;
  modify ClampResources ;;;
  ret (shot +:+ ln ("You traveled " +:+ fmt_f0 huntTravel +:+ " miles while hunting.")).

(** [if g.Mileage >= float64(TrailLength) { g.HandleFinalTurn(p) }] *)
Definition check_win (p : ptr) : M unit :=
  g <- get ;;
  if Qleb (float64 TrailLength) (Mileage g) then HandleFinalTurn p else ret tt.

Definition HandleHunting (p : ptr) : M string :=
  g <- get ;;
  if Qltb (Bullets g) 50 then ret (ln "Not enough bullets to hunt!")
  else
    sub_Bullets 50 ;;;
    accuracy <- shot_accuracy p ;;
    t <- hunt_outcome accuracy 1 ;;
    check_win p ;;;
    ret t.

(** The starvation loop of [ContinueTravel] over the party indices. *)
Fixpoint starve (p : ptr) (idxs : list nat) : M string :=
  match idxs with
  | [] => ret EmptyString
  | i :: rest =>
    g <- get ;;
    d <- (if member_alive p i g then DamagePartyMember p i 20 else ret EmptyString) ;;
    t <- starve p rest ;;
    ret (d +:+ t)
  end.

(** The first half of [ContinueTravel], up to and including the check for
    riders: starvation, eating, the week's travel and the river.  It yields
    the text so far and, unless the leader starved, the eating level of the
    turn and whether riders showed up. *)
Definition travel_leg (p : ptr) : M (string * option (Z * bool)) :=
  g <- get ;;
  let starving := Qltb (Food g) 13 in
  hunger <-
    (if starving then
       t <- starve p (seq 0 (length (Party (deref p g)))) ;;
       ret (ln "FOOD IS CRITICALLY LOW! Your party is starving!" +:+ t)
     else ret EmptyString) ;;
  g <- get ;;
  if starving && negb (Alive (deref p g)) then ret (hunger, None)
  else
    let eatingLevel :=
      match PType (deref p g) with
      | PlayerTypeCPU =>
        if Qltb 200 (Food g) then 3%Z else if Qltb 100 (Food g) then 2%Z else 1%Z
      | PlayerTypeHuman => 2%Z
      end in
    let foodConsumed := wrap64 (8 + 5 * eatingLevel) in
    sub_Food (float64 foodConsumed) ;;;
    g <- get ;;
    r <- Float64 ;;
    let baseTravel := (80 + (OxenCost g - 220) / 5 + r * 15)%Q in
    add_Mileage baseTravel ;;;
    let moved := nl +:+ ln ("You traveled " +:+ fmt_f0 baseTravel +:+ " miles this week.") in
    river <- HandleRiverCrossing p ;;
    g <- get ;;
    riders <- (if Qltb 1 baseTravel && still_playing p g then CheckRiders else ret false) ;;
    ret (hunger +:+ moved +:+ river, Some (eatingLevel, riders)).

Definition ContinueTravel (p : ptr) : M string :=
  leg <- travel_leg p ;;
  match leg with
  | (text, None) => ret text
  | (text, Some (eatingLevel, riders)) =>
    g <- get ;;
    if riders && PlayerType_eqb (PType (deref p g)) PlayerTypeHuman then
      modify (set_Phase PhaseRiders) ;;;
      modify (set_PendingEatingLevel eatingLevel) ;;;
      ret (text +:+
           (if PendingRiderHostile g
            then nl +:+ ln ("RIDERS AHEAD! " +:+ fmt_d (PendingRiderCount g)
                            +:+ " hostile riders approaching!")
            else nl +:+ ln ("RIDERS AHEAD. " +:+ fmt_d (PendingRiderCount g)
                            +:+ " riders, they don't look hostile.")))
    else
      fight <-
        (if riders then
           tactic <- cpuChooseTactic (PendingRiderHostile g) ;;
           ResolveRiderTactic p tactic
         else ret EmptyString) ;;
      g <- get ;;
      rest <- (if still_playing p g then FinishTurn p eatingLevel else ret EmptyString) ;;
      ret (text +:+ fight +:+ rest)
  end.

Definition GetShootingPrompt : M string :=
  wordIdx <- Intn (length shootingWords) ;;
  ret (nth wordIdx shootingWords EmptyString).

Definition ProcessTurn (p : option ptr) (action : string) : M string :=
  match p with
  | None => ret (ln "Error: Player not found.")
  | Some a =>
    g <- get ;;
    if negb (Alive (deref a g)) then ret (ln "Your party has perished. You are spectating.")
    else
      modify (set_Phase PhaseMainMenu) ;;;
      if String.eqb action "hunt" then
        if Qleb 50 (Bullets g) then
          match PType (deref a g) with
          | PlayerTypeCPU => HandleHunting a
          | PlayerTypeHuman =>
            modify (set_Phase PhaseHunting) ;;;
            w <- GetShootingPrompt ;;
            modify (set_HuntWord w) ;;;
            sub_Bullets 50 ;;;
            ret (ln "Get ready to shoot...")
          end
        else
          t <- ContinueTravel a ;;
          ret (ln "Not enough bullets to hunt!" +:+ t)
      else ContinueTravel a
  end.

(** The accuracy [HandleHuntShoot] derives from the reaction time. *)
Definition reaction_accuracy (reactionTimeMs : Z) : Q :=
  if (reactionTimeMs <? 300)%Z then 0
  else if (reactionTimeMs <? 600)%Z then 1 + float64 (wrap64 (reactionTimeMs - 300)) / 300
  else if (reactionTimeMs <? 1000)%Z then 3 + float64 (wrap64 (reactionTimeMs - 600)) / 250
  else if (reactionTimeMs <? 2000)%Z then 6 + float64 (wrap64 (reactionTimeMs - 1000)) / 500
  else 9.

Definition HandleHuntShoot (p : option ptr) (reactionTimeMs : Z) : M string :=
  match p with
  | None => ret (ln "Error: Player not found.")
  | Some a =>
    t <- hunt_outcome (reaction_accuracy reactionTimeMs) 2 ;;
    modify (set_Phase PhaseMainMenu) ;;;
    check_win a ;;;
    ret t
  end.

Definition HandleRiderTactic (p : option ptr) (tactic : Z) : M string :=
  match p with
  | None => ret (ln "Error: Player not found.")
  | Some a =>
    t <- ResolveRiderTactic a tactic ;;
    g <- get ;;
    rest <- (if still_playing a g then FinishTurn a (PendingEatingLevel g)
             else ret EmptyString) ;;
    modify (set_Phase PhaseMainMenu) ;;;
    ret (t +:+ rest)
  end.

(** ** Forts *)

Record FortItem := mkFortItem { Price : Q; Qty : Q; Label : string }.

(** The map literal returned by [GetFortPrices], as a lookup. *)
Definition GetFortPrices (item : string) : option FortItem :=
  if String.eqb item "food" then Some (mkFortItem 10 25 "Food Pack (25 lbs)")
  else if String.eqb item "bullets" then Some (mkFortItem 5 50 "Ammo Box (50 rounds)")
  else if String.eqb item "clothing" then Some (mkFortItem 5 5 "Clothing (5 sets)")
  else if String.eqb item "misc" then Some (mkFortItem 5 5 "Supply Kit (5 kits)")
  else None.

(** One purchase of the automated player at a fort. *)
Definition cpu_purchase (stock : GameState -> Q) (below minCash share price pack : Q)
    (add : Q -> M unit) : M unit :=
  g <- get ;;
  if Qltb (stock g) below && Qleb minCash (Cash g) then
    let bundles := int_of_float (Cash g * share / price) in
    if (0 <? bundles)%Z then
      let cost := (float64 bundles * price)%Q in
      add (float64 bundles * pack)%Q ;;; sub_Cash cost
    else ret tt
  else ret tt.

Definition HandleFort (p : ptr) : M string :=
  sub_Mileage 45 ;;;
  modify ClampResources ;;;
  g <- get ;;
  match PType (deref p g) with
  | PlayerTypeCPU =>
    cpu_purchase Food 100 10 0.3 10 25 add_Food ;;;
    cpu_purchase Bullets 200 5 0.2 5 50 add_Bullets ;;;
    cpu_purchase Clothing 30 5 0.15 5 5 add_Clothing ;;;
    modify ClampResources ;;;
    ret (ln "AT THE FORT - Prices are 50% higher" +:+ ln "CPU purchased supplies at the fort.")
  | PlayerTypeHuman =>
    modify (set_Phase PhaseFort) ;;;
    ret (ln "You arrived at the fort. Browse the trading post!")
  end.

(** The [switch item] of [HandleFortBuy]. *)
Definition gain_item (item : string) (gained : Q) : M unit :=
  if String.eqb item "food" then add_Food gained
  else if String.eqb item "bullets" then add_Bullets gained
  else if String.eqb item "clothing" then add_Clothing gained
  else if String.eqb item "misc" then add_MiscSupplies gained
  else ret tt.

Definition HandleFortBuy (item : string) (qty : Z) : M string :=
  g <- get ;;
  if negb (TurnPhase_eqb (Phase g) PhaseFort) then ret (ln "You're not at a fort!")
  else if (qty <=? 0)%Z then ret (ln "Invalid quantity.")
  else
    match GetFortPrices item with
    | None => ret (ln "Unknown item.")
    | Some fi =>
      let cost := (Price fi * float64 qty)%Q in
      if Qltb (Cash g) cost then
        ret (ln ("Not enough cash! Need $" +:+ fmt_f0 cost +:+ " but only have $"
                 +:+ fmt_f0 (Cash g)))
      else
        sub_Cash cost ;;;
        let gained := (Qty fi * float64 qty)%Q in
        gain_item item gained ;;;
        modify ClampResources ;;;
        ret (ln ("Bought " +:+ fmt_f0 gained +:+ " " +:+ item +:+ " for $" +:+ fmt_f0 cost))
    end.

(** The [switch item] of [HandleFortSell]: the stock of the item, the word
    the refusal uses for it, and the assignment that removes it. *)
Definition sell_item (item : string) : option ((GameState -> Q) * string * (Q -> M unit)) :=
  if String.eqb item "food" then Some (Food, "food", sub_Food)
  else if String.eqb item "bullets" then Some (Bullets, "bullets", sub_Bullets)
  else if String.eqb item "clothing" then Some (Clothing, "clothing", sub_Clothing)
  else if String.eqb item "misc" then Some (MiscSupplies, "supplies", sub_MiscSupplies)
  else None.

Definition HandleFortSell (item : string) (qty : Z) : M string :=
  g <- get ;;
  if negb (TurnPhase_eqb (Phase g) PhaseFort) then ret (ln "You're not at a fort!")
  else if (qty <=? 0)%Z then ret (ln "Invalid quantity.")
  else
    match GetFortPrices item with
    | None => ret (ln "Unknown item.")
    | Some fi =>
      let sellPrice := (Price fi * 0.5)%Q in
      let amount := (Qty fi * float64 qty)%Q in
      let earnings := (sellPrice * float64 qty)%Q in
      let sold := ln ("Sold " +:+ fmt_f0 amount +:+ " " +:+ item +:+ " for $"
                      +:+ fmt_f0 earnings) in
      match sell_item item with
      | Some (stock, word, take) =>
        if Qltb (stock g) amount then
          ret (ln ("Not enough " +:+ word +:+ " to sell! Have " +:+ fmt_f0 (stock g)
                   +:+ ", need " +:+ fmt_f0 amount))
        else
          take amount ;;; add_Cash earnings ;;; modify ClampResources ;;; ret sold
      | None => add_Cash earnings ;;; modify ClampResources ;;; ret sold
      end
    end.

Definition HandleFortLeave : M string :=
  modify (set_Phase PhaseMainMenu) ;;;
  ret (ln "You leave the fort and continue on the trail.").

End Game.

Import Game.

(** * Package [main]: sessions, rooms and the server *)

(** ** The session directory ([cmd/server/session.go]) *)

Record Session := mkSession {
  SessID : string;
  SessName : string;
  SessClientID : string;
  SessRoomID : string;
  CreatedAt : Z;
  LastSeen : Z;
  SessAlive : bool
}.

(** [SessionManager.sessions], a [map[string]*Session]. *)
Abbreviation SessionManager := (gmap string Session).

Module Sessions.

(** The first session, in visiting order, that passes a test. *)
Definition find_session (test : Session -> bool) (sm : SessionManager) : option Session :=
  snd <$> List.find (fun kv => test (snd kv)) (map_to_list sm).

(** [CreateSession(name, clientID, roomID)] at time [now]; [fresh] is the
    token [GenerateSecureID] would return. *)
Definition CreateSession (now : Z) (fresh : string) (name clientID roomID : string)
    (sm : SessionManager) : string * SessionManager :=
  match find_session (fun s => String.eqb (SessClientID s) clientID) sm with
  | Some s =>
    (SessID s,
     <[SessID s := mkSession (SessID s) (SessName s) (SessClientID s) roomID
                     (CreatedAt s) now true]> sm)
  | None =>
    match find_session (fun s => String.eqb (SessName s) name && SessAlive s) sm with
    | Some s =>
      (SessID s,
       <[SessID s := mkSession (SessID s) (SessName s) clientID roomID
                       (CreatedAt s) now true]> sm)
    | None =>
      (fresh, <[fresh := mkSession fresh name clientID roomID now now true]> sm)
    end
  end.

Definition UpdateClient (now : Z) (sessionID clientID : string)
    (sm : SessionManager) : SessionManager :=
  match sm !! sessionID with
  | Some s =>
    <[sessionID := mkSession (SessID s) (SessName s) clientID (SessRoomID s)
                     (CreatedAt s) now (SessAlive s)]> sm
  | None => sm
  end.

Definition UpdateRoomID (sessionID roomID : string) (sm : SessionManager) : SessionManager :=
  match sm !! sessionID with
  | Some s =>
    <[sessionID := mkSession (SessID s) (SessName s) (SessClientID s) roomID
                     (CreatedAt s) (LastSeen s) (SessAlive s)]> sm
  | None => sm
  end.

Definition GetSessionByID (sessionID : string) (sm : SessionManager) : option Session :=
  match sm !! sessionID with
  | Some s => if SessAlive s then Some s else None
  | None => None
  end.

Definition InvalidateSession (sessionID : string) (sm : SessionManager) : SessionManager :=
  match sm !! sessionID with
  | Some s =>
    <[sessionID := mkSession (SessID s) (SessName s) (SessClientID s) (SessRoomID s)
                     (CreatedAt s) (LastSeen s) false]> sm
  | None => sm
  end.

(** [GetSession]: the plain lookup, dead sessions included. *)
Definition GetSession (sessionID : string) (sm : SessionManager) : option Session :=
  sm !! sessionID.

(** [RemoveClient(clientID)]: every session of that client is marked dead. *)
Definition RemoveClient (clientID : string) (sm : SessionManager) : SessionManager :=
  (fun s => if String.eqb (SessClientID s) clientID
            then mkSession (SessID s) (SessName s) (SessClientID s) (SessRoomID s)
                   (CreatedAt s) (LastSeen s) false
            else s) <$> sm.

Definition GetActiveSessions (sm : SessionManager) : list Session :=
  List.filter SessAlive (snd <$> map_to_list sm).

End Sessions.

(** ** Rooms *)

Inductive RoomType := RoomTypeContinuous | RoomTypeScheduled.
Inductive GameStatus := StatusWaiting | StatusPlaying | StatusFinished.

Definition RoomType_eqb (a b : RoomType) : bool :=
  match a, b with
  | RoomTypeContinuous, RoomTypeContinuous | RoomTypeScheduled, RoomTypeScheduled => true
  | _, _ => false
  end.

Definition GameStatus_eqb (a b : GameStatus) : bool :=
  match a, b with
  | StatusWaiting, StatusWaiting | StatusPlaying, StatusPlaying
  | StatusFinished, StatusFinished => true
  | _, _ => false
  end.

Record Client := mkClient {
  ClientID : string;
  ClientName : string;
  ClientPlayer : option ptr;
  ClientSessionID : string;
  ClientRoomID : string
}.

(** Times are nanoseconds since the epoch, durations nanoseconds.  The
    zero [time.Time] of [turnDeadline] is [None].  [turnTimer] names the
    player the timer armed last is bound to, [None] being the nil timer. *)
Record GameRoom := mkGameRoom {
  id : string;
  name : string;
  roomType : RoomType;
  status : GameStatus;
  password : string;
  ownerID : string;
  maxPlayers : Z;
  createdAt : Z;
  game : GameState;
  clients : gmap string Client;
  deadPlayers : gmap string bool;
  turnTimer : option string;
  turnDeadline : option Z
}.

Definition set_status v r := mkGameRoom (id r) (name r) (roomType r) v (password r) (ownerID r) (maxPlayers r) (createdAt r) (game r) (clients r) (deadPlayers r) (turnTimer r) (turnDeadline r).
Definition set_password v r := mkGameRoom (id r) (name r) (roomType r) (status r) v (ownerID r) (maxPlayers r) (createdAt r) (game r) (clients r) (deadPlayers r) (turnTimer r) (turnDeadline r).
Definition set_ownerID v r := mkGameRoom (id r) (name r) (roomType r) (status r) (password r) v (maxPlayers r) (createdAt r) (game r) (clients r) (deadPlayers r) (turnTimer r) (turnDeadline r).
Definition set_maxPlayers v r := mkGameRoom (id r) (name r) (roomType r) (status r) (password r) (ownerID r) v (createdAt r) (game r) (clients r) (deadPlayers r) (turnTimer r) (turnDeadline r).
Definition set_game v r := mkGameRoom (id r) (name r) (roomType r) (status r) (password r) (ownerID r) (maxPlayers r) (createdAt r) v (clients r) (deadPlayers r) (turnTimer r) (turnDeadline r).
Definition set_clients v r := mkGameRoom (id r) (name r) (roomType r) (status r) (password r) (ownerID r) (maxPlayers r) (createdAt r) (game r) v (deadPlayers r) (turnTimer r) (turnDeadline r).
Definition set_deadPlayers v r := mkGameRoom (id r) (name r) (roomType r) (status r) (password r) (ownerID r) (maxPlayers r) (createdAt r) (game r) (clients r) v (turnTimer r) (turnDeadline r).
Definition set_turnTimer v r := mkGameRoom (id r) (name r) (roomType r) (status r) (password r) (ownerID r) (maxPlayers r) (createdAt r) (game r) (clients r) (deadPlayers r) v (turnDeadline r).
Definition set_turnDeadline v r := mkGameRoom (id r) (name r) (roomType r) (status r) (password r) (ownerID r) (maxPlayers r) (createdAt r) (game r) (clients r) (deadPlayers r) (turnTimer r) v.

Definition set_ClientPlayer v c := mkClient (ClientID c) (ClientName c) v (ClientSessionID c) (ClientRoomID c).
Definition set_ClientRoomID v c := mkClient (ClientID c) (ClientName c) (ClientPlayer c) (ClientSessionID c) v.

(** A call [leaderboard.AddEntry(name, won, miles, turns, mode)] made at
    the time [EntryTime].  The leaderboard is a collaborator of the room:
    the state of the server keeps the calls, and [Leaderboard] below is
    what a call does to the board. *)
Record LeaderboardEntry := mkEntry {
  EntryName : string;
  Won : bool;
  Miles : Q;
  TurnCount : Z;
  EntryTime : Z;
  GameMode : string
}.

(** ** The leaderboard ([Leaderboard], the list it keeps in memory)

    The file the leaderboard is loaded from and saved to is not
    represented.  The field [Date] of an entry is the day of [EntryTime]. *)

Module Leaderboard.

(** The order [AddEntry] sorts by: wins first, then more miles first. *)
Definition less (a b : LeaderboardEntry) : bool :=
  if negb (Bool.eqb (Won a) (Won b)) then Won a else Qltb (Miles b) (Miles a).

(** The mode an entry counts for; entries written before modes existed
    carry the empty string. *)
Definition entryMode (e : LeaderboardEntry) : string :=
  if String.eqb (GameMode e) EmptyString then "continuous" else GameMode e.

(** The loop of [AddEntry] that keeps at most 500 entries of the party
    mode and at most 500 of all the others, in the order it meets them. *)
Fixpoint keep_top (es continuous party : list LeaderboardEntry)
    : list LeaderboardEntry * list LeaderboardEntry :=
  match es with
  | [] => (continuous, party)
  | e :: rest =>
    if String.eqb (entryMode e) "party" && (length party <? 500)%nat
    then keep_top rest continuous (party ++ [e])
    else if negb (String.eqb (entryMode e) "party") && (length continuous <? 500)%nat
    then keep_top rest (continuous ++ [e]) party
    else keep_top rest continuous party
  end.

Section AddEntry.

(** [sort.Slice(entries, less)].  The library promises a sorted permutation
    and nothing about the order of entries that compare equal, so the
    procedure is a parameter. *)
Variable sort : list LeaderboardEntry -> list LeaderboardEntry.

(** [AddEntry(name, won, miles, turns, mode)] at the time [now]. *)
Definition AddEntry (now : Z) (name : string) (won : bool) (miles : Q) (turns : Z)
    (mode : string) (entries : list LeaderboardEntry) : list LeaderboardEntry :=
  let entry := mkEntry name won miles turns now mode in
  let entries := sort (entries ++ [entry]) in
  let '(continuous, party) := keep_top entries [] [] in
  sort (continuous ++ party).

End AddEntry.

(** One procedure [sort.Slice] may be: insertion from the right. *)
Fixpoint insert_sorted (e : LeaderboardEntry) (l : list LeaderboardEntry)
    : list LeaderboardEntry :=
  match l with
  | [] => [e]
  | x :: rest => if less e x then e :: x :: rest else x :: insert_sorted e rest
  end.

Definition insertion_sort (l : list LeaderboardEntry) : list LeaderboardEntry :=
  foldr insert_sorted [] l.

(** [GetTop(n)]; [make] panics on a negative length. *)
Definition GetTop (n : Z) (entries : list LeaderboardEntry)
    : option (list LeaderboardEntry) :=
  let n := if (Z.of_nat (length entries) <? n)%Z then Z.of_nat (length entries) else n in
  if (n <? 0)%Z then None else Some (take (Z.to_nat n) entries).

(** The loop of [GetTopByMode]. *)
Fixpoint top_by_mode (n : Z) (mode : string) (es result : list LeaderboardEntry)
    : list LeaderboardEntry :=
  match es with
  | [] => result
  | e :: rest =>
    if String.eqb (entryMode e) mode then
      let result := (result ++ [e])%list in
      if (n <=? Z.of_nat (length result))%Z then result
      else top_by_mode n mode rest result
    else top_by_mode n mode rest result
  end.

(** [GetTopByMode(n, mode)]; [make] panics on a negative capacity. *)
Definition GetTopByMode (n : Z) (mode : string) (entries : list LeaderboardEntry)
    : option (list LeaderboardEntry) :=
  if (n <? 0)%Z then None else Some (top_by_mode n mode entries []).

End Leaderboard.

Definition second : Z := 1000000000.
Definition minute : Z := 60 * second.
Definition hour : Z := 60 * minute.
Definition turnTimeLimit : Z := 20 * second.
Definition fortInterval : Z := 3.

Definition NewGameRoom (now : Z) (rnd : RandSrc) (id name : string) (roomType : RoomType)
    : GameRoom :=
  mkGameRoom id name roomType StatusWaiting EmptyString EmptyString 0 now
    (NewGameState rnd) ∅ ∅ None None.

(** ** What the server does to one room while it holds [room.mu] *)

Module Room.

(** Running a method of the engine on [room.game]. *)
Definition on_game {A} (m : M A) (room : GameRoom) : A * GameRoom :=
  let '(x, g) := m (game room) in (x, set_game g room).

Definition initRoomResources (room : GameRoom) : GameRoom :=
  let g := game room in
  let g := set_OxenCost 220 g in
  let g := set_Food 100 g in
  let g := set_Bullets 50 g in
  let g := set_Clothing 20 g in
  let g := set_MiscSupplies 10 g in
  let g := set_Cash 700 g in
  let g := set_GameOver false g in
  let g := set_Win false g in
  set_game (set_CurrentPlayerIdx 0 g) room.

Definition StartTurnTimer (now : Z) (playerID : string) (room : GameRoom) : GameRoom :=
  set_turnTimer (Some playerID) (set_turnDeadline (Some (now + turnTimeLimit)%Z) room).

Definition CancelTurnTimer (room : GameRoom) : GameRoom :=
  set_turnDeadline None (set_turnTimer None room).

(** [room.game.GetCurrentPlayer()] together with the player it refers to. *)
Definition current (room : GameRoom) : option (ptr * Player) :=
  (fun a => (a, deref a (game room))) <$> GetCurrentPlayer (game room).

(** The roster lookup of [AddClient]: the first player whose id or whose
    name is the client's. *)
Definition find_existing (c : Client) (g : GameState) : option ptr :=
  List.find (fun a => String.eqb (ID (deref a g)) (ClientID c)
                      || String.eqb (Name (deref a g)) (ClientName c))
    (Players g).

(** The part of [AddClient] that runs under the room lock. *)
Definition AddClient (now : Z) (c : Client) (roomID : string) (room : GameRoom) : GameRoom :=
  let c := set_ClientRoomID roomID c in
  let room := set_clients (<[ClientID c := c]> (clients room)) room in
  if RoomType_eqb (roomType room) RoomTypeScheduled
     && negb (GameStatus_eqb (status room) StatusWaiting)
  then room
  else
    let room :=
      match find_existing c (game room) with
      | Some a =>
        let g := game room in
        let g := store a (set_ID (ClientID c) (deref a g)) g in
        set_clients (<[ClientID c := set_ClientPlayer (Some a) c]> (clients room))
          (set_game g room)
      | None =>
        let '(a, g) := AddPlayer now (ClientName c) PlayerTypeHuman (game room) in
        let g := store a (set_ID (ClientID c) (deref a g)) g in
        let room :=
          set_clients (<[ClientID c := set_ClientPlayer (Some a) c]> (clients room))
            (set_game g room) in
        if RoomType_eqb (roomType room) RoomTypeContinuous
           && (TurnNumber (game room) =? 0)%Z
           && (size (clients room) =? 1)%nat
        then set_status StatusPlaying (initRoomResources room)
        else room
      end in
    if bool_decide (GetCurrentPlayer (game room) = None)
       && (0 <? length (Players (game room)))%nat
    then set_game (set_CurrentPlayerIdx 0 (game room)) room
    else room.

(** [for _, next := range room.clients { room.ownerID = next.ID; break }],
    run when the owner has left and somebody remains. *)
Definition transfer_ownership (leaving : string) (room : GameRoom) : GameRoom :=
  if String.eqb (ownerID room) leaving then
    match map_to_list (clients room) with
    | (_, next) :: _ => set_ownerID (ClientID next) room
    | [] => room
    end
  else room.

Definition RemoveClient (clientID : string) (room : GameRoom) : GameRoom :=
  match clients room !! clientID with
  | Some c =>
    transfer_ownership clientID (set_clients (delete clientID (clients room)) room)
  | None => room
  end.

(** [wasCurrentPlayer] of [LogoutClient] and [KickClient]. *)
Definition is_current (clientID : string) (room : GameRoom) : bool :=
  match current room with
  | Some (_, cp) => String.eqb (ID cp) clientID
  | None => false
  end.

(** Removing from the roster the first player with a given id, and putting
    the turn index back in range. *)
Definition drop_player (i : nat) (g : GameState) : GameState :=
  let g := set_Players (delete i (Players g)) g in
  if (length (Players g) <=? CurrentPlayerIdx g)%nat && (0 <? length (Players g))%nat
  then set_CurrentPlayerIdx 0 g else g.

(** The tail of [LogoutClient] and [KickClient] when the turn holder left. *)
Definition rearm_after_leave (now : Z) (wasCurrentPlayer : bool) (room : GameRoom) : GameRoom :=
  if wasCurrentPlayer && GameStatus_eqb (status room) StatusPlaying
     && negb (GameOver (game room))
  then
    let room := set_game (set_Phase PhaseMainMenu (game room)) room in
    match current room with
    | Some (_, np) => if Alive np then StartTurnTimer now (ID np) room else room
    | None => room
    end
  else room.

(** The part of [LogoutClient] that runs under the room lock. *)
Definition LogoutClient (now : Z) (clientID : string) (room : GameRoom) : GameRoom :=
  match clients room !! clientID with
  | Some c =>
    let wasCurrentPlayer := is_current clientID room in
    let room :=
      match index_where (fun a => String.eqb (ID (deref a (game room))) clientID)
              (Players (game room)) with
      | Some i =>
        let p := deref (default 0%nat (Players (game room) !! i)) (game room) in
        let room :=
          if negb (Alive p) && GameStatus_eqb (status room) StatusPlaying then
            let room :=
              if (0 <? maxPlayers room)%Z
              then set_maxPlayers (wrap64 (maxPlayers room - 1)) room else room in
            if negb (RoomType_eqb (roomType room) RoomTypeContinuous)
            then set_deadPlayers (<[ClientName c := true]> (deadPlayers room)) room
            else room
          else room in
        set_game (drop_player i (game room)) room
      | None => room
      end in
    let room := set_clients (delete clientID (clients room)) room in
    let room := transfer_ownership clientID room in
    rearm_after_leave now wasCurrentPlayer room
  | None => room
  end.

Definition KickClient (now : Z) (requesterID targetID : string) (room : GameRoom)
    : bool * GameRoom :=
  if negb (String.eqb (ownerID room) requesterID) then (false, room)
  else if String.eqb requesterID targetID then (false, room)
  else
    match clients room !! targetID with
    | Some c =>
      let wasCurrentPlayer := is_current targetID room in
      let room :=
        match index_where (fun a => String.eqb (ID (deref a (game room))) targetID)
                (Players (game room)) with
        | Some i => set_game (drop_player i (game room)) room
        | None => room
        end in
      let room := set_clients (delete targetID (clients room)) room in
      (true, rearm_after_leave now wasCurrentPlayer room)
    | None => (false, room)
    end.

(** The loop of [ResetGame] that gives every client a new player. *)
Fixpoint reseat (now : Z) (cs : list (string * Client)) (room : GameRoom) : GameRoom :=
  match cs with
  | [] => room
  | (k, c) :: rest =>
    let '(a, g) := AddPlayer now (ClientName c) PlayerTypeHuman (game room) in
    let g := store a (set_ID (ClientID c) (deref a g)) g in
    reseat now rest
      (set_clients (<[k := set_ClientPlayer (Some a) c]> (clients room)) (set_game g room))
  end.

Definition ResetGame (now : Z) (room : GameRoom) : bool * GameRoom :=
  if negb (GameOver (game room)) then (false, room)
  else if RoomType_eqb (roomType room) RoomTypeContinuous && negb (Win (game room))
  then (false, room)
  else
    let room := CancelTurnTimer room in
    let room := set_game (Game.ResetGame (game room)) room in
    let room := set_status StatusWaiting room in
    let room := set_deadPlayers ∅ room in
    let room := reseat now (map_to_list (clients room)) room in
    let room := set_game (set_CurrentPlayerIdx 0 (game room)) room in
    if (0 <? size (clients room))%nat
    then (true, set_status StatusPlaying (initRoomResources room))
    else (true, room).

(** [createLootSite(room, c)] at time [now]. *)
Definition createLootSite (now : Z) (c : Client) (room : GameRoom) : GameRoom :=
  match ClientPlayer c with
  | None => room
  | Some _ =>
    let g := game room in
    let lootSite :=
      mkLootSite ("loot-" +:+ ClientID c +:+ "-" +:+ fmt_d (now / second))
        (Mileage g) (ClientName c) (Food g) (Bullets g) (Clothing g)
        (MiscSupplies g) (Cash g) (OxenCost g) now false EmptyString None in
    set_game (set_LootSites (LootSites g ++ [lootSite]) g) room
  end.

(** The decay [deteriorateLootSites] applies to one site. *)
Definition deteriorate (site : LootSite) : LootSite :=
  if IsLooted site then site
  else
    mkLootSite (SiteID site) (SiteMileage site) (PlayerName site)
      (SiteFood site * 0.90) (SiteBullets site * 0.95) (SiteClothing site * 0.97)
      (SiteMiscSupplies site * 0.95) (SiteCash site) (SiteOxenCost site * 0.98)
      (DateCreated site) (IsLooted site) (LootedBy site) (LootedAt site).

Definition deteriorateLootSites (room : GameRoom) : GameRoom :=
  if negb (RoomType_eqb (roomType room) RoomTypeContinuous) then room
  else set_game (set_LootSites (deteriorate <$> LootSites (game room)) (game room)) room.

Definition advanceTurnAndCheckFort (now : Z) (room : GameRoom) : bool * GameRoom :=
  let room := set_game (NextTurn (game room)) room in
  match current room with
  | None => (false, room)
  | Some (_, np) =>
    if negb (Alive np) || GameOver (game room) then (false, room)
    else
      let fort := (0 <? TurnNumber (game room))%Z
                  && (Z.rem (TurnNumber (game room)) fortInterval =? 0)%Z in
      let room := if fort then set_game (set_FortAvailable true (game room)) room else room in
      (fort, StartTurnTimer now (ID np) room)
  end.

(** The label of the leaderboard entries of a room. *)
Definition modeLabel (room : GameRoom) : string :=
  match roomType room with
  | RoomTypeScheduled => "party"
  | RoomTypeContinuous => "continuous"
  end.

(** The calls of [AddEntry] made for the clients of a finished room. *)
Definition leaderboard_entries (now : Z) (room : GameRoom) : list LeaderboardEntry :=
  omap (fun kv : string * Client =>
          match ClientPlayer (snd kv) with
          | Some _ =>
            Some (mkEntry (ClientName (snd kv)) (Win (game room)) (Mileage (game room))
                    (TurnNumber (game room)) now (modeLabel room))
          | None => None
          end)
    (map_to_list (clients room)).

(** The client whose player carries a given id, as the timeout looks for
    it. *)
Definition client_of_player (pid : string) (room : GameRoom) : option Client :=
  snd <$> List.find
    (fun kv : string * Client =>
       match ClientPlayer (snd kv) with
       | Some a => String.eqb (ID (deref a (game room))) pid
       | None => false
       end)
    (map_to_list (clients room)).

(** What a timer callback leaves behind: the room, the leaderboard calls
    and the event it has the hub broadcast (player name and text), if any. *)
Record TimeoutResult := mkTimeoutResult {
  after : GameRoom;
  recorded : list LeaderboardEntry;
  broadcast : option (string * string)
}.

Definition handleTurnTimeout (now : Z) (expectedPlayerID : string) (room : GameRoom)
    : TimeoutResult :=
  match current room with
  | None => mkTimeoutResult room [] None
  | Some (cur, cp) =>
    if negb (String.eqb (ID cp) expectedPlayerID)
       || GameOver (game room)
       || negb (GameStatus_eqb (status room) StatusPlaying)
       || negb (Alive cp)
    then mkTimeoutResult room [] None
    else
      let '(d, room) := on_game (DamageRandomMember cur 999) room in
      let result := ln "Time's up! Dysentery strikes the party while they dawdle!" +:+ d in
      let playerName := Name cp in
      let room :=
        if negb (Alive (deref cur (game room)))
           && RoomType_eqb (roomType room) RoomTypeContinuous
        then
          match client_of_player (ID (deref cur (game room))) room with
          | Some cl => createLootSite now cl room
          | None => room
          end
        else room in
      let room := set_game (set_Phase PhaseMainMenu (game room)) room in
      if GameOver (game room) then
        mkTimeoutResult (set_turnDeadline None (set_status StatusFinished room))
          (leaderboard_entries now room) (Some (playerName, result))
      else
        mkTimeoutResult (snd (advanceTurnAndCheckFort now room)) []
          (Some (playerName, result))
  end.

(** What a handler that may end the game returns: its text, the room and
    the leaderboard calls it made. *)
Record Reply := mkReply {
  text : string;
  room_after : GameRoom;
  entries : list LeaderboardEntry
}.

(** The loop of [HandleAction] that leaves a loot site for every dead
    player who has none yet. *)
Fixpoint loot_for_the_dead (now : Z) (cs : list (string * Client)) (room : GameRoom)
    : GameRoom :=
  match cs with
  | [] => room
  | (_, cl) :: rest =>
    let room :=
      match ClientPlayer cl with
      | Some a =>
        if negb (Alive (deref a (game room))) then
          let hasLoot :=
            existsb (fun site => String.eqb (PlayerName site) (ClientName cl)
                                 && negb (IsLooted site))
              (LootSites (game room)) in
          if hasLoot then room else createLootSite now cl room
        else room
      | None => room
      end in
    loot_for_the_dead now rest room
  end.

(** The two requests that start the journey. *)
Definition start_journey (now : Z) (room : GameRoom) : GameRoom :=
  let room := initRoomResources room in
  let room := set_game (set_GameOver false (set_TurnNumber 1 (game room))) room in
  let room := set_status StatusPlaying room in
  match current room with
  | Some (_, cp) => StartTurnTimer now (ID cp) room
  | None => room
  end.

Definition HandleAction (now : Z) (clientID action : string) (room : GameRoom) : Reply :=
  if String.eqb action "start" then
    mkReply "The journey begins! Head west on the Online Trail!" (start_journey now room) []
  else if String.eqb action "start_game" then
    mkReply "All players ready! The wagon train departs!" (start_journey now room) []
  else
    match clients room !! clientID with
    | None => mkReply EmptyString room []
    | Some c =>
      match ClientPlayer c with
      | None => mkReply (ln "Error: Player not found.") room []
      | Some a =>
        if negb (Alive (deref a (game room))) then
          mkReply (ln "Your party has perished. You are spectating.") room []
        else
          let '(result, room) := on_game (ProcessTurn (Some a) action) room in
          let room :=
            if negb (Alive (deref a (game room)))
               && RoomType_eqb (roomType room) RoomTypeContinuous
            then createLootSite now c room else room in
          if GameOver (game room) then
            let recorded := leaderboard_entries now room in
            let room :=
              if RoomType_eqb (roomType room) RoomTypeContinuous
              then loot_for_the_dead now (map_to_list (clients room)) room else room in
            mkReply result (CancelTurnTimer (set_status StatusFinished room)) recorded
          else if negb (TurnPhase_eqb (Phase (game room)) PhaseFort)
                  && negb (TurnPhase_eqb (Phase (game room)) PhaseHunting)
                  && negb (TurnPhase_eqb (Phase (game room)) PhaseRiders)
          then mkReply result (snd (advanceTurnAndCheckFort now room)) []
          else mkReply result room []
      end
    end.

(** The checks every request of the turn holder passes first: the client
    is known and its id is the id of the current player. *)
Definition turn_gate (clientID : string) (room : GameRoom) : string + Client :=
  match clients room !! clientID with
  | None => inl EmptyString
  | Some c =>
    match current room with
    | Some (_, cp) =>
      if String.eqb (ID cp) (ClientID c) then inr c else inl (ln "It's not your turn.")
    | None => inl (ln "It's not your turn.")
    end
  end.

Definition HandleFortBuy (clientID item : string) (qty : Z) (room : GameRoom)
    : string * GameRoom :=
  match turn_gate clientID room with
  | inl refusal => (refusal, room)
  | inr _ => on_game (Game.HandleFortBuy item qty) room
  end.

Definition HandleFortSell (clientID item : string) (qty : Z) (room : GameRoom)
    : string * GameRoom :=
  match turn_gate clientID room with
  | inl refusal => (refusal, room)
  | inr _ => on_game (Game.HandleFortSell item qty) room
  end.

Definition HandleFortEnter (clientID : string) (room : GameRoom) : string * GameRoom :=
  match turn_gate clientID room with
  | inl refusal => (refusal, room)
  | inr _ =>
    if negb (FortAvailable (game room)) then
      (ln "No fort is available at this location.", room)
    else
      let g := set_Phase PhaseFort (game room) in
      let g := set_Mileage (Mileage g - 45) g in
      let g := ClampResources g in
      (ln "You arrive at a fort. You can buy supplies here.",
       CancelTurnTimer (set_game g room))
  end.

Definition HandleFortLeave (now : Z) (clientID : string) (room : GameRoom)
    : string * GameRoom :=
  match turn_gate clientID room with
  | inl refusal => (refusal, room)
  | inr _ =>
    let '(result, room) := on_game Game.HandleFortLeave room in
    let room := set_game (set_FortAvailable false (game room)) room in
    (result, snd (advanceTurnAndCheckFort now room))
  end.

(** Taking the content of a loot site: the resources move to the party, the
    site is marked. *)
Definition claim_site (now : Z) (i : nat) (site : LootSite) (c : Client)
    (g : GameState) : GameState :=
  let g := set_Food (Food g + SiteFood site) g in
  let g := set_Bullets (Bullets g + SiteBullets site) g in
  let g := set_Clothing (Clothing g + SiteClothing site) g in
  let g := set_MiscSupplies (MiscSupplies g + SiteMiscSupplies site) g in
  let g := set_Cash (Cash g + SiteCash site) g in
  let g := set_OxenCost (OxenCost g + SiteOxenCost site) g in
  let looted :=
    mkLootSite (SiteID site) (SiteMileage site) (PlayerName site) (SiteFood site)
      (SiteBullets site) (SiteClothing site) (SiteMiscSupplies site) (SiteCash site)
      (SiteOxenCost site) (DateCreated site) true (ClientName c) (Some now) in
  ClampResources (set_LootSites (<[i := looted]> (LootSites g)) g).

Definition HandleLootClaim (now : Z) (clientID lootSiteID : string) (room : GameRoom)
    : string * GameRoom :=
  match turn_gate clientID room with
  | inl refusal => (refusal, room)
  | inr c =>
    if negb (RoomType_eqb (roomType room) RoomTypeContinuous) then
      (ln "Loot sites are only available in 24/7 mode.", room)
    else
      let g := game room in
      match index_where (fun site => String.eqb (SiteID site) lootSiteID) (LootSites g) with
      | None => (ln "Loot site not found.", room)
      | Some i =>
        match LootSites g !! i with
        | None => (ln "Loot site not found.", room)
        | Some site =>
          if Qltb (Mileage g) (SiteMileage site - 50)
             || Qltb (SiteMileage site + 50) (Mileage g)
          then (ln "You're too far from that loot site.", room)
          else if IsLooted site then
            (ln ("This wagon has already been scavenged by " +:+ LootedBy site +:+ "."), room)
          else
            (ln ("You looted " +:+ PlayerName site +:+ "'s wagon and found: $"
                 +:+ fmt_f0 (SiteCash site) +:+ " cash, " +:+ fmt_f0 (SiteFood site)
                 +:+ " food, " +:+ fmt_f0 (SiteBullets site) +:+ " bullets, "
                 +:+ fmt_f0 (SiteClothing site) +:+ " clothing, "
                 +:+ fmt_f0 (SiteMiscSupplies site) +:+ " misc supplies!"),
             set_game (claim_site now i site c g) room)
        end
      end
  end.

(** The tail of [HandleHuntShoot] and [HandleRiderTactic]: a finished game
    is recorded and closed, otherwise the turn advances. *)
Definition close_or_advance (now : Z) (result : string) (room : GameRoom) : Reply :=
  if GameOver (game room) then
    mkReply result (CancelTurnTimer (set_status StatusFinished room))
      (leaderboard_entries now room)
  else mkReply result (snd (advanceTurnAndCheckFort now room)) [].

Definition HandleHuntShoot (now : Z) (clientID : string) (reactionTimeMs : Z)
    (room : GameRoom) : Reply :=
  match turn_gate clientID room with
  | inl refusal => mkReply refusal room []
  | inr c =>
    if negb (TurnPhase_eqb (Phase (game room)) PhaseHunting) then
      mkReply (ln "You're not hunting right now.") room []
    else
      match ClientPlayer c with
      | None => mkReply (ln "Error: Player not found.") room []
      | Some a =>
        let '(result, room) := on_game (Game.HandleHuntShoot (Some a) reactionTimeMs) room in
        close_or_advance now result room
      end
  end.

Definition HandleRiderTactic (now : Z) (clientID : string) (tactic : Z)
    (room : GameRoom) : Reply :=
  match turn_gate clientID room with
  | inl refusal => mkReply refusal room []
  | inr c =>
    if negb (TurnPhase_eqb (Phase (game room)) PhaseRiders) then
      mkReply (ln "There are no riders right now.") room []
    else
      match ClientPlayer c with
      | None => mkReply (ln "Error: Player not found.") room []
      | Some a =>
        let tactic := if (tactic <? 1)%Z || (4 <? tactic)%Z then 3%Z else tactic in
        let '(result, room) := on_game (Game.HandleRiderTactic (Some a) tactic) room in
        close_or_advance now result room
      end
  end.

End Room.

(** ** The server: the room directory and its requests *)

(** [Server.leaderboard] holds the calls of [AddEntry] in the order they
    were made; the hub is not part of the state. *)
Record Server := mkServer {
  rooms : gmap string GameRoom;
  sessionManager : SessionManager;
  leaderboard : list LeaderboardEntry
}.

Definition set_rooms v s := mkServer v (sessionManager s) (leaderboard s).
Definition set_sessionManager v s := mkServer (rooms s) v (leaderboard s).
Definition set_leaderboard v s := mkServer (rooms s) (sessionManager s) v.

Definition NewServer (now : Z) (rnd : RandSrc) : Server :=
  mkServer
    {[ "continuous" := NewGameRoom now rnd "continuous" "The Open Trail" RoomTypeContinuous ]}
    ∅ [].

Definition GetRoom (roomID : string) (s : Server) : option GameRoom := rooms s !! roomID.

Definition IsPlayerBanned (roomID name : string) (s : Server) : bool :=
  match GetRoom roomID s with
  | None => false
  | Some room => default false (deadPlayers room !! name)
  end.

(** [FindRoomForClient(clientID)]: the first room, in visiting order, that
    holds the client. *)
Definition FindRoomForClient (clientID : string) (s : Server) : option GameRoom :=
  snd <$> List.find (fun kv : string * GameRoom =>
                       bool_decide (is_Some (clients (snd kv) !! clientID)))
            (map_to_list (rooms s)).

(** [CreateRoom]; [id] is the identifier its retry loop settles on, one
    that is not yet a key of the directory. *)
Definition CreateRoom (now : Z) (rnd : RandSrc) (id name password ownerID : string)
    (maxPlayers : Z) (s : Server) : GameRoom * Server :=
  let room := NewGameRoom now rnd id name RoomTypeScheduled in
  let room := set_maxPlayers maxPlayers (set_ownerID ownerID (set_password password room)) in
  (room, set_rooms (<[id := room]> (rooms s)) s).

(** Running a critical section on the room stored under [roomID]. *)
Definition in_room {A} (roomID : string) (absent : A) (f : GameRoom -> A * GameRoom)
    (s : Server) : A * Server :=
  match GetRoom roomID s with
  | None => (absent, s)
  | Some room =>
    let '(x, room) := f room in (x, set_rooms (<[roomID := room]> (rooms s)) s)
  end.

(** The same for a handler that reports to the leaderboard. *)
Definition in_room_recording (roomID : string) (f : GameRoom -> Room.Reply) (s : Server)
    : string * Server :=
  match GetRoom roomID s with
  | None => (EmptyString, s)
  | Some room =>
    let r := f room in
    (Room.text r,
     set_leaderboard (leaderboard s ++ Room.entries r)
       (set_rooms (<[roomID := Room.room_after r]> (rooms s)) s))
  end.

Definition AddClient (now : Z) (c : Client) (roomID : string) (s : Server) : Server :=
  match GetRoom roomID s with
  | None => s
  | Some room =>
    let s := set_rooms (<[roomID := Room.AddClient now c roomID room]> (rooms s)) s in
    if negb (String.eqb (ClientSessionID c) EmptyString)
    then set_sessionManager
           (Sessions.UpdateClient now (ClientSessionID c) (ClientID c) (sessionManager s)) s
    else s
  end.

Definition RemoveClient (clientID roomID : string) (s : Server) : Server :=
  snd (in_room roomID tt (fun room => (tt, Room.RemoveClient clientID room)) s).

Definition LogoutClient (now : Z) (clientID sessionID roomID : string) (s : Server) : Server :=
  match GetRoom roomID s with
  | None => s
  | Some room =>
    set_sessionManager (Sessions.InvalidateSession sessionID (sessionManager s))
      (set_rooms (<[roomID := Room.LogoutClient now clientID room]> (rooms s)) s)
  end.

Definition KickClient (now : Z) (roomID requesterID targetID : string) (s : Server)
    : bool * Server :=
  in_room roomID false (Room.KickClient now requesterID targetID) s.

Definition CleanupRoomIfEmpty (roomID : string) (s : Server) : Server :=
  if String.eqb roomID "continuous" then s
  else
    match rooms s !! roomID with
    | None => s
    | Some room =>
      if (size (clients room) =? 0)%nat then set_rooms (delete roomID (rooms s)) s else s
    end.

(** The body of the loop of [CleanupStaleRooms] for one entry of the
    directory. *)
Definition sweep_step (now : Z) (rs : gmap string GameRoom) (entry : string * GameRoom)
    : gmap string GameRoom :=
  let '(id, room) := entry in
  if String.eqb id "continuous" then rs
  else
    let empty := (size (clients room) =? 0)%nat in
    let status := status room in
    let created := createdAt room in
    if empty then delete id rs
    else if GameStatus_eqb status StatusFinished && (10 * minute <? now - created)%Z
    then delete id rs
    else if GameStatus_eqb status StatusWaiting && (24 * hour <? now - created)%Z
    then delete id rs
    else rs.

(** The loop of [CleanupStaleRooms] over the entries in the order they are
    visited. *)
Definition sweep (now : Z) (visit : list (string * GameRoom)) (rs : gmap string GameRoom)
    : gmap string GameRoom :=
  foldl (sweep_step now) rs visit.

Definition CleanupStaleRooms (now : Z) (s : Server) : Server :=
  set_rooms (sweep now (map_to_list (rooms s)) (rooms s)) s.

Definition ResetGame (now : Z) (roomID : string) (s : Server) : bool * Server :=
  in_room roomID false (Room.ResetGame now) s.

Definition deteriorateLootSites (s : Server) : Server :=
  set_rooms (Room.deteriorateLootSites <$> rooms s) s.

(** The timer callback of the room stored under [roomID].  It returns the
    event handed to the hub, if any. *)
Definition handleTurnTimeout (now : Z) (roomID expectedPlayerID : string) (s : Server)
    : option (string * string) * Server :=
  match GetRoom roomID s with
  | None => (None, s)
  | Some room =>
    let r := Room.handleTurnTimeout now expectedPlayerID room in
    (Room.broadcast r,
     set_leaderboard (leaderboard s ++ Room.recorded r)
       (set_rooms (<[roomID := Room.after r]> (rooms s)) s))
  end.

Definition HandleAction (now : Z) (clientID roomID action : string) (s : Server)
    : string * Server :=
  in_room_recording roomID (Room.HandleAction now clientID action) s.

Definition HandleFortBuy (clientID roomID item : string) (qty : Z) (s : Server)
    : string * Server :=
  in_room roomID EmptyString (Room.HandleFortBuy clientID item qty) s.

Definition HandleFortSell (clientID roomID item : string) (qty : Z) (s : Server)
    : string * Server :=
  in_room roomID EmptyString (Room.HandleFortSell clientID item qty) s.

Definition HandleFortEnter (clientID roomID : string) (s : Server) : string * Server :=
  in_room roomID EmptyString (Room.HandleFortEnter clientID) s.

Definition HandleFortLeave (now : Z) (clientID roomID : string) (s : Server)
    : string * Server :=
  in_room roomID EmptyString (Room.HandleFortLeave now clientID) s.

Definition HandleLootClaim (now : Z) (clientID roomID lootSiteID : string) (s : Server)
    : string * Server :=
  in_room roomID EmptyString (Room.HandleLootClaim now clientID lootSiteID) s.

Definition HandleHuntShoot (now : Z) (clientID roomID : string) (reactionTimeMs : Z)
    (s : Server) : string * Server :=
  in_room_recording roomID (Room.HandleHuntShoot now clientID reactionTimeMs) s.

Definition HandleRiderTactic (now : Z) (clientID roomID : string) (tactic : Z) (s : Server)
    : string * Server :=
  in_room_recording roomID (Room.HandleRiderTactic now clientID tactic) s.

(** * Properties: the vocabulary of the statements *)

(** Every resource field and the mileage are non-negative. *)
Definition resources_nonneg (g : GameState) : Prop :=
  (0 <= Food g)%Q /\ (0 <= Bullets g)%Q /\ (0 <= Clothing g)%Q
  /\ (0 <= MiscSupplies g)%Q /\ (0 <= Cash g)%Q /\ (0 <= Mileage g)%Q.

(** The five resources, the mileage and the draught animals of two states
    are the same. *)
Definition same_resources (g g' : GameState) : Prop :=
  Food g' = Food g /\ Bullets g' = Bullets g /\ Clothing g' = Clothing g
  /\ MiscSupplies g' = MiscSupplies g /\ Cash g' = Cash g
  /\ Mileage g' = Mileage g /\ OxenCost g' = OxenCost g.

(** The player whose turn it is exists, is human and is alive. *)
Definition current_is_alive_human (g : GameState) : Prop :=
  exists a, GetCurrentPlayer g = Some a /\ is_alive_human g a = true.

(** The turn-holder invariant of a room. *)
Definition turn_holder_ok (room : GameRoom) : Prop :=
  status room = StatusPlaying ->
  current_is_alive_human (game room) \/ GameOver (game room) = true.

(** Every reference of the roster is allocated. *)
Definition roster_allocated (g : GameState) : Prop :=
  forallb (fun a => (a <? length (Heap g))%nat) (Players g) = true.

(** A timer bound to [expectedPlayerID] that fires on [room] is stale. *)
Definition stale_timer (expectedPlayerID : string) (room : GameRoom) : Prop :=
  match Room.current room with
  | None => True
  | Some (_, cp) => ID cp <> expectedPlayerID \/ Alive cp = false
  end
  \/ status room <> StatusPlaying
  \/ GameOver (game room) = true.

(** The sweep removes the room stored under [id]. *)
Definition swept (now : Z) (id : string) (room : GameRoom) : bool :=
  negb (String.eqb id "continuous")
  && ((size (clients room) =? 0)%nat
      || GameStatus_eqb (status room) StatusFinished && (10 * minute <? now - createdAt room)%Z
      || GameStatus_eqb (status room) StatusWaiting && (24 * hour <? now - createdAt room)%Z).

(** The refusal of a claim on a site somebody has emptied. *)
Definition already_scavenged (site : LootSite) : string :=
  ln ("This wagon has already been scavenged by " +:+ LootedBy site +:+ ".").

(** The site a claim naming [lootSiteID] is about: the first of that name. *)
Definition site_named (lootSiteID : string) (g : GameState) : option (nat * LootSite) :=
  match index_where (fun site => String.eqb (SiteID site) lootSiteID) (LootSites g) with
  | Some i => (fun site => (i, site)) <$> LootSites g !! i
  | None => None
  end.

(** The player a join is matched with when ids are tried first and names
    only afterwards. *)
Definition id_then_name (c : Client) (g : GameState) : option ptr :=
  match List.find (fun a => String.eqb (ID (deref a g)) (ClientID c)) (Players g) with
  | Some a => Some a
  | None => List.find (fun a => String.eqb (Name (deref a g)) (ClientName c)) (Players g)
  end.

(** ** Concrete states used to exercise the statements *)

(** A source whose every draw is [x]. *)
Definition constant_draws (x : Q) : RandSrc := mkRand (fun _ => x) (fun _ => 0%Z) 0.

Definition alice : Player := mkPlayer "a" "Alice" PlayerTypeHuman newParty true 3 true.
Definition bob : Player := mkPlayer "b" "Bob" PlayerTypeHuman newParty true 3 true.

(** Bob after the death of his leader and the loss of another member. *)
Definition fallen_bob : Player :=
  mkPlayer "b" "Bob" PlayerTypeHuman
    (<[0%nat := mkPartyMember "You" false 0 true]> newParty) true 3 false.

(** An engine in the middle of a journey with the stock a room starts
    with, except for what the arguments fix. *)
Definition journey (heap : list Player) (roster : list ptr) (rnd : RandSrc)
    (mileage food bullets : Q) (phase : TurnPhase) : GameState :=
  mkGameState heap roster 0 1 1 1 mileage food bullets 20 10 700 220 0 phase []
    false false EmptyString rnd false 0 0 EmptyString false [].

Definition seat (cid cname : string) (a : ptr) : Client :=
  mkClient cid cname (Some a) EmptyString "trail".

(** A room that is being played by the clients [cs]. *)
Definition playing_room (rt : RoomType) (g : GameState) (cs : list (string * Client))
    : GameRoom :=
  mkGameRoom "trail" "Trail" rt StatusPlaying EmptyString "a" 0 0 g
    (list_to_map cs) ∅ None None.

Definition two_seats : list (string * Client) :=
  [("a", seat "a" "Alice" 0); ("b", seat "b" "Bob" 1)].

(** Alice, low on food, about to travel; the next draws are all zero, so
    riders will show up. *)
Definition hungry_room : GameRoom :=
  playing_room RoomTypeScheduled
    (journey [alice] [0%nat] (constant_draws 0) 0 15 50 PhaseMainMenu)
    [("a", seat "a" "Alice" 0)].

(** Alice holds the turn; Bob's party has perished. *)
Definition widowed_room : GameRoom :=
  playing_room RoomTypeScheduled
    (journey [alice; fallen_bob] [0%nat; 1%nat] (constant_draws 0) 300 100 50 PhaseMainMenu)
    two_seats.

(** The scenario of the two hunters: food 100, ammunition 50, Alice's turn. *)
Definition hunters_room : GameRoom :=
  playing_room RoomTypeScheduled
    (journey [alice; bob] [0%nat; 1%nat] (constant_draws (1 # 2)) 0 100 50 PhaseMainMenu)
    two_seats.

(** Alice facing riders she has to answer. *)
Definition riders_room : GameRoom :=
  playing_room RoomTypeScheduled
    (set_PendingEatingLevel 2
       (journey [alice; bob] [0%nat; 1%nat] (constant_draws (1 # 2)) 500 100 50 PhaseRiders))
    two_seats.

(** Alice at a fort with 700 in cash and 100 pounds of food. *)
Definition fort_room : GameRoom :=
  playing_room RoomTypeScheduled
    (journey [alice; bob] [0%nat; 1%nat] (constant_draws (1 # 2)) 500 100 50 PhaseFort)
    two_seats.

(** Alice with 49 bullets, one short of a hunt. *)
Definition short_of_bullets : GameState :=
  journey [alice] [0%nat] (constant_draws (1 # 2)) 0 100 49 PhaseMainMenu.


(** A wagon left at mile 1000 that Bob has already emptied. *)
Definition emptied_wagon : LootSite :=
  mkLootSite "loot-c-7" 1000 "Carol" 40 30 5 5 100 200 7 true "Bob" (Some 9%Z).

(** A continuous room at mile [mileage] whose only loot site is
    [emptied_wagon]. *)
Definition scavenged_room (mileage : Q) : GameRoom :=
  playing_room RoomTypeContinuous
    (set_LootSites [emptied_wagon]
       (journey [alice; bob] [0%nat; 1%nat] (constant_draws (1 # 2)) mileage 100 50
          PhaseMainMenu))
    two_seats.

(** The same room before anybody touched the wagon. *)
Definition untouched_room : GameRoom :=
  playing_room RoomTypeContinuous
    (set_LootSites
       [mkLootSite "loot-c-7" 1000 "Carol" 40 30 5 5 100 200 7 false EmptyString None]
       (journey [alice; bob] [0%nat; 1%nat] (constant_draws (1 # 2)) 990 100 50
          PhaseMainMenu))
    two_seats.

(** A finished game, created at time 0, whose two players are still
    connected, alone in the directory with the permanent room. *)
Definition finished_server : Server :=
  mkServer
    (<["party1" := set_status StatusFinished hunters_room]>
       (rooms (NewServer 0 (constant_draws 0))))
    ∅ [].

(** A scheduled room in play that Alice joined while it was waiting. *)
Definition started_room : GameRoom := hunters_room.

(** A directory that holds the room of the two hunters. *)
Definition hunters_server : Server := mkServer {[ "trail" := hunters_room ]} ∅ [].

(** Alice coming back on the connection she had. *)
Definition alice_again : Client := mkClient "a" "Alice" None EmptyString EmptyString.

(** Bob coming back on the connection he had, under the name of Alice. *)
Definition bob_as_alice : Client := mkClient "b" "Alice" None EmptyString EmptyString.

(** A member of a party is alive exactly when it has health left, and a
    dead member has none. *)
Definition member_ok (m : PartyMember) : Prop :=
  if MemberAlive m then (0 < Health m)%Z else Health m = 0%Z.

(** The members of the party are consistent, and a player whose leader
    (the first member) is dead is out of the game. *)
Definition player_ok (p : Player) : Prop :=
  Forall member_ok (Party p)
  /\ (forall m, Party p !! 0%nat = Some m -> MemberAlive m = false -> Alive p = false).

(** Every player of the store is consistent. *)
Definition heap_ok (g : GameState) : Prop := Forall player_ok (Heap g).

(** Every session is stored under its own identifier. *)
Definition well_keyed (sm : SessionManager) : Prop :=
  forall k s, sm !! k = Some s -> SessID s = k.

(** Two neighbours of a sorted leaderboard: the second does not come
    before the first. *)
Definition ranked (a b : LeaderboardEntry) : Prop := Leaderboard.less b a = false.

(** The entry counts for the party mode. *)
Definition for_party (e : LeaderboardEntry) : bool :=
  String.eqb (Leaderboard.entryMode e) "party".


(** A directory whose permanent room holds the wagon nobody has touched. *)
Definition decaying_server : Server := mkServer {[ "continuous" := untouched_room ]} ∅ [].

(** A session table with the session of Alice. *)
Definition one_session : SessionManager :=
  {[ "s1" := mkSession "s1" "Alice" "a" "trail" 0 0 true ]}.

(** A board with one result. *)
Definition old_board : list LeaderboardEntry := [mkEntry "Bob" false 1200 14 0 "party"].

(** Carol, who has no player in any room yet. *)
Definition carol : Client := mkClient "c" "Carol" None EmptyString EmptyString.

(** ** Predicates on the computations of the engine *)

(** A property of the state that holds after a computation, whatever the
    state it starts from. *)
Definition always {A} (P : GameState -> Prop) (m : M A) : Prop :=
  forall g, P (m g).2.

(** A property of the state that a computation preserves. *)
Definition keeps {A} (P : GameState -> Prop) (m : M A) : Prop :=
  forall g, P g -> P (m g).2.

(** The computations that leave the resources alone. *)
Definition frames {A} (m : M A) : Prop := forall g, same_resources g (m g).2.

(** The computations that touch neither the store of players nor the
    flag that ends the game. *)
Definition quiet {A} (m : M A) : Prop :=
  forall g, GameOver (m g).2 = GameOver g /\ Heap (m g).2 = Heap g.

(** A projection of the state that a computation leaves as it was. *)
Definition preserves {A B} (f : GameState -> B) (m : M A) : Prop :=
  forall g, f (m g).2 = f g.


(** * Properties: lemmas and theorems *)

(** ** Comparisons *)

Lemma Qltb_lt x y : Qltb x y = true <-> (x < y)%Q.
Proof. unfold Qltb. destruct (Qlt_le_dec x y); split; intros; try done. lra. Qed.

Lemma Qltb_ge x y : Qltb x y = false <-> (y <= x)%Q.
Proof. unfold Qltb. destruct (Qlt_le_dec x y); split; intros; try done. lra. Qed.

Lemma Qleb_le x y : Qleb x y = true <-> (x <= y)%Q.
Proof. unfold Qleb. destruct (Qlt_le_dec y x); split; intros; try done. lra. Qed.

Lemma Qleb_gt x y : Qleb x y = false <-> (y < x)%Q.
Proof. unfold Qleb. destruct (Qlt_le_dec y x); split; intros; try done. lra. Qed.

Lemma GameStatus_eqb_eq a b : GameStatus_eqb a b = true <-> a = b.
Proof. destruct a, b; simpl; split; intros; congruence. Qed.


Lemma TurnPhase_eqb_eq a b : TurnPhase_eqb a b = true <-> a = b.
Proof. destruct a, b; simpl; split; intros; congruence. Qed.

Lemma set_game_same room : set_game (game room) room = room.
Proof. by destruct room. Qed.

Lemma server_same s : mkServer (rooms s) (sessionManager s) (leaderboard s) = s.
Proof. by destruct s. Qed.

(** ** The stale timer (C4) *)

(** C4.  A timer that fires when the current player is not the expected
    one (or there is none), when the room is not being played, when the
    engine is finished or when the expected player is dead changes nothing:
    the room is returned as it was, nothing is recorded on the leaderboard,
    nothing is broadcast, and the server is left as it was. *)
Theorem stale_timer_is_noop now roomID expectedPlayerID (s : Server) (room : GameRoom) :
  GetRoom roomID s = Some room ->
  stale_timer expectedPlayerID room ->
  Room.handleTurnTimeout now expectedPlayerID room = Room.mkTimeoutResult room [] None
  /\ handleTurnTimeout now roomID expectedPlayerID s = (None, s).
Proof.
  intros Hroom Hstale.
  assert (Room.handleTurnTimeout now expectedPlayerID room
          = Room.mkTimeoutResult room [] None) as Hnoop.
  { unfold Room.handleTurnTimeout. unfold stale_timer in Hstale.
    destruct (Room.current room) as [[cur cp]|]; [|done].
    destruct (String.eqb_spec (ID cp) expectedPlayerID) as [Hid|Hid]; [|done].
    destruct (GameOver (game room)) eqn:Hover; [done|].
    destruct (GameStatus_eqb (status room) StatusPlaying) eqn:Hst; [|done].
    destruct (Alive cp) eqn:Hal; [|done].
    apply GameStatus_eqb_eq in Hst.
    destruct Hstale as [[?|?]|[?|?]]; congruence. }
  split; [done|].
  unfold handleTurnTimeout. rewrite Hroom, Hnoop. simpl.
  unfold GetRoom in Hroom. rewrite (insert_id _ _ _ Hroom), app_nil_r.
  unfold set_leaderboard, set_rooms. simpl. by rewrite server_same.
Qed.

(** ** A rider tactic out of range (C10) *)

Lemma coerce_tactic (t : Z) : (t < 1 \/ 4 < t)%Z ->
  (if (t <? 1)%Z || (4 <? t)%Z then 3%Z else t) = 3%Z.
Proof. intros H. destruct (Z.ltb_spec t 1), (Z.ltb_spec 4 t); simpl; lia. Qed.

(** At the level of the server: the request with a tactic out of range is
    the request with tactic 3. *)
Lemma rider_tactic_out_of_range_is_proceed now clientID roomID (tactic : Z) (s : Server) :
  (tactic < 1 \/ 4 < tactic)%Z ->
  HandleRiderTactic now clientID roomID tactic s = HandleRiderTactic now clientID roomID 3 s.
Proof.
  intros H. unfold HandleRiderTactic, in_room_recording.
  destruct (GetRoom roomID s) as [room|]; [|done].
  unfold Room.HandleRiderTactic.
  rewrite (coerce_tactic _ H). done.
Qed.

Lemma Phase_point_at test g : Phase (snd (point_at test g)) = Phase g.
Proof. unfold point_at. destruct (index_where test (Players g)); done. Qed.

Lemma Phase_NextTurn g : Phase (NextTurn g) = Phase g.
Proof.
  unfold NextTurn.
  destruct (GetHumanPlayers g) as [|h0 [|h1 rest]]; [done| |].
  - rewrite Phase_point_at. by destruct (Z.rem _ 4 =? 0)%Z.
  - match goal with |- context [index_where ?t (h0 :: h1 :: rest)] =>
      destruct (index_where t (h0 :: h1 :: rest)) as [i|] end.
    + match goal with |- context [(h0 :: h1 :: rest) !! ?k] =>
        destruct ((h0 :: h1 :: rest) !! k) as [nh|] end.
      * match goal with |- context [point_at ?t ?g0] =>
          pose proof (Phase_point_at t g0) as HP; destruct (point_at t g0) as [[] g1] end;
        simpl in *.
        -- rewrite HP. by destruct (Z.rem _ 4 =? 0)%Z.
        -- rewrite Phase_point_at, HP. by destruct (Z.rem _ 4 =? 0)%Z.
      * simpl. rewrite Phase_point_at. by destruct (Z.rem _ 4 =? 0)%Z.
    + simpl. rewrite Phase_point_at. by destruct (Z.rem _ 4 =? 0)%Z.
Qed.

Lemma Phase_advance now room :
  Phase (game (snd (Room.advanceTurnAndCheckFort now room))) = Phase (NextTurn (game room)).
Proof.
  unfold Room.advanceTurnAndCheckFort.
  destruct (Room.current _) as [[a np]|]; [|done].
  destruct (negb (Alive np) || _); [done|].
  simpl. by destruct (_ && _).
Qed.

Lemma Phase_close_or_advance now result room :
  Phase (game (Room.room_after (Room.close_or_advance now result room))) = Phase (game room).
Proof.
  unfold Room.close_or_advance. destruct (GameOver (game room)); simpl; [done|].
  by rewrite Phase_advance, Phase_NextTurn.
Qed.

Lemma Phase_HandleRiderTactic p t g :
  Phase (snd (Game.HandleRiderTactic (Some p) t g)) = PhaseMainMenu.
Proof.
  unfold Game.HandleRiderTactic, bind, get, modify, ret.
  destruct (ResolveRiderTactic p t g) as [t1 g1].
  destruct (still_playing p g1); [destruct (FinishTurn _ _ g1)|]; done.
Qed.

(** C10.  A rider tactic below 1 or above 4 is answered exactly as tactic
    3 is.  When the request comes from the turn holder during a riders
    phase it is not refused: the engine resolves the encounter with tactic
    3, the room closes or advances the turn, and the phase, which was
    [PhaseRiders], is [PhaseMainMenu] afterwards. *)
Theorem rider_tactic_out_of_range now clientID (tactic : Z) (room : GameRoom) :
  (tactic < 1 \/ 4 < tactic)%Z ->
  Room.HandleRiderTactic now clientID tactic room = Room.HandleRiderTactic now clientID 3 room
  /\ forall c a,
       Room.turn_gate clientID room = inr c ->
       Phase (game room) = PhaseRiders ->
       ClientPlayer c = Some a ->
       Room.HandleRiderTactic now clientID tactic room
       = Room.close_or_advance now
           (fst (Game.HandleRiderTactic (Some a) 3 (game room)))
           (set_game (snd (Game.HandleRiderTactic (Some a) 3 (game room))) room)
       /\ Phase (game (Room.room_after (Room.HandleRiderTactic now clientID tactic room)))
          = PhaseMainMenu.
Proof.
  intros H. split.
  - unfold Room.HandleRiderTactic. by rewrite (coerce_tactic _ H).
  - intros c a Hgate Hphase Hp.
    unfold Room.HandleRiderTactic. rewrite Hgate, Hphase, Hp, (coerce_tactic _ H).
    cbn [negb TurnPhase_eqb]. unfold Room.on_game.
    pose proof (Phase_HandleRiderTactic a 3 (game room)) as HP.
    destruct (Game.HandleRiderTactic (Some a) 3 (game room)) as [result g'].
    split; [done|].
    by rewrite Phase_close_or_advance.
Qed.

(** ** The stale-room sweep (C7) *)

Lemma sweep_step_swept now rs id room :
  sweep_step now rs (id, room) = if swept now id room then delete id rs else rs.
Proof.
  unfold sweep_step, swept.
  destruct (String.eqb id "continuous"); [done|].
  destruct (size (clients room) =? 0)%nat; [done|].
  destruct (GameStatus_eqb (status room) StatusFinished && _); [done|].
  by destruct (GameStatus_eqb (status room) StatusWaiting && _).
Qed.

Lemma sweep_lookup now (visit : list (string * GameRoom)) (rs : gmap string GameRoom) id :
  sweep now visit rs !! id
  = if existsb (fun kv => bool_decide (kv.1 = id) && swept now kv.1 kv.2) visit
    then None else rs !! id.
Proof.
  unfold sweep. revert rs. induction visit as [|[k room] visit IH]; intros rs; [done|].
  cbn [foldl existsb fst snd]. rewrite IH, sweep_step_swept.
  destruct (existsb _ visit); [by rewrite orb_true_r|]. rewrite orb_false_r.
  destruct (swept now k room); [|by rewrite andb_false_r].
  rewrite andb_true_r. case_bool_decide as Hk.
  - subst. apply lookup_delete_eq.
  - by apply lookup_delete_ne.
Qed.

Lemma existsb_keyed now (rs : gmap string GameRoom) id :
  existsb (fun kv => bool_decide (kv.1 = id) && swept now kv.1 kv.2) (map_to_list rs)
  = match rs !! id with Some room => swept now id room | None => false end.
Proof.
  destruct (rs !! id) as [room|] eqn:Hid.
  - destruct (swept now id room) eqn:Hsw.
    + apply existsb_exists. exists (id, room). split.
      * apply list_elem_of_In, elem_of_map_to_list, Hid.
      * cbn. rewrite Hsw. by rewrite bool_decide_eq_true_2.
    + apply not_true_is_false. intros [[k r] [Hin Hkr]]%existsb_exists.
      apply list_elem_of_In, elem_of_map_to_list in Hin. cbn in Hkr.
      apply andb_prop in Hkr as [Hk Hr]. apply bool_decide_eq_true_1 in Hk. subst.
      congruence.
  - apply not_true_is_false. intros [[k r] [Hin Hkr]]%existsb_exists.
    apply list_elem_of_In, elem_of_map_to_list in Hin. cbn in Hkr.
    apply andb_prop in Hkr as [Hk Hr]. apply bool_decide_eq_true_1 in Hk. subst.
    congruence.
Qed.

(** C7, as amended.  After the sweep the directory holds exactly the rooms
    it held that are not [swept]: the permanent continuous room always
    stays; any other room goes when it has no member, or is finished and
    older than ten minutes, or is waiting and older than a day, members or
    not.  The cleanup run when a connection closes removes the room it
    names only when that room is not the continuous room and is empty. *)
Theorem sweep_removes_exactly_the_swept now (s : Server) (id : string) :
  rooms (CleanupStaleRooms now s) !! id
  = match rooms s !! id with
    | Some room => if swept now id room then None else Some room
    | None => None
    end
  /\ forall roomID,
       rooms (CleanupRoomIfEmpty roomID s) !! id
       = match rooms s !! id with
         | Some room =>
           if bool_decide (id = roomID) && negb (String.eqb id "continuous")
              && (size (clients room) =? 0)%nat
           then None else Some room
         | None => None
         end.
Proof.
  split.
  - unfold CleanupStaleRooms. cbn [rooms set_rooms].
    rewrite sweep_lookup, existsb_keyed.
    destruct (rooms s !! id) as [room|]; [|done]. by destruct (swept now id room).
  - intros roomID. unfold CleanupRoomIfEmpty.
    destruct (String.eqb_spec roomID "continuous") as [Hc|Hc].
    + destruct (rooms s !! id) as [room|]; [|done].
      case_bool_decide as Hid; [|done]. subst id roomID. done.
    + destruct (rooms s !! roomID) as [room'|] eqn:Hroom.
      * destruct (size (clients room') =? 0)%nat eqn:Hsz; cbn [rooms set_rooms].
        -- case_bool_decide as Hid.
           ++ subst id. rewrite lookup_delete_eq, Hroom, Hsz.
              destruct (String.eqb_spec roomID "continuous"); done.
           ++ rewrite lookup_delete_ne by done.
              by destruct (rooms s !! id).
        -- destruct (rooms s !! id) as [room|] eqn:Hid'; [|done].
           case_bool_decide as Hid; [|done]. subst id.
           rewrite Hroom in Hid'. injection Hid' as <-. rewrite Hsz.
           by rewrite andb_false_r.
      * destruct (rooms s !! id) as [room|] eqn:Hid'; [|done].
        case_bool_decide as Hid; [|done]. subst id. congruence.
Qed.

(** A room that is being played and holds a member survives the sweep. *)
Lemma sweep_keeps_rooms_in_play now (s : Server) id room :
  rooms s !! id = Some room ->
  status room = StatusPlaying ->
  size (clients room) <> 0%nat ->
  rooms (CleanupStaleRooms now s) !! id = Some room.
Proof.
  intros Hid Hst Hsz. unfold CleanupStaleRooms. cbn [rooms set_rooms].
  rewrite sweep_lookup, existsb_keyed, Hid.
  unfold swept. rewrite Hst. cbn [GameStatus_eqb andb orb].
  apply Nat.eqb_neq in Hsz. rewrite Hsz. by rewrite andb_false_r.
Qed.

(** C7, the counterexample.  A finished room created at time 0 that still
    holds its two members is removed by a sweep eleven minutes later. *)
Lemma sweep_removes_a_room_with_members :
  (exists room, rooms finished_server !! "party1" = Some room
                /\ size (clients room) = 2%nat)
  /\ rooms (CleanupStaleRooms (11 * minute) finished_server) !! "party1" = None.
Proof.
  split.
  - eexists. split; [reflexivity|]. vm_compute. reflexivity.
  - vm_compute. reflexivity.
Qed.

(** ** Loot sites (C9) *)

Lemma index_where_lookup {A} (test : A -> bool) (l : list A) i :
  index_where test l = Some i -> exists x, l !! i = Some x /\ test x = true.
Proof.
  revert i. induction l as [|y l IH]; intros i; [done|]. cbn.
  destruct (test y) eqn:Hy.
  - intros [= <-]. by exists y.
  - destruct (index_where test l) as [j|]; [|done]. intros [= <-]. by apply IH.
Qed.

Lemma index_where_insert {A} (test : A -> bool) (l : list A) i x :
  index_where test l = Some i -> test x = true ->
  index_where test (<[i := x]> l) = Some i.
Proof.
  revert i. induction l as [|y l IH]; intros i; [done|]. cbn.
  destruct (test y) eqn:Hy.
  - intros [= <-] Hx. cbn. by rewrite Hx.
  - destruct (index_where test l) as [j|] eqn:Hj; [|done]. intros [= <-] Hx.
    change (<[S j := x]> (y :: l)) with (y :: <[j := x]> l).
    cbn. rewrite Hy. by rewrite (IH j).
Qed.

Lemma site_named_spec lootSiteID g i site :
  site_named lootSiteID g = Some (i, site) <->
  index_where (fun st => String.eqb (SiteID st) lootSiteID) (LootSites g) = Some i
  /\ LootSites g !! i = Some site.
Proof.
  unfold site_named. split.
  - destruct (index_where _ _) as [j|]; [|done].
    destruct (LootSites g !! j) as [st|] eqn:Hj; [|done]. cbn. intros [= <- <-]. done.
  - intros [-> ->]. done.
Qed.

Lemma LootSites_ClampResources g : LootSites (ClampResources g) = LootSites g.
Proof. done. Qed.

(** A claim on a site that is marked leaves the room as it is. *)
Lemma claim_on_looted_site_unchanged now clientID lootSiteID room i site :
  site_named lootSiteID (game room) = Some (i, site) ->
  IsLooted site = true ->
  (Room.HandleLootClaim now clientID lootSiteID room).2 = room.
Proof.
  intros [Hi Hsite]%site_named_spec Hlooted. unfold Room.HandleLootClaim.
  destruct (Room.turn_gate clientID room); [done|].
  destruct (negb _); [done|]. rewrite Hi, Hsite, Hlooted.
  by destruct (_ || _).
Qed.

(** A claim that changes the room marks the site it names. *)
Lemma claim_marks_the_site now clientID lootSiteID room :
  (Room.HandleLootClaim now clientID lootSiteID room).2 <> room ->
  exists i site,
    site_named lootSiteID (game (Room.HandleLootClaim now clientID lootSiteID room).2)
    = Some (i, site)
    /\ IsLooted site = true.
Proof.
  unfold Room.HandleLootClaim.
  destruct (Room.turn_gate clientID room) as [?|c]; [done|].
  destruct (negb _); [done|].
  destruct (index_where _ _) as [i|] eqn:Hi; [|done].
  destruct (LootSites (game room) !! i) as [site|] eqn:Hsite; [|done].
  destruct (_ || _); [done|]. destruct (IsLooted site) eqn:Hlooted; [done|].
  intros _. cbn [snd game set_game]. unfold Room.claim_site.
  eexists i, _. split; [|shelve].
  apply site_named_spec. rewrite LootSites_ClampResources. cbn [LootSites set_LootSites].
  split.
  - apply index_where_insert; [done|]. cbn.
    by destruct (index_where_lookup _ _ _ Hi) as (x & Hx & Htest); simplify_eq.
  - apply list_lookup_insert_eq. by eapply lookup_lt_Some.
  Unshelve. done.
Qed.

(** C9, as amended.  When the first site carrying the requested id is
    marked as looted, a claim leaves the room, hence the claimant's
    resources and the site record, exactly as they were; if the request
    passes the earlier checks (a known client who holds the turn, a
    continuous room, a party within 50 miles of the site) the reply is the
    text saying who scavenged the wagon.  Of two successive claims on one
    id at most the first transfers anything. *)
Theorem looted_site_is_not_looted_again now clientID lootSiteID (room : GameRoom)
    (i : nat) (site : LootSite) :
  site_named lootSiteID (game room) = Some (i, site) ->
  (IsLooted site = true ->
   (Room.HandleLootClaim now clientID lootSiteID room).2 = room
   /\ forall c,
        Room.turn_gate clientID room = inr c ->
        roomType room = RoomTypeContinuous ->
        (SiteMileage site - 50 <= Mileage (game room))%Q ->
        (Mileage (game room) <= SiteMileage site + 50)%Q ->
        (Room.HandleLootClaim now clientID lootSiteID room).1 = already_scavenged site)
  /\ forall now' clientID',
       (Room.HandleLootClaim now clientID lootSiteID room).2 <> room ->
       (Room.HandleLootClaim now' clientID' lootSiteID
          (Room.HandleLootClaim now clientID lootSiteID room).2).2
       = (Room.HandleLootClaim now clientID lootSiteID room).2.
Proof.
  intros Hnamed. split.
  - intros Hlooted. split; [by eapply claim_on_looted_site_unchanged|].
    intros c Hgate Hrt Hlo Hhi. apply site_named_spec in Hnamed as [Hi Hsite].
    unfold Room.HandleLootClaim. rewrite Hgate, Hrt, Hi, Hsite, Hlooted.
    cbn [RoomType_eqb negb].
    apply Qltb_ge in Hlo, Hhi. by rewrite Hlo, Hhi.
  - intros now' clientID' Hchanged.
    destruct (claim_marks_the_site _ _ _ _ Hchanged) as (j & site' & Hnamed' & Hlooted').
    by eapply claim_on_looted_site_unchanged.
Qed.

(** C9, the counterexample.  The wagon at mile 1000 is marked as looted; a
    claim by the turn holder of a party standing at mile 0 is answered with
    the text about the distance, not with the text about the scavenger. *)
Lemma looted_site_out_of_reach :
  site_named "loot-c-7" (game (scavenged_room 0)) = Some (0%nat, emptied_wagon)
  /\ IsLooted emptied_wagon = true
  /\ (Room.HandleLootClaim 0 "a" "loot-c-7" (scavenged_room 0)).1
     = ln "You're too far from that loot site."
  /\ (Room.HandleLootClaim 0 "a" "loot-c-7" (scavenged_room 0)).1
     <> already_scavenged emptied_wagon.
Proof. repeat split; try (vm_compute; reflexivity). vm_compute. discriminate. Qed.

(** ** Requests that cannot be afforded (C5) *)

(** C5, as amended.  At a fort, a purchase that costs more than the cash
    at hand and a sale of more than is in stock are answered with a text
    that gives both amounts, and the engine is left exactly as it was.  A
    hunt asked for with fewer than 50 bullets is not refused: the reply
    opens with the remark that bullets are short and the turn is then
    played as an ordinary week of travel. *)
Theorem unaffordable_requests (g : GameState) (item : string) (qty : Z) (fi : FortItem)
    (a : ptr) :
  (Phase g = PhaseFort -> (0 < qty)%Z -> GetFortPrices item = Some fi ->
   ((Cash g < Price fi * float64 qty)%Q ->
    Game.HandleFortBuy item qty g
    = (ln ("Not enough cash! Need $" +:+ fmt_f0 (Price fi * float64 qty)
           +:+ " but only have $" +:+ fmt_f0 (Cash g)), g))
   /\ forall stock word take,
        sell_item item = Some (stock, word, take) ->
        (stock g < Qty fi * float64 qty)%Q ->
        Game.HandleFortSell item qty g
        = (ln ("Not enough " +:+ word +:+ " to sell! Have " +:+ fmt_f0 (stock g)
               +:+ ", need " +:+ fmt_f0 (Qty fi * float64 qty)), g))
  /\ (Alive (deref a g) = true -> (Bullets g < 50)%Q ->
      ProcessTurn (Some a) "hunt" g
      = (ln "Not enough bullets to hunt!"
         +:+ (ContinueTravel a (set_Phase PhaseMainMenu g)).1,
         (ContinueTravel a (set_Phase PhaseMainMenu g)).2)).
Proof.
  split.
  - intros Hphase Hqty Hitem. split.
    + intros Hcash. unfold Game.HandleFortBuy, bind, get, ret.
      rewrite Hphase. cbn [TurnPhase_eqb negb].
      destruct (Z.leb_spec qty 0); [lia|]. rewrite Hitem.
      apply Qltb_lt in Hcash. by rewrite Hcash.
    + intros stock word take Hsell Hstock. unfold Game.HandleFortSell, bind, get, ret.
      rewrite Hphase. cbn [TurnPhase_eqb negb].
      destruct (Z.leb_spec qty 0); [lia|]. rewrite Hitem, Hsell.
      apply Qltb_lt in Hstock. by rewrite Hstock.
  - intros Halive Hbullets. unfold ProcessTurn, bind, get, ret, modify.
    rewrite Halive. cbn [negb String.eqb Ascii.eqb Bool.eqb].
    apply Qleb_gt in Hbullets. rewrite Hbullets.
    by destruct (ContinueTravel a (set_Phase PhaseMainMenu g)).
Qed.

(** C5, the counterexample.  Alice asks for a hunt with 49 bullets: she is
    told that bullets are short, and the week is played all the same; the
    food goes from 100 to 52 and the wagon moves. *)
Lemma hunt_without_bullets_is_played :
  (Bullets short_of_bullets < 50)%Q
  /\ (ProcessTurn (Some 0%nat) "hunt" short_of_bullets).2 <> short_of_bullets
  /\ Food (ProcessTurn (Some 0%nat) "hunt" short_of_bullets).2 = 52%Q
  /\ Food short_of_bullets = 100%Q
  /\ (Mileage short_of_bullets < Mileage (ProcessTurn (Some 0%nat) "hunt" short_of_bullets).2)%Q.
Proof.
  assert (Food (ProcessTurn (Some 0%nat) "hunt" short_of_bullets).2 = 52%Q) as HF
    by (vm_compute; reflexivity).
  split; [apply Qltb_lt; vm_compute; reflexivity|].
  split; [intros Heq; rewrite Heq in HF; vm_compute in HF; discriminate|].
  split; [exact HF|].
  split; [reflexivity|].
  apply Qltb_lt. vm_compute. reflexivity.
Qed.

(** ** The turn holder (C2) *)

Lemma index_where_exists {A} (test : A -> bool) (l : list A) x :
  x ∈ l -> test x = true -> is_Some (index_where test l).
Proof.
  induction 1 as [y l|y z l Hin IH]; intros Hx; cbn.
  - by rewrite Hx.
  - destruct (test z); [done|]. destruct (IH Hx) as [i ->]. done.
Qed.

Lemma point_at_spec test g :
  (exists x, x ∈ Players g /\ test x = true) ->
  exists idx x,
    point_at test g = (true, set_CurrentPlayerIdx idx g)
    /\ Players g !! idx = Some x /\ test x = true.
Proof.
  intros (x & Hin & Hx). unfold point_at.
  destruct (index_where_exists test _ x Hin Hx) as [idx Hidx]. rewrite Hidx.
  destruct (index_where_lookup _ _ _ Hidx) as (y & Hy & Hty). by exists idx, y.
Qed.

Lemma GetCurrentPlayer_pointed idx g x :
  Players g !! idx = Some x -> GetCurrentPlayer (set_CurrentPlayerIdx idx g) = Some x.
Proof.
  intros Hx. unfold GetCurrentPlayer. cbn.
  apply lookup_lt_Some in Hx as Hlt.
  destruct (Nat.leb_spec (length (Players g)) idx); [lia|done].
Qed.

(** After [NextTurn] the engine is finished or the turn is held by a
    living human player. *)
Lemma NextTurn_turn_holder g :
  GameOver (NextTurn g) = true \/ current_is_alive_human (NextTurn g).
Proof.
  unfold NextTurn.
  destruct (GetHumanPlayers g) as [|h0 rest] eqn:Hhumans; [by left|]. right.
  set (g1 := if (Z.rem _ 4 =? 0)%Z then _ else _).
  assert (Players g1 = Players g) as HP by (subst g1; by destruct (_ =? _)%Z).
  assert (forall a, is_alive_human g1 a = is_alive_human g a) as HA
    by (subst g1; by destruct (_ =? _)%Z).
  assert (forall h, h ∈ h0 :: rest -> h ∈ Players g1 /\ is_alive_human g1 h = true) as Hh.
  { intros h Hin. rewrite <- Hhumans in Hin. unfold GetHumanPlayers in Hin.
    apply list_elem_of_In, filter_In in Hin as [Hin Hal].
    rewrite HP, HA. split; [by apply list_elem_of_In|done]. }
  assert (forall h, h ∈ h0 :: rest ->
            current_is_alive_human (point_at (Nat.eqb h) g1).2) as Hpoint.
  { intros h Hin. destruct (Hh h Hin) as [Hroster Halive].
    destruct (point_at_spec (Nat.eqb h) g1) as (idx & x & -> & Hx & Heq).
    { exists h. split; [done|]. apply Nat.eqb_refl. }
    apply Nat.eqb_eq in Heq. subst x. exists h. split.
    - by apply GetCurrentPlayer_pointed.
    - done. }
  destruct rest as [|h1 rest].
  - apply Hpoint. by left.
  - destruct (index_where _ (h0 :: h1 :: rest)) as [i|].
    + destruct ((h0 :: h1 :: rest) !! _) as [nh|] eqn:Hnh.
      * destruct (Hh nh) as [Hroster Halive]; [by eapply list_elem_of_lookup_2|].
        destruct (point_at_spec (Nat.eqb nh) g1) as (idx & x & Hpt & Hx & Heq).
        { exists nh. split; [done|]. apply Nat.eqb_refl. }
        rewrite Hpt. cbn [fst snd].
        apply Nat.eqb_eq in Heq. subst x. exists nh. split.
        -- by apply GetCurrentPlayer_pointed.
        -- done.
      * cbn [fst snd].
        destruct (point_at_spec (is_alive_human g1) g1) as (idx & x & -> & Hx & Hal).
        { exists h0. apply Hh. by left. }
        exists x. split; [by apply GetCurrentPlayer_pointed|done].
    + cbn [fst snd].
      destruct (point_at_spec (is_alive_human g1) g1) as (idx & x & -> & Hx & Hal).
      { exists h0. apply Hh. by left. }
      exists x. split; [by apply GetCurrentPlayer_pointed|done].
Qed.

(** C2, the code at the failing input.  Alice holds the turn in a room in
    play; Bob's party has perished.  The invariant holds.  Alice logs out:
    the room is still in play, the engine is not finished, and the turn is
    held by Bob, whose leader is dead. *)
Theorem logout_leaves_the_turn_with_the_dead :
  turn_holder_ok widowed_room
  /\ status (Room.LogoutClient 5 "a" widowed_room) = StatusPlaying
  /\ GameOver (game (Room.LogoutClient 5 "a" widowed_room)) = false
  /\ Room.current (Room.LogoutClient 5 "a" widowed_room) = Some (1%nat, fallen_bob)
  /\ Alive fallen_bob = false
  /\ ~ turn_holder_ok (Room.LogoutClient 5 "a" widowed_room).
Proof.
  split.
  { intros _. left. exists 0%nat. split; vm_compute; reflexivity. }
  split; [vm_compute; reflexivity|].
  split; [vm_compute; reflexivity|].
  split; [vm_compute; reflexivity|].
  split; [reflexivity|].
  intros Hok. destruct Hok as [(a & Hcur & Halive)|Hover].
  - vm_compute. reflexivity.
  - vm_compute in Hcur. injection Hcur as <-. vm_compute in Halive. discriminate.
  - vm_compute in Hover. discriminate.
Qed.

(** ** Resources never negative (C1) *)

Lemma clamp0_nonneg x : (0 <= clamp0 x)%Q.
Proof. unfold clamp0. destruct (Qltb x 0) eqn:H; [lra|]. by apply Qltb_ge in H. Qed.

Lemma ClampResources_nonneg g : resources_nonneg (ClampResources g).
Proof. repeat split; apply clamp0_nonneg. Qed.

Lemma same_resources_refl g : same_resources g g.
Proof. by repeat split. Qed.

Lemma same_resources_trans g1 g2 g3 :
  same_resources g1 g2 -> same_resources g2 g3 -> same_resources g1 g3.
Proof. unfold same_resources. intros ? ?. intuition congruence. Qed.

Lemma same_resources_nonneg g g' :
  same_resources g g' -> resources_nonneg g -> resources_nonneg g'.
Proof.
  unfold same_resources, resources_nonneg.
  intros (-> & -> & -> & -> & -> & -> & _). done.
Qed.

Lemma always_keeps {A} P (m : M A) : always P m -> keeps P m.
Proof. intros H g _. apply H. Qed.

Lemma always_bind {A B} P (m : M A) (k : A -> M B) :
  (forall x, always P (k x)) -> always P (bind m k).
Proof. intros H g. unfold bind. destruct (m g) as [x g']. apply H. Qed.

Lemma always_then {A B} P (m : M A) (k : A -> M B) :
  always P m -> (forall x, keeps P (k x)) -> always P (bind m k).
Proof.
  intros Hm Hk g. unfold bind. specialize (Hm g). destruct (m g) as [x g']. by apply Hk.
Qed.

Lemma keeps_bind {A B} P (m : M A) (k : A -> M B) :
  keeps P m -> (forall x, keeps P (k x)) -> keeps P (bind m k).
Proof.
  intros Hm Hk g Hg. unfold bind. specialize (Hm g Hg). destruct (m g) as [x g']. by apply Hk.
Qed.

Lemma keeps_ret {A} P (x : A) : keeps P (ret x).
Proof. by intros g. Qed.

Lemma keeps_get P : keeps P get.
Proof. by intros g. Qed.

Lemma always_clamp : always resources_nonneg (modify ClampResources).
Proof. intros g. apply ClampResources_nonneg. Qed.

Lemma frames_keeps {A} (m : M A) : frames m -> keeps resources_nonneg m.
Proof. intros H g. apply same_resources_nonneg, H. Qed.

Lemma frames_bind {A B} (m : M A) (k : A -> M B) :
  frames m -> (forall x, frames (k x)) -> frames (bind m k).
Proof.
  intros Hm Hk g. unfold bind. specialize (Hm g). destruct (m g) as [x g'].
  eapply same_resources_trans; [exact Hm|apply Hk].
Qed.

Lemma frames_ret {A} (x : A) : frames (ret x).
Proof. intros g. apply same_resources_refl. Qed.

Lemma frames_get : frames get.
Proof. intros g. apply same_resources_refl. Qed.

Lemma frames_Float64 : frames Float64.
Proof. intros g. by repeat split. Qed.

Lemma frames_Intn n : frames (Intn n).
Proof. intros g. by repeat split. Qed.

Lemma frames_CheckAllPlayersDead : frames CheckAllPlayersDead.
Proof. intros g. unfold CheckAllPlayersDead. destruct (existsb _ _); by repeat split. Qed.

Lemma frames_DamagePartyMember a i amount : frames (DamagePartyMember a i amount).
Proof.
  intros g. unfold DamagePartyMember.
  destruct (Party (deref a g) !! i) as [m|]; [|apply same_resources_refl].
  destruct (negb (MemberAlive m)); [apply same_resources_refl|].
  destruct (_ <=? 0)%Z; [|by repeat split].
  destruct (i =? 0)%nat; [|by repeat split].
  cbn [snd]. eapply same_resources_trans; [|apply frames_CheckAllPlayersDead].
  by repeat split.
Qed.

Lemma frames_DamageRandomMember a amount : frames (DamageRandomMember a amount).
Proof.
  intros g. unfold DamageRandomMember.
  destruct (alive_indices _) as [|i0 rest]; [apply same_resources_refl|].
  destruct (Intn _ g) as [k g1] eqn:E.
  eapply same_resources_trans; [|apply frames_DamagePartyMember].
  change g1 with (k, g1).2. rewrite <- E. apply frames_Intn.
Qed.

Lemma frames_HandleFinalTurn a : frames (HandleFinalTurn a).
Proof. intros g. by repeat split. Qed.

Lemma frames_check_win a : frames (check_win a).
Proof.
  intros g. unfold check_win, bind, get.
  destruct (Qleb _ _); [apply frames_HandleFinalTurn|apply same_resources_refl].
Qed.

Lemma frames_set_Phase ph : frames (modify (set_Phase ph)).
Proof. intros g. by repeat split. Qed.

(** Descending to the clamp that ends a computation. *)
Ltac ends_with_clamp :=
  repeat first
    [ apply always_then; [apply always_clamp | intros; apply keeps_ret]
    | apply always_bind; intro ].

Lemma always_hunt_outcome accuracy big : always resources_nonneg (hunt_outcome accuracy big).
Proof. unfold hunt_outcome. ends_with_clamp. Qed.

(** After [HandleHuntShoot] on a player the resources are non-negative. *)
Lemma HandleHuntShoot_nonneg a reactionTimeMs :
  always resources_nonneg (Game.HandleHuntShoot (Some a) reactionTimeMs).
Proof.
  unfold Game.HandleHuntShoot.
  apply always_then; [apply always_hunt_outcome|]. intros t.
  apply keeps_bind; [apply frames_keeps, frames_set_Phase|]. intros _.
  apply keeps_bind; [apply frames_keeps, frames_check_win|]. intros _. apply keeps_ret.
Qed.

Lemma always_riders_epilogue a t : always resources_nonneg (riders_epilogue a t).
Proof.
  unfold riders_epilogue. ends_with_clamp. Qed.

Lemma always_ResolveRiderTactic a tactic : always resources_nonneg (ResolveRiderTactic a tactic).
Proof.
  unfold ResolveRiderTactic, riders_epilogue. apply always_bind. intros g.
  destruct (PendingRiderHostile g).
  - destruct (tactic =? 1)%Z; [ends_with_clamp|].
    destruct (tactic =? 2)%Z; [ends_with_clamp|].
    destruct (tactic =? 3)%Z.
    { apply always_bind. intros r. destruct (Qltb 0.8 r); ends_with_clamp. }
    destruct (tactic =? 4)%Z; ends_with_clamp.
  - destruct (tactic =? 1)%Z; [ends_with_clamp|].
    destruct (tactic =? 2)%Z; [ends_with_clamp|].
    destruct (tactic =? 3)%Z; [ends_with_clamp|].
    destruct (tactic =? 4)%Z; ends_with_clamp.
Qed.

Lemma always_FinishTurn a eatingLevel : always resources_nonneg (FinishTurn a eatingLevel).
Proof.
  unfold FinishTurn. do 5 (apply always_bind; intro).
  apply always_then; [apply always_clamp|]. intros _.
  apply keeps_bind; [apply keeps_get|]. intros g.
  apply keeps_bind; [|intros; apply keeps_ret].
  destruct (_ && _); [apply frames_keeps, frames_HandleFinalTurn|apply keeps_ret].
Qed.

(** After [HandleRiderTactic] on a player the resources are non-negative. *)
Lemma HandleRiderTactic_nonneg a tactic :
  always resources_nonneg (Game.HandleRiderTactic (Some a) tactic).
Proof.
  unfold Game.HandleRiderTactic.
  apply always_then; [apply always_ResolveRiderTactic|]. intros t.
  apply keeps_bind; [apply keeps_get|]. intros g.
  apply keeps_bind.
  { destruct (still_playing a g); [apply always_keeps, always_FinishTurn|apply keeps_ret]. }
  intros rest. apply keeps_bind; [apply frames_keeps, frames_set_Phase|].
  intros _. apply keeps_ret.
Qed.

Lemma quiet_bind {A B} (m : M A) (k : A -> M B) :
  quiet m -> (forall x, quiet (k x)) -> quiet (bind m k).
Proof.
  intros Hm Hk g. unfold bind. specialize (Hm g). destruct (m g) as [x g'].
  destruct (Hk x g') as [-> ->]. done.
Qed.

Lemma quiet_ret {A} (x : A) : quiet (ret x).
Proof. by intros g. Qed.

Lemma quiet_get : quiet get.
Proof. by intros g. Qed.

Lemma quiet_Float64 : quiet Float64.
Proof. by intros g. Qed.

Lemma quiet_Intn n : quiet (Intn n).
Proof. by intros g. Qed.

Lemma quiet_CheckRiders : quiet CheckRiders.
Proof.
  unfold CheckRiders. apply quiet_bind; [apply quiet_get|]. intros g.
  apply quiet_bind; [apply quiet_Float64|]. intros r.
  destruct (Qltb 1 _); [apply quiet_ret|].
  apply quiet_bind; [apply quiet_Float64|]. intros h.
  apply quiet_bind; [by intros ?|]. intros _.
  apply quiet_bind; [apply quiet_Intn|]. intros n.
  apply quiet_bind; [by intros ?|]. intros _. apply quiet_ret.
Qed.

Lemma frames_CheckRiders : frames CheckRiders.
Proof.
  unfold CheckRiders. apply frames_bind; [apply frames_get|]. intros g.
  apply frames_bind; [apply frames_Float64|]. intros r.
  destruct (Qltb 1 _); [apply frames_ret|].
  apply frames_bind; [apply frames_Float64|]. intros h.
  apply frames_bind; [by intros ?|]. intros _.
  apply frames_bind; [apply frames_Intn|]. intros n.
  apply frames_bind; [by intros ?|]. intros _. apply frames_ret.
Qed.

Lemma still_playing_quiet {A} (m : M A) a g :
  quiet m -> still_playing a (m g).2 = still_playing a g.
Proof. intros H. unfold still_playing, deref. by destruct (H g) as [-> ->]. Qed.

Lemma Alive_deref_store a v g :
  Alive v = false -> Alive (deref a (store a v g)) = false.
Proof.
  intros Hv. unfold deref, store. cbn [Heap set_Heap].
  destruct (decide (a < length (Heap g))%nat) as [Hlt|Hge].
  - by rewrite list_lookup_insert_eq.
  - rewrite list_insert_ge by lia. by rewrite lookup_ge_None_2 by lia.
Qed.

Lemma Alive_deref_store_same a v g :
  Alive v = Alive (deref a g) -> Alive (deref a (store a v g)) = Alive (deref a g).
Proof.
  intros Hv. unfold deref, store in *. cbn [Heap set_Heap].
  destruct (decide (a < length (Heap g))%nat) as [Hlt|Hge].
  - by rewrite list_lookup_insert_eq.
  - by rewrite list_insert_ge by lia.
Qed.

Lemma deref_CheckAllPlayersDead a g : deref a (CheckAllPlayersDead g).2 = deref a g.
Proof. unfold CheckAllPlayersDead. by destruct (existsb _ _). Qed.

(** Damage either kills the leader or leaves the flag that ends the game
    as it was; it never revives a player. *)
Lemma DamagePartyMember_leader a i amount g :
  let g' := (DamagePartyMember a i amount g).2 in
  (Alive (deref a g') = false \/ GameOver g' = GameOver g)
  /\ (Alive (deref a g) = false -> Alive (deref a g') = false).
Proof.
  unfold DamagePartyMember.
  destruct (Party (deref a g) !! i) as [m|]; [|by split; [right|]].
  destruct (negb (MemberAlive m)); [by split; [right|]|].
  destruct (_ <=? 0)%Z.
  - destruct (i =? 0)%nat; cbn [snd].
    + rewrite deref_CheckAllPlayersDead.
      split; [left|intros _]; by apply Alive_deref_store.
    + split; [by right|]. intros Hd. by rewrite Alive_deref_store_same.
  - cbn [snd]. split; [by right|]. intros Hd. by rewrite Alive_deref_store_same.
Qed.

Lemma DamageRandomMember_leader a amount g :
  let g' := (DamageRandomMember a amount g).2 in
  (Alive (deref a g') = false \/ GameOver g' = GameOver g)
  /\ (Alive (deref a g) = false -> Alive (deref a g') = false).
Proof.
  unfold DamageRandomMember.
  destruct (alive_indices _) as [|i0 rest]; [by split; [right|]|].
  destruct (Intn _ g) as [k g1] eqn:E.
  assert (GameOver g1 = GameOver g /\ Heap g1 = Heap g) as [HO HH].
  { change g1 with (k, g1).2. rewrite <- E. apply quiet_Intn. }
  destruct (DamagePartyMember_leader a (default 0%nat ((i0 :: rest) !! k)) amount g1)
    as [H1 H2].
  unfold deref in *. rewrite HO, HH in *. done.
Qed.

Lemma run_bind {A B} (m : M A) (k : A -> M B) g : bind m k g = k (m g).1 (m g).2.
Proof. unfold bind. by destruct (m g). Qed.

Lemma starve_leader a idxs g :
  let g' := (starve a idxs g).2 in
  same_resources g g'
  /\ (Alive (deref a g') = false \/ GameOver g' = GameOver g)
  /\ (Alive (deref a g) = false -> Alive (deref a g') = false).
Proof.
  revert g. induction idxs as [|i rest IH]; intros g; cbn [starve].
  - split; [apply same_resources_refl|]. by split; [right|].
  - rewrite run_bind. change (get g) with (g, g). cbn [fst snd].
    set (m := if member_alive a i g then _ else _).
    assert (same_resources g (m g).2
            /\ (Alive (deref a (m g).2) = false \/ GameOver (m g).2 = GameOver g)
            /\ (Alive (deref a g) = false -> Alive (deref a (m g).2) = false))
      as (Hr & Hl & Hd).
    { subst m. destruct (member_alive a i g).
      - split; [apply frames_DamagePartyMember|apply DamagePartyMember_leader].
      - split; [apply same_resources_refl|]. by split; [right|]. }
    rewrite !run_bind. cbn [ret snd].
    destruct (IH (m g).2) as (Hr' & Hl' & Hd').
    split; [by eapply same_resources_trans|]. split.
    + destruct Hl as [Hl|Hl]; [left; by apply Hd'|].
      destruct Hl' as [Hl'|Hl']; [by left|right; congruence].
    + intros H. by apply Hd', Hd.
Qed.

(** A river band either changes nothing that matters to the rest of the
    turn or ends with the resources clamped. *)
Lemma river_band_outcome p title mishap safe chance lose1 lose2 span base damage g :
  let g' := (river_band p title mishap safe chance lose1 lose2 span base damage g).2 in
  (GameOver g' = GameOver g /\ Heap g' = Heap g /\ same_resources g g')
  \/ resources_nonneg g'.
Proof.
  unfold river_band. rewrite run_bind.
  destruct (Qltb (Float64 g).1 chance).
  - right.
    assert (always resources_nonneg
              (lose1;;; lose2;;; r2 <- Float64;; sub_Mileage (r2 * span + base);;;
               modify ClampResources;;; d <- DamageRandomMember p damage;;
               ret (ln title +:+ ln mishap +:+ d))) as H; [|apply H].
    do 4 (apply always_bind; intro).
    apply always_then; [apply always_clamp|]. intros _.
    apply keeps_bind; [apply frames_keeps, frames_DamageRandomMember|].
    intros; apply keeps_ret.
  - left. cbn. by repeat split.
Qed.

Lemma HandleRiverCrossing_outcome p g :
  let g' := (HandleRiverCrossing p g).2 in
  (GameOver g' = GameOver g /\ Heap g' = Heap g /\ same_resources g g')
  \/ resources_nonneg g'.
Proof.
  unfold HandleRiverCrossing. rewrite run_bind. change (get g) with (g, g). cbn [fst snd].
  repeat (destruct (_ && _); [apply river_band_outcome|]).
  left. by repeat split.
Qed.

Lemma keeps_playing_quiet {A} (m : M A) a g :
  quiet m -> still_playing a g = true -> still_playing a (m g).2 = true.
Proof. intros H Hp. by rewrite still_playing_quiet. Qed.

Lemma quiet_modify_resources (f : GameState -> GameState) :
  (forall g, GameOver (f g) = GameOver g /\ Heap (f g) = Heap g) -> quiet (modify f).
Proof. intros H g. apply H. Qed.

(** The first half of a week of travel, started by a living player on an
    engine that is not finished, ends in one of three ways: the leader has
    starved and the resources are untouched; or the turn is still being
    played; or the river has been unkind and the resources were clamped. *)
Lemma travel_leg_outcome a g :
  resources_nonneg g -> GameOver g = false -> Alive (deref a g) = true ->
  match (travel_leg a g).1.2 with
  | None => resources_nonneg (travel_leg a g).2
  | Some _ => still_playing a (travel_leg a g).2 = true \/ resources_nonneg (travel_leg a g).2
  end.
Proof.
  intros Hnn Hover Halive. unfold travel_leg.
  rewrite run_bind. change (get g) with (g, g). cbn [fst snd].
  rewrite run_bind.
  set (hunger := if Qltb (Food g) 13 then _ else _).
  assert (same_resources g (hunger g).2
          /\ (Qltb (Food g) 13 = false \/ Alive (deref a (hunger g).2) = true ->
              still_playing a (hunger g).2 = true)) as [Hres Hplay].
  { subst hunger. destruct (Qltb (Food g) 13).
    - rewrite run_bind. cbn [ret snd].
      destruct (starve_leader a (seq 0 (length (Party (deref a g)))) g) as (Hr & Hl & _).
      split; [done|]. intros [?|Hal]; [done|]. unfold still_playing. rewrite Hal.
      destruct Hl as [Hl|Hl]; [congruence|]. by rewrite Hl, Hover.
    - cbn [ret snd]. split; [apply same_resources_refl|]. intros _.
      unfold still_playing. by rewrite Hover, Halive. }
  rewrite run_bind. change (get (hunger g).2) with ((hunger g).2, (hunger g).2).
  cbn [fst snd].
  destruct (Qltb (Food g) 13 && negb (Alive (deref a (hunger g).2))) eqn:Hdead.
  - cbn [ret fst snd]. by eapply same_resources_nonneg.
  - assert (still_playing a (hunger g).2 = true) as Hp.
    { apply Hplay. destruct (Qltb (Food g) 13); [right|by left].
      by destruct (Alive (deref a (hunger g).2)). }
    set (g1 := (hunger g).2) in *. set (t1 := (hunger g).1). clearbody g1 t1.
    clear hunger Hplay Hdead Hres.
    rewrite !run_bind. cbn [ret fst snd get].
    match goal with |- context [HandleRiverCrossing a ?gr] => set (g2 := gr) end.
    assert (still_playing a g2 = true) as Hp2 by (subst g2; exact Hp).
    clearbody g2.
    destruct (HandleRiverCrossing_outcome a g2) as [(HO & HH & _)|Hclamped].
    + left. set (g3 := (HandleRiverCrossing a g2).2) in *.
      assert (still_playing a g3 = true) as Hp3
        by (unfold still_playing, deref in *; by rewrite HO, HH).
      destruct (Qltb 1 _ && still_playing a g3).
      * by apply keeps_playing_quiet; [apply quiet_CheckRiders|].
      * done.
    + right. set (g3 := (HandleRiverCrossing a g2).2) in *.
      destruct (Qltb 1 _ && still_playing a g3).
      * eapply same_resources_nonneg; [apply frames_CheckRiders|done].
      * done.
Qed.

(** A week of travel started by a living player on an engine that is not
    finished leaves the resources non-negative unless it stops to wait for
    the answer to riders. *)
Lemma ContinueTravel_nonneg a g :
  resources_nonneg g -> GameOver g = false -> Alive (deref a g) = true ->
  Phase (ContinueTravel a g).2 <> PhaseRiders ->
  resources_nonneg (ContinueTravel a g).2.
Proof.
  intros Hnn Hover Halive. unfold ContinueTravel. rewrite run_bind.
  pose proof (travel_leg_outcome a g Hnn Hover Halive) as Hleg.
  destruct (travel_leg a g) as [[text [[lvl riders]|]] g1]; cbn [fst snd] in *; [|done].
  rewrite run_bind. change (get g1) with (g1, g1). cbn [fst snd].
  destruct (riders && PlayerType_eqb (PType (deref a g1)) PlayerTypeHuman) eqn:Hsusp.
  - rewrite !run_bind. cbn. done.
  - rewrite run_bind.
    set (fight := if riders then _ else _).
    assert (still_playing a (fight g1).2 = true \/ resources_nonneg (fight g1).2) as Hfight.
    { subst fight. destruct riders; [right|done].
      rewrite run_bind. apply always_ResolveRiderTactic. }
    set (g2 := (fight g1).2) in *. clearbody g2.
    rewrite run_bind. change (get g2) with (g2, g2). cbn [fst snd].
    rewrite run_bind. cbn [ret snd]. intros _.
    destruct (still_playing a g2); [apply always_FinishTurn|].
    by destruct Hfight.
Qed.

Lemma keeps_HandleHunting a : keeps resources_nonneg (HandleHunting a).
Proof.
  unfold HandleHunting. apply keeps_bind; [apply keeps_get|]. intros g.
  destruct (Qltb (Bullets g) 50); [apply keeps_ret|].
  apply always_keeps. do 2 (apply always_bind; intro).
  apply always_then; [apply always_hunt_outcome|]. intros t.
  apply keeps_bind; [apply frames_keeps, frames_check_win|]. intros; apply keeps_ret.
Qed.

(** [ProcessTurn] on an engine that is not finished leaves the resources
    non-negative unless it stops to wait for the answer to riders. *)
Lemma ProcessTurn_nonneg p action g :
  resources_nonneg g -> GameOver g = false ->
  Phase (ProcessTurn p action g).2 <> PhaseRiders ->
  resources_nonneg (ProcessTurn p action g).2.
Proof.
  intros Hnn Hover. unfold ProcessTurn. destruct p as [a|]; [|done].
  rewrite run_bind. change (get g) with (g, g). cbn [fst snd].
  destruct (Alive (deref a g)) eqn:Halive; [|done]. cbn [negb].
  rewrite run_bind. cbn [modify fst snd].
  assert (resources_nonneg (set_Phase PhaseMainMenu g)) as Hnn' by done.
  destruct (String.eqb action "hunt").
  - destruct (Qleb 50 (Bullets g)) eqn:Hb.
    + destruct (PType (deref a g)).
      * intros _. rewrite !run_bind.
        destruct Hnn as (? & ? & ? & ? & ? & ?). apply Qleb_le in Hb.
        unfold resources_nonneg. cbn. repeat split; try done. lra.
      * intros _. by apply keeps_HandleHunting.
    + rewrite run_bind. cbn [ret snd]. by apply ContinueTravel_nonneg.
  - by apply ContinueTravel_nonneg.
Qed.

Lemma keeps_HandleFortBuy item qty : keeps resources_nonneg (Game.HandleFortBuy item qty).
Proof.
  unfold Game.HandleFortBuy. apply keeps_bind; [apply keeps_get|]. intros g.
  destruct (negb _); [apply keeps_ret|]. destruct (qty <=? 0)%Z; [apply keeps_ret|].
  destruct (GetFortPrices item) as [fi|]; [|apply keeps_ret].
  destruct (Qltb _ _); [apply keeps_ret|]. apply always_keeps. ends_with_clamp.
Qed.

Lemma keeps_HandleFortSell item qty : keeps resources_nonneg (Game.HandleFortSell item qty).
Proof.
  unfold Game.HandleFortSell. apply keeps_bind; [apply keeps_get|]. intros g.
  destruct (negb _); [apply keeps_ret|]. destruct (qty <=? 0)%Z; [apply keeps_ret|].
  destruct (GetFortPrices item) as [fi|]; [|apply keeps_ret].
  destruct (sell_item item) as [[[stock word] take]|].
  - destruct (Qltb _ _); [apply keeps_ret|]. apply always_keeps. ends_with_clamp.
  - apply always_keeps. ends_with_clamp.
Qed.

Lemma keeps_HandleFortLeave : keeps resources_nonneg Game.HandleFortLeave.
Proof. by intros g. Qed.

Lemma HandleFortEnter_nonneg clientID room :
  resources_nonneg (game room) ->
  resources_nonneg (game (Room.HandleFortEnter clientID room).2).
Proof.
  intros Hnn. unfold Room.HandleFortEnter.
  destruct (Room.turn_gate clientID room); [done|].
  destruct (negb _); [done|]. apply ClampResources_nonneg.
Qed.

(** C1, the code at the failing input.  Alice, with 15 pounds of food and
    every resource non-negative, continues; riders show up and the turn
    stops to wait for her answer.  When the request returns the food is
    3 pounds below zero. *)
Theorem riders_suspension_returns_negative_food :
  resources_nonneg (game hungry_room)
  /\ Food (game hungry_room) = 15%Q
  /\ Phase (game (Room.room_after (Room.HandleAction 0 "a" "continue" hungry_room)))
     = PhaseRiders
  /\ Food (game (Room.room_after (Room.HandleAction 0 "a" "continue" hungry_room)))
     = (-3)%Q
  /\ ~ resources_nonneg
         (game (Room.room_after (Room.HandleAction 0 "a" "continue" hungry_room))).
Proof.
  assert (Food (game (Room.room_after (Room.HandleAction 0 "a" "continue" hungry_room)))
          = (-3)%Q) as HF by (vm_compute; reflexivity).
  split; [repeat split; apply Qleb_le; vm_compute; reflexivity|].
  split; [reflexivity|].
  split; [vm_compute; reflexivity|].
  split; [exact HF|].
  intros (Hfood & _). rewrite HF in Hfood. apply Qleb_le in Hfood.
  vm_compute in Hfood. discriminate.
Qed.

(** ** Joining again (C8) *)

Lemma deref_store_other a b v g : a <> b -> deref b (store a v g) = deref b g.
Proof. intros Hab. unfold deref, store. cbn. by rewrite list_lookup_insert_ne. Qed.

Lemma deref_store_same a v g :
  (a < length (Heap g))%nat -> deref a (store a v g) = v.
Proof. intros Hlt. unfold deref, store. cbn. by rewrite list_lookup_insert_eq. Qed.

(** Rewriting the id of a player changes neither its party nor its fate. *)
Lemma deref_store_set_ID a b newID g :
  Party (deref b (store a (set_ID newID (deref a g)) g)) = Party (deref b g)
  /\ Alive (deref b (store a (set_ID newID (deref a g)) g)) = Alive (deref b g)
  /\ Name (deref b (store a (set_ID newID (deref a g)) g)) = Name (deref b g).
Proof.
  destruct (decide (a = b)) as [<-|Hab]; [|by rewrite deref_store_other].
  destruct (decide (a < length (Heap g))%nat) as [Hlt|Hge].
  - by rewrite deref_store_same.
  - unfold store. by rewrite list_insert_ge by lia.
Qed.

Lemma find_existing_allocated c g a :
  roster_allocated g -> Room.find_existing c g = Some a -> (a < length (Heap g))%nat.
Proof.
  unfold roster_allocated, Room.find_existing. intros Hall Hfind.
  apply find_some in Hfind as [Hin _].
  rewrite forallb_forall in Hall. by apply Nat.ltb_lt, Hall.
Qed.

(** X23.  A join whose connection id or display name is that of a player of
    the roster adds no player: the roster and the size of the store are what
    they were, every party is what it was, and so are the resources.  When
    the room is continuous or still waiting, the client is bound to the
    first player of the roster whose id or name matches, and that player
    takes the connection id of the client. *)
Theorem rejoin_adds_no_player now (c : Client) roomID (room : GameRoom) (a : ptr) :
  roster_allocated (game room) ->
  Room.find_existing c (game room) = Some a ->
  Players (game (Room.AddClient now c roomID room)) = Players (game room)
  /\ length (Heap (game (Room.AddClient now c roomID room))) = length (Heap (game room))
  /\ (forall b,
        Party (deref b (game (Room.AddClient now c roomID room)))
        = Party (deref b (game room))
        /\ Alive (deref b (game (Room.AddClient now c roomID room)))
           = Alive (deref b (game room))
        /\ Name (deref b (game (Room.AddClient now c roomID room)))
           = Name (deref b (game room)))
  /\ same_resources (game room) (game (Room.AddClient now c roomID room))
  /\ (roomType room = RoomTypeContinuous \/ status room = StatusWaiting ->
      clients (Room.AddClient now c roomID room) !! ClientID c
      = Some (mkClient (ClientID c) (ClientName c) (Some a) (ClientSessionID c) roomID)
      /\ ID (deref a (game (Room.AddClient now c roomID room))) = ClientID c).
Proof.
  intros Hall Hfind. pose proof (find_existing_allocated _ _ _ Hall Hfind) as Hlt.
  unfold Room.AddClient. cbn [roomType status set_clients set_ClientRoomID].
  destruct (RoomType_eqb (roomType room) RoomTypeScheduled
            && negb (GameStatus_eqb (status room) StatusWaiting)) eqn:Hguard.
  - cbn [game set_clients].
    split; [reflexivity|]. split; [reflexivity|]. split; [by intros b|].
    split; [apply same_resources_refl|].
    intros [Hrt|Hst]; exfalso; [rewrite Hrt in Hguard|rewrite Hst in Hguard];
      cbn in Hguard; try discriminate; by rewrite andb_false_r in Hguard.
  - change (Room.find_existing _ (game (set_clients _ room)))
      with (Room.find_existing c (game room)). rewrite Hfind.
    set (g1 := store a _ _).
    assert (Players g1 = Players (game room)) as HP by done.
    assert (length (Heap g1) = length (Heap (game room))) as HL
      by (subst g1; unfold store; cbn; by rewrite length_insert).
    assert (forall b, Party (deref b g1) = Party (deref b (game room))
                      /\ Alive (deref b g1) = Alive (deref b (game room))
                      /\ Name (deref b g1) = Name (deref b (game room))) as HD
      by (intros b; apply deref_store_set_ID).
    assert (ID (deref a g1) = ClientID c) as HID
      by (subst g1; cbn [game set_clients]; by rewrite deref_store_same).
    assert (same_resources (game room) g1) as HR by by repeat split.
    clearbody g1.
    assert (forall (cl : gmap string Client),
              <[ClientID c := set_ClientPlayer (Some a) (set_ClientRoomID roomID c)]>
                (<[ClientID c := set_ClientRoomID roomID c]> cl) !! ClientID c
              = Some (mkClient (ClientID c) (ClientName c) (Some a) (ClientSessionID c)
                        roomID)) as HC
      by (intros cl; by rewrite lookup_insert_eq).
    match goal with |- context [if ?b then _ else _] => destruct b end;
      cbn [game set_game set_clients clients ClientID set_ClientPlayer set_ClientRoomID
           Players Heap set_CurrentPlayerIdx].
    + split; [done|]. split; [done|]. split; [apply HD|]. split; [|intros _; split].
      * exact HR.
      * apply HC.
      * done.
    + split; [done|]. split; [done|]. split; [apply HD|]. split; [|intros _; split].
      * exact HR.
      * apply HC.
      * done.
Qed.

(** C8, the code at the failing input.  Alice plays in a scheduled room
    that has started: her player is in the roster under her connection id
    and her name, and her client is bound to it.  She joins again on the
    same connection.  The lookup of [AddClient] would find her player, but
    the join returns before it runs, after it has stored the new client,
    which carries no player, in the place of the old one.  The engine is
    what it was, so her player is still in the roster, with its party; her
    client is bound to no player, and her next request is turned down:
    the player is not recovered. *)
Theorem rejoin_loses_the_player :
  roomType started_room = RoomTypeScheduled
  /\ status started_room = StatusPlaying
  /\ Players (game started_room) = [0%nat; 1%nat]
  /\ ID (deref 0%nat (game started_room)) = ClientID alice_again
  /\ Name (deref 0%nat (game started_room)) = ClientName alice_again
  /\ Room.find_existing alice_again (game started_room) = Some 0%nat
  /\ id_then_name alice_again (game started_room) = Some 0%nat
  /\ ClientPlayer <$> clients started_room !! "a" = Some (Some 0%nat)
  /\ game (Room.AddClient 0 alice_again "trail" started_room) = game started_room
  /\ ClientPlayer <$> clients (Room.AddClient 0 alice_again "trail" started_room) !! "a"
     = Some None
  /\ Room.text (Room.HandleAction 0 "a" "continue"
                  (Room.AddClient 0 alice_again "trail" started_room))
     = ln "Error: Player not found."
  /\ Room.room_after (Room.HandleAction 0 "a" "continue"
                        (Room.AddClient 0 alice_again "trail" started_room))
     = Room.AddClient 0 alice_again "trail" started_room.
Proof. repeat split; vm_compute; reflexivity. Qed.

(** The one pass of the lookup, which accepts a player for its id or for
    its name, and a search by id followed by a search by name do not find
    the same player when a name of the roster comes before the id: Bob,
    joining the continuous room on his connection under the name of Alice,
    is given the player of Alice, which takes his id; his own player keeps
    that id too. *)
Lemma one_pass_finds_the_name_first :
  Room.find_existing bob_as_alice (game untouched_room) = Some 0%nat
  /\ id_then_name bob_as_alice (game untouched_room) = Some 1%nat
  /\ ClientPlayer <$> clients (Room.AddClient 0 bob_as_alice "trail" untouched_room) !! "b"
     = Some (Some 0%nat)
  /\ ID (deref 0%nat (game (Room.AddClient 0 bob_as_alice "trail" untouched_room))) = "b"
  /\ ID (deref 1%nat (game (Room.AddClient 0 bob_as_alice "trail" untouched_room))) = "b".
Proof. repeat split; vm_compute; reflexivity. Qed.

(** ** Suspending and resuming a turn (C3) *)

Lemma preserves_bind {A B C} (f : GameState -> C) (m : M A) (k : A -> M B) :
  preserves f m -> (forall x, preserves f (k x)) -> preserves f (bind m k).
Proof. intros Hm Hk g. rewrite run_bind. by rewrite Hk, Hm. Qed.

Lemma preserves_ret {A B} (f : GameState -> B) (x : A) : preserves f (ret x).
Proof. by intros g. Qed.















Lemma hunt_starts a g :
  Alive (deref a g) = true -> PType (deref a g) = PlayerTypeHuman ->
  (50 <= Bullets g)%Q ->
  ProcessTurn (Some a) "hunt" g
  = (ln "Get ready to shoot...",
     set_Bullets (Bullets g - 50)
       (set_HuntWord
          (nth (Z.to_nat (ints (Rand g) (cursor (Rand g)) mod 4)) shootingWords EmptyString)
          (set_Rand (mkRand (floats (Rand g)) (ints (Rand g)) (S (cursor (Rand g))))
             (set_Phase PhaseHunting (set_Phase PhaseMainMenu g))))).
Proof.
  intros Halive Hhuman Hb. apply Qleb_le in Hb.
  unfold ProcessTurn. rewrite run_bind. change (get g) with (g, g). cbn [fst snd].
  rewrite Halive. cbn [negb]. rewrite run_bind. cbn [modify fst snd].
  change (String.eqb "hunt" "hunt") with true. cbv iota. rewrite Hb, Hhuman.
  reflexivity.
Qed.

Lemma rand_ok_draw (r : RandSrc) k : rand_ok r -> (0 <= floats r k)%Q /\ (floats r k < 1)%Q.
Proof. intros H. apply H. Qed.

Lemma clamp0_id x : (0 <= x)%Q -> clamp0 x = x.
Proof. intros H. unfold clamp0. apply Qltb_ge in H. by rewrite H. Qed.

(** The travel a hunt adds: between 45 and 65 miles on top of a mileage
    that is not negative. *)
Lemma hunt_outcome_mileage accuracy big g :
  rand_ok (Rand g) -> (0 <= Mileage g)%Q ->
  exists r, (0 <= r)%Q /\ (r < 1)%Q
            /\ Mileage (hunt_outcome accuracy big g).2 = (Mileage g + (45 + r * 20))%Q.
Proof.
  intros Hok Hm. unfold hunt_outcome.
  destruct (Qleb accuracy big).
  - rewrite !run_bind. cbn.
    destruct (Qltb (_ - _) 0); cbn.
    all: match goal with |- context [(_ + (45 + floats _ ?k * 20))%Q] =>
      destruct (rand_ok_draw _ k Hok) as [H0 H1]; exists (floats (Rand g) k) end.
    all: split; [done|]; split; [done|]; apply clamp0_id; lra.
  - rewrite run_bind, (run_bind Float64).
    destruct (Qltb _ _); rewrite !run_bind; cbn.
    all: destruct (Qltb (_ - _) 0); cbn.
    all: match goal with |- context [(_ + (45 + floats _ ?k * 20))%Q] =>
      destruct (rand_ok_draw _ k Hok) as [H0 H1]; exists (floats (Rand g) k) end.
    all: split; [done|]; split; [done|]; apply clamp0_id; lra.
Qed.

(** The food of a bull's eye: between 52 and 58 pounds. *)
Lemma hunt_outcome_bullseye accuracy big g :
  (accuracy <= big)%Q -> rand_ok (Rand g) -> (0 <= Food g)%Q ->
  exists r, (0 <= r)%Q /\ (r < 1)%Q
            /\ Food (hunt_outcome accuracy big g).2 = (Food g + (52 + r * 6))%Q.
Proof.
  intros Hacc Hok Hf. unfold hunt_outcome. apply Qleb_le in Hacc. rewrite Hacc.
  rewrite !run_bind. cbn.
  destruct (rand_ok_draw _ (cursor (Rand g)) Hok) as [H0 H1].
  exists (floats (Rand g) (cursor (Rand g))).
  split; [done|]. split; [done|].
  destruct (Qltb (_ - _) 0); cbn; apply clamp0_id; lra.
Qed.

Lemma preserves_hunt_outcome {B} (f : GameState -> B) accuracy big :
  (forall v g, f (set_Food v g) = f g) -> (forall v g, f (set_Bullets v g) = f g) ->
  (forall v g, f (set_Mileage v g) = f g) -> (forall v g, f (set_Rand v g) = f g) ->
  (forall g, f (ClampResources g) = f g) ->
  preserves f (hunt_outcome accuracy big).
Proof.
  intros HF HB HM HR HC. unfold hunt_outcome.
  assert (preserves f Float64) as H1 by (intros g; apply HR).
  assert (forall x, preserves f (add_Food x)) as H2 by (intros x g; apply HF).
  assert (forall x, preserves f (sub_Bullets x)) as H3 by (intros x g; apply HB).
  assert (forall x, preserves f (add_Mileage x)) as H4 by (intros x g; apply HM).
  assert (preserves f (modify ClampResources)) as H5 by (intros g; apply HC).
  assert (preserves f (modify (fun g => if Qltb (Bullets g) 0 then set_Bullets 0 g else g)))
    as H6 by (intros g; cbn; destruct (Qltb _ _); [apply HB|done]).
  repeat first
    [ apply preserves_ret | assumption | apply H2 | apply H3 | apply H4
    | apply preserves_bind; [|intro]
    | match goal with |- preserves _ (if ?b then _ else _) => destruct b end ].
Qed.

(** *** The phase only changes where the code assigns it *)











(** ** The two hunters (C6) *)

Lemma deref_lookup a g p : Heap g !! a = Some p -> deref a g = p.
Proof. intros H. unfold deref. by rewrite H. Qed.

(** With two living human players, the first of whom holds the turn,
    [NextTurn] hands the turn to the second and touches nothing but the
    turn index, the turn number and the week. *)
Lemma NextTurn_passes_the_turn g a b :
  Players g = [a; b] -> a <> b -> CurrentPlayerIdx g = 0%nat ->
  is_alive_human g a = true -> is_alive_human g b = true ->
  CurrentPlayerIdx (NextTurn g) = 1%nat
  /\ Players (NextTurn g) = Players g /\ Heap (NextTurn g) = Heap g
  /\ GameOver (NextTurn g) = GameOver g /\ Phase (NextTurn g) = Phase g
  /\ same_resources g (NextTurn g).
Proof.
  intros HP Hab Hidx Ha Hb. unfold NextTurn, GetHumanPlayers. rewrite HP.
  cbn [List.filter]. rewrite Ha, Hb.
  set (g1 := if (Z.rem _ 4 =? 0)%Z then _ else _).
  assert (Players g1 = [a; b] /\ CurrentPlayerIdx g1 = 0%nat /\ Heap g1 = Heap g
          /\ GameOver g1 = GameOver g /\ Phase g1 = Phase g /\ same_resources g g1)
    as (HP1 & Hidx1 & HH1 & HO1 & HPh1 & HR1).
  { subst g1. destruct (_ =? _)%Z; cbn; by repeat split. }
  clearbody g1.
  assert (GetCurrentPlayer g1 = Some a) as Hcur.
  { unfold GetCurrentPlayer. by rewrite HP1, Hidx1. }
  rewrite Hcur. cbn [index_where]. rewrite bool_decide_eq_true_2 by done.
  change ([a; b] !! ((0 + 1) `mod` length [a; b])%nat) with (Some b).
  unfold point_at. rewrite HP1. cbn [index_where].
  assert (Nat.eqb b a = false) as -> by (apply Nat.eqb_neq; congruence).
  rewrite Nat.eqb_refl. cbn. by rewrite HP1, HH1, HO1, HPh1.
Qed.

Lemma check_win_far a g : (Mileage g < 4500)%Q -> check_win a g = (tt, g).
Proof.
  intros H. unfold check_win. rewrite run_bind. change (get g) with (g, g).
  cbn [fst snd]. change (float64 TrailLength) with 4500%Q.
  apply Qleb_gt in H. by rewrite H.
Qed.

Lemma HandleHuntShoot_state a reactionTimeMs g :
  (Mileage (hunt_outcome (reaction_accuracy reactionTimeMs) 2 g).2 < 4500)%Q ->
  (Game.HandleHuntShoot (Some a) reactionTimeMs g).2
  = set_Phase PhaseMainMenu (hunt_outcome (reaction_accuracy reactionTimeMs) 2 g).2.
Proof.
  intros H. unfold Game.HandleHuntShoot. rewrite run_bind.
  set (o := hunt_outcome _ _ g) in *. clearbody o.
  rewrite run_bind. cbn [modify fst snd]. rewrite run_bind.
  rewrite check_win_far by exact H. reflexivity.
Qed.

Lemma set_Phase_elsewhere p g :
  Food (set_Phase p g) = Food g /\ Mileage (set_Phase p g) = Mileage g
  /\ Heap (set_Phase p g) = Heap g /\ Players (set_Phase p g) = Players g
  /\ CurrentPlayerIdx (set_Phase p g) = CurrentPlayerIdx g
  /\ GameOver (set_Phase p g) = GameOver g /\ Phase (set_Phase p g) = p.
Proof. repeat split. Qed.

(** A shot fired in under 300 milliseconds, far enough from the end of
    the trail: what it leaves behind. *)
Lemma HandleHuntShoot_bullseye a reactionTimeMs g :
  (reactionTimeMs < 300)%Z -> rand_ok (Rand g) ->
  (0 <= Food g)%Q -> (0 <= Mileage g)%Q -> (Mileage g <= 4435)%Q ->
  exists r r',
    ((0 <= r)%Q /\ (r < 1)%Q /\ (0 <= r')%Q /\ (r' < 1)%Q)
    /\ Food (Game.HandleHuntShoot (Some a) reactionTimeMs g).2 = (Food g + (52 + r * 6))%Q
    /\ Mileage (Game.HandleHuntShoot (Some a) reactionTimeMs g).2
       = (Mileage g + (45 + r' * 20))%Q
    /\ Phase (Game.HandleHuntShoot (Some a) reactionTimeMs g).2 = PhaseMainMenu
    /\ Heap (Game.HandleHuntShoot (Some a) reactionTimeMs g).2 = Heap g
    /\ Players (Game.HandleHuntShoot (Some a) reactionTimeMs g).2 = Players g
    /\ CurrentPlayerIdx (Game.HandleHuntShoot (Some a) reactionTimeMs g).2
       = CurrentPlayerIdx g
    /\ GameOver (Game.HandleHuntShoot (Some a) reactionTimeMs g).2 = GameOver g.
Proof.
  intros Hms Hok Hfood Hm0 Hm1.
  assert (reaction_accuracy reactionTimeMs = 0%Q) as Hacc.
  { unfold reaction_accuracy. by destruct (Z.ltb_spec reactionTimeMs 300); [|lia]. }
  destruct (hunt_outcome_bullseye 0 2 g) as (r & Hr0 & Hr1 & HF); [lra|exact Hok|exact Hfood|].
  destruct (hunt_outcome_mileage 0 2 g Hok Hm0) as (r' & Hr'0 & Hr'1 & HM).
  assert (Heap (hunt_outcome 0 2 g).2 = Heap g) as HH
    by (apply preserves_hunt_outcome; intros; reflexivity).
  assert (Players (hunt_outcome 0 2 g).2 = Players g) as HP
    by (apply preserves_hunt_outcome; intros; reflexivity).
  assert (CurrentPlayerIdx (hunt_outcome 0 2 g).2 = CurrentPlayerIdx g) as HC
    by (apply preserves_hunt_outcome; intros; reflexivity).
  assert (GameOver (hunt_outcome 0 2 g).2 = GameOver g) as HO
    by (apply preserves_hunt_outcome; intros; reflexivity).
  exists r, r'. split; [auto|].
  rewrite HandleHuntShoot_state; rewrite Hacc; [|rewrite HM; lra].
  destruct (set_Phase_elsewhere PhaseMainMenu (hunt_outcome 0 2 g).2)
    as (-> & -> & -> & -> & -> & -> & ->).
  rewrite HF, HM, HH, HP, HC, HO. repeat split.
Qed.

(** The request to hunt of a living human player with at least 50
    bullets, in a game that is not over: the room it leaves. *)
Lemma hunt_request now clientID room c a :
  clients room !! clientID = Some c -> ClientPlayer c = Some a ->
  is_alive_human (game room) a = true -> GameOver (game room) = false ->
  (50 <= Bullets (game room))%Q -> rand_ok (Rand (game room)) ->
  exists g1,
    Room.room_after (Room.HandleAction now clientID "hunt" room) = set_game g1 room
    /\ Phase g1 = PhaseHunting /\ Bullets g1 = (Bullets (game room) - 50)%Q
    /\ Mileage g1 = Mileage (game room) /\ Food g1 = Food (game room)
    /\ Heap g1 = Heap (game room) /\ Players g1 = Players (game room)
    /\ CurrentPlayerIdx g1 = CurrentPlayerIdx (game room)
    /\ GameOver g1 = false /\ rand_ok (Rand g1).
Proof.
  intros Hc Hplayer Ha Hover Hbullets Hok.
  apply andb_prop in Ha as [Hhuman Halive].
  assert (PType (deref a (game room)) = PlayerTypeHuman) as Hhuman'
    by (by destruct (PType (deref a (game room)))).
  eexists. split.
  - unfold Room.HandleAction.
    change (String.eqb "hunt" "start") with false.
    change (String.eqb "hunt" "start_game") with false. cbv iota.
    rewrite Hc, Hplayer, Halive. cbn [negb]. unfold Room.on_game.
    rewrite (hunt_starts a (game room) Halive Hhuman' Hbullets).
    set (g1 := set_Bullets _ _). cbn [game set_game roomType snd].
    assert (deref a g1 = deref a (game room)) as -> by reflexivity.
    rewrite Halive. cbn [negb andb game set_game].
    assert (GameOver g1 = false) as -> by exact Hover.
    assert (Phase g1 = PhaseHunting) as -> by reflexivity.
    reflexivity.
  - do 8 (split; [reflexivity || assumption|]). exact Hok.
Qed.

(** The shot of the turn holder during a hunt that does not end the
    game: the engine's shot, then the advance of the turn. *)
Lemma shot_then_advance now clientID reactionTimeMs room g c a :
  clients room !! clientID = Some c -> ClientPlayer c = Some a ->
  GetCurrentPlayer g = Some a -> ID (deref a g) = ClientID c ->
  Phase g = PhaseHunting ->
  GameOver (Game.HandleHuntShoot (Some a) reactionTimeMs g).2 = false ->
  Room.room_after (Room.HandleHuntShoot now clientID reactionTimeMs (set_game g room))
  = (Room.advanceTurnAndCheckFort now
       (set_game (Game.HandleHuntShoot (Some a) reactionTimeMs g).2 room)).2.
Proof.
  intros Hc Hplayer Hcur Hid Hphase Hover.
  unfold Room.HandleHuntShoot, Room.turn_gate, Room.current.
  cbn [clients game set_game]. rewrite Hc, Hcur. cbn [fmap option_fmap option_map].
  rewrite Hid, String.eqb_refl, Hphase. cbn [TurnPhase_eqb negb].
  rewrite Hplayer. unfold Room.on_game. cbn [game set_game].
  revert Hover. generalize (Game.HandleHuntShoot (Some a) reactionTimeMs g).
  intros [result g2] Hover. cbn [snd] in Hover |- *.
  unfold Room.close_or_advance. cbn [game set_game]. rewrite Hover. reflexivity.
Qed.

Lemma set_FortAvailable_elsewhere v g :
  Food (set_FortAvailable v g) = Food g /\ Mileage (set_FortAvailable v g) = Mileage g
  /\ Phase (set_FortAvailable v g) = Phase g
  /\ GetCurrentPlayer (set_FortAvailable v g) = GetCurrentPlayer g.
Proof. repeat split. Qed.

(** The advance of the turn to a living player in a game that is not
    over: the engine's [NextTurn], and possibly the fort flag. *)
Lemma advance_to_the_living now room g b :
  GetCurrentPlayer (NextTurn g) = Some b -> Alive (deref b (NextTurn g)) = true ->
  GameOver (NextTurn g) = false ->
  game (Room.advanceTurnAndCheckFort now (set_game g room)).2 = NextTurn g
  \/ game (Room.advanceTurnAndCheckFort now (set_game g room)).2
     = set_FortAvailable true (NextTurn g).
Proof.
  unfold Room.advanceTurnAndCheckFort, Room.current. cbn [game set_game].
  generalize (NextTurn g). intros g3 Hcur Halive Hover.
  rewrite Hcur. cbn [fmap option_fmap option_map]. rewrite Halive, Hover.
  cbn [negb orb]. destruct (_ && _); [right|left]; reflexivity.
Qed.

(** C6.  Two living human players [a] and [b], in that order, [a]
    holding the turn through the client [clientID]; food 100, ammunition
    50, the party at most 4435 miles along the trail, the engine not
    finished.  The request to hunt enters the hunting phase, takes exactly
    50 bullets, leaves the mileage alone and leaves the turn with [a].
    The shot fired after 250 milliseconds then adds between 52 and 58
    pounds of food and between 45 and 65 miles, returns to the main menu
    and hands the turn to [b]. *)
Theorem two_hunters now now' (clientID : string) (room : GameRoom) (c : Client)
    (a b : ptr) :
  clients room !! clientID = Some c ->
  ClientPlayer c = Some a ->
  ID (deref a (game room)) = ClientID c ->
  Players (game room) = [a; b] ->
  a <> b ->
  CurrentPlayerIdx (game room) = 0%nat ->
  is_alive_human (game room) a = true ->
  is_alive_human (game room) b = true ->
  GameOver (game room) = false ->
  (Food (game room) == 100)%Q ->
  (Bullets (game room) == 50)%Q ->
  (0 <= Mileage (game room))%Q ->
  (Mileage (game room) <= 4435)%Q ->
  rand_ok (Rand (game room)) ->
  let room1 := Room.room_after (Room.HandleAction now clientID "hunt" room) in
  let room2 := Room.room_after (Room.HandleHuntShoot now' clientID 250 room1) in
  Phase (game room1) = PhaseHunting
  /\ (Bullets (game room1) == Bullets (game room) - 50)%Q
  /\ Mileage (game room1) = Mileage (game room)
  /\ GetCurrentPlayer (game room1) = Some a
  /\ (52 <= Food (game room2) - Food (game room1))%Q
  /\ (Food (game room2) - Food (game room1) < 58)%Q
  /\ (45 <= Mileage (game room2) - Mileage (game room1))%Q
  /\ (Mileage (game room2) - Mileage (game room1) < 65)%Q
  /\ Phase (game room2) = PhaseMainMenu
  /\ GetCurrentPlayer (game room2) = Some b.
Proof.
  intros Hc Hplayer Hid HP Hab Hidx Ha Hb Hover Hfood Hbullets Hm0 Hm1 Hok.
  destruct (hunt_request now clientID room c a Hc Hplayer Ha Hover) as
    (g1 & E1 & HPh1 & HB1 & HM1 & HF1 & HH1 & HP1 & HI1 & HO1 & Hok1); [lra|exact Hok|].
  cbv zeta. rewrite E1. clear E1.
  change (game (set_game g1 room)) with g1.
  assert (GetCurrentPlayer g1 = Some a) as Hcur1
    by (unfold GetCurrentPlayer; rewrite HP1, HI1, HP, Hidx; reflexivity).
  assert (forall x, deref x g1 = deref x (game room)) as Hderef1
    by (intros x; unfold deref; rewrite HH1; reflexivity).
  destruct (HandleHuntShoot_bullseye a 250 g1) as
    (r & r' & (Hr0 & Hr1 & Hr'0 & Hr'1) & HF2 & HM2 & HPh2 & HH2 & HP2 & HI2 & HO2);
    [lia|exact Hok1|rewrite HF1; lra|rewrite HM1; exact Hm0|rewrite HM1; exact Hm1|].
  rewrite (shot_then_advance now' clientID 250 room g1 c a Hc Hplayer Hcur1)
    by (rewrite ?Hderef1, ?HO2; assumption).
  revert HF2 HM2 HPh2 HH2 HP2 HI2 HO2.
  generalize (Game.HandleHuntShoot (Some a) 250 g1).2.
  intros g2 HF2 HM2 HPh2 HH2 HP2 HI2 HO2.
  assert (forall x, is_alive_human g2 x = is_alive_human (game room) x) as Hah
    by (intros x; unfold is_alive_human, deref; rewrite HH2, HH1; reflexivity).
  destruct (NextTurn_passes_the_turn g2 a b) as (HI3 & HP3 & HH3 & HO3 & HPh3 & HR3);
    [rewrite HP2, HP1; exact HP|exact Hab|rewrite HI2, HI1; exact Hidx
    |rewrite Hah; exact Ha|rewrite Hah; exact Hb|].
  destruct HR3 as (HF3 & _ & _ & _ & _ & HM3 & _).
  assert (GetCurrentPlayer (NextTurn g2) = Some b) as Hcur3
    by (unfold GetCurrentPlayer; rewrite HP3, HP2, HP1, HI3, HP; reflexivity).
  assert (Alive (deref b (NextTurn g2)) = true) as Halive3.
  { apply andb_prop in Hb as [_ Hb]. unfold deref in *. rewrite HH3, HH2, HH1. exact Hb. }
  assert (GameOver (NextTurn g2) = false) as Hover3 by (rewrite HO3, HO2; exact HO1).
  pose proof (advance_to_the_living now' room g2 b Hcur3 Halive3 Hover3) as Hadv.
  revert Hadv. generalize (game (Room.advanceTurnAndCheckFort now' (set_game g2 room)).2).
  intros g4 Hadv.
  assert (Food g4 = Food g2 /\ Mileage g4 = Mileage g2 /\ Phase g4 = PhaseMainMenu
          /\ GetCurrentPlayer g4 = Some b) as (HF4 & HM4 & HPh4 & Hcur4).
  { destruct Hadv as [-> | ->];
      [|destruct (set_FortAvailable_elsewhere true (NextTurn g2)) as (-> & -> & -> & ->)];
      rewrite HF3, HM3, HPh3, HPh2, Hcur3; repeat split. }
  rewrite HF4, HM4, HPh4, Hcur4, HF2, HM2, HPh1, HF1, HM1, HB1, Hcur1.
  split; [reflexivity|]. split; [reflexivity|]. split; [reflexivity|].
  split; [reflexivity|]. split; [lra|]. split; [lra|]. split; [lra|]. split; [lra|].
  split; reflexivity.
Qed.

(** ** The statements at concrete inputs *)

Lemma constant_draws_ok : rand_ok (constant_draws (1 # 2)).
Proof. intros i. split; apply Qleb_le || apply Qltb_lt; reflexivity. Qed.


(** C4 at a concrete input: the timer armed for Bob fires while Alice
    holds the turn. *)
Lemma stale_timer_is_noop_witness :
  GetRoom "trail" hunters_server = Some hunters_room
  /\ stale_timer "b" hunters_room
  /\ handleTurnTimeout 0 "trail" "b" hunters_server = (None, hunters_server).
Proof.
  assert (GetRoom "trail" hunters_server = Some hunters_room) as Hroom by reflexivity.
  assert (stale_timer "b" hunters_room) as Hstale by (left; left; discriminate).
  split; [exact Hroom|]. split; [exact Hstale|].
  exact (proj2 (stale_timer_is_noop 0 "trail" "b" hunters_server hunters_room Hroom Hstale)).
Defined.

(** C5 at concrete inputs: at the fort with 700 in cash and 100 pounds of
    food, 71 packs of food can be neither bought nor sold; with 49 bullets
    the hunt is a week of travel. *)
Lemma unaffordable_requests_witness :
  (Game.HandleFortBuy "food" 71 (game fort_room)
   = (ln ("Not enough cash! Need $" +:+ fmt_f0 (10 * float64 71)
          +:+ " but only have $" +:+ fmt_f0 (Cash (game fort_room))), game fort_room)
   /\ Game.HandleFortSell "food" 71 (game fort_room)
      = (ln ("Not enough " +:+ "food" +:+ " to sell! Have " +:+ fmt_f0 (Food (game fort_room))
             +:+ ", need " +:+ fmt_f0 (25 * float64 71)), game fort_room))
  /\ ProcessTurn (Some 0%nat) "hunt" short_of_bullets
     = (ln "Not enough bullets to hunt!"
        +:+ (ContinueTravel 0%nat (set_Phase PhaseMainMenu short_of_bullets)).1,
        (ContinueTravel 0%nat (set_Phase PhaseMainMenu short_of_bullets)).2).
Proof.
  assert (Cash (game fort_room) < 10 * float64 71)%Q as Hcash
    by (apply Qltb_lt; reflexivity).
  assert (Food (game fort_room) < 25 * float64 71)%Q as Hstock
    by (apply Qltb_lt; reflexivity).
  assert (Bullets short_of_bullets < 50)%Q as Hbullets by (apply Qltb_lt; reflexivity).
  split; [split|].
  - exact (proj1 (proj1 (unaffordable_requests (game fort_room) "food" 71
                           (mkFortItem 10 25 "Food Pack (25 lbs)") 0%nat)
                    eq_refl eq_refl eq_refl) Hcash).
  - exact (proj2 (proj1 (unaffordable_requests (game fort_room) "food" 71
                           (mkFortItem 10 25 "Food Pack (25 lbs)") 0%nat)
                    eq_refl eq_refl eq_refl) Food "food" sub_Food eq_refl Hstock).
  - exact (proj2 (unaffordable_requests short_of_bullets "food" 71
                    (mkFortItem 10 25 "Food Pack (25 lbs)") 0%nat) eq_refl Hbullets).
Defined.

(** C6 at the scenario of the two hunters, Alice and Bob. *)
Lemma two_hunters_witness :
  Phase (game (Room.room_after (Room.HandleAction 0 "a" "hunt" hunters_room))) = PhaseHunting
  /\ GetCurrentPlayer (game (Room.room_after (Room.HandleAction 0 "a" "hunt" hunters_room)))
     = Some 0%nat
  /\ Phase (game (Room.room_after
                    (Room.HandleHuntShoot 1 "a" 250
                       (Room.room_after (Room.HandleAction 0 "a" "hunt" hunters_room)))))
     = PhaseMainMenu
  /\ GetCurrentPlayer
       (game (Room.room_after
                (Room.HandleHuntShoot 1 "a" 250
                   (Room.room_after (Room.HandleAction 0 "a" "hunt" hunters_room)))))
     = Some 1%nat.
Proof.
  assert (0%nat <> 1%nat) as Hab by discriminate.
  assert (0 <= Mileage (game hunters_room))%Q as Hm0 by (apply Qleb_le; reflexivity).
  assert (Mileage (game hunters_room) <= 4435)%Q as Hm1 by (apply Qleb_le; reflexivity).
  pose proof (two_hunters 0 1 "a" hunters_room (seat "a" "Alice" 0) 0%nat 1%nat
                eq_refl eq_refl eq_refl eq_refl Hab eq_refl eq_refl eq_refl eq_refl
                (Qeq_refl _) (Qeq_refl _) Hm0 Hm1 constant_draws_ok) as H.
  cbv zeta in H.
  destruct H as (H1 & _ & _ & H4 & _ & _ & _ & _ & H9 & H10).
  split; [exact H1|]. split; [exact H4|]. split; [exact H9|exact H10].
Defined.

(** X23 at a concrete input: Alice joins the continuous room again. *)
Lemma rejoin_adds_no_player_witness :
  roster_allocated (game untouched_room)
  /\ Room.find_existing alice_again (game untouched_room) = Some 0%nat
  /\ Players (game (Room.AddClient 0 alice_again "trail" untouched_room)) = [0%nat; 1%nat]
  /\ clients (Room.AddClient 0 alice_again "trail" untouched_room) !! "a"
     = Some (seat "a" "Alice" 0).
Proof.
  assert (roster_allocated (game untouched_room)) as Hall by reflexivity.
  assert (Room.find_existing alice_again (game untouched_room) = Some 0%nat) as Hfind
    by reflexivity.
  destruct (rejoin_adds_no_player 0 alice_again "trail" untouched_room 0%nat Hall Hfind)
    as (HP & _ & _ & _ & Hbound).
  destruct (Hbound (or_introl eq_refl)) as (Hc & _).
  split; [exact Hall|]. split; [exact Hfind|]. split; [exact HP|exact Hc].
Defined.

(** C9 at concrete inputs: the wagon Bob emptied, claimed by Alice from
    ten miles away; and the wagon nobody touched, claimed twice. *)
Lemma looted_site_is_not_looted_again_witness :
  (site_named "loot-c-7" (game (scavenged_room 990)) = Some (0%nat, emptied_wagon)
   /\ (Room.HandleLootClaim 0 "a" "loot-c-7" (scavenged_room 990)).2 = scavenged_room 990
   /\ (Room.HandleLootClaim 0 "a" "loot-c-7" (scavenged_room 990)).1
      = ln "This wagon has already been scavenged by Bob.")
  /\ ((Room.HandleLootClaim 0 "a" "loot-c-7" untouched_room).2 <> untouched_room
      /\ (Room.HandleLootClaim 1 "a" "loot-c-7"
            (Room.HandleLootClaim 0 "a" "loot-c-7" untouched_room).2).2
         = (Room.HandleLootClaim 0 "a" "loot-c-7" untouched_room).2).
Proof.
  split.
  - assert (site_named "loot-c-7" (game (scavenged_room 990)) = Some (0%nat, emptied_wagon))
      as Hnamed by reflexivity.
    destruct (looted_site_is_not_looted_again 0 "a" "loot-c-7" (scavenged_room 990) 0%nat
                emptied_wagon Hnamed) as (Hlooted & _).
    destruct (Hlooted eq_refl) as (Hsame & Htext).
    assert (SiteMileage emptied_wagon - 50 <= Mileage (game (scavenged_room 990)))%Q as Hlo
      by (apply Qleb_le; reflexivity).
    assert (Mileage (game (scavenged_room 990)) <= SiteMileage emptied_wagon + 50)%Q as Hhi
      by (apply Qleb_le; reflexivity).
    specialize (Htext (seat "a" "Alice" 0) eq_refl eq_refl Hlo Hhi).
    split; [exact Hnamed|]. split; [exact Hsame|]. rewrite Htext. reflexivity.
  - assert (site_named "loot-c-7" (game untouched_room)
            = Some (0%nat, mkLootSite "loot-c-7" 1000 "Carol" 40 30 5 5 100 200 7 false
                             EmptyString None)) as Hnamed by reflexivity.
    assert ((Room.HandleLootClaim 0 "a" "loot-c-7" untouched_room).2 <> untouched_room)
      as Hchanged.
    { intros Heq.
      apply (f_equal (fun room => IsLooted <$> LootSites (game room))) in Heq.
      vm_compute in Heq. discriminate. }
    destruct (looted_site_is_not_looted_again 0 "a" "loot-c-7" untouched_room 0%nat _ Hnamed)
      as (_ & Honce).
    split; [exact Hchanged|]. exact (Honce 1%Z "a" Hchanged).
Defined.

(** C10 at a concrete input: Alice answers the riders with tactic 7. *)
Lemma rider_tactic_out_of_range_witness :
  (7 < 1 \/ 4 < 7)%Z
  /\ Room.HandleRiderTactic 0 "a" 7 riders_room = Room.HandleRiderTactic 0 "a" 3 riders_room
  /\ Phase (game riders_room) = PhaseRiders
  /\ Phase (game (Room.room_after (Room.HandleRiderTactic 0 "a" 7 riders_room)))
     = PhaseMainMenu.
Proof.
  assert (7 < 1 \/ 4 < 7)%Z as Hout by (right; reflexivity).
  destruct (rider_tactic_out_of_range 0 "a" 7 riders_room Hout) as (Hsame & Hturn).
  destruct (Hturn (seat "a" "Alice" 0) 0%nat eq_refl eq_refl eq_refl) as (_ & Hphase).
  split; [exact Hout|]. split; [exact Hsame|]. split; [reflexivity|exact Hphase].
Defined.

(** * Further properties of the code *)

(** ** Passing the turn ([NextTurn]) *)

Lemma point_at_index test g :
  (point_at test g).2
  = set_CurrentPlayerIdx
      (default (CurrentPlayerIdx g) (index_where test (Players g))) g.
Proof. unfold point_at. destruct (index_where test (Players g)); [done|]. by destruct g. Qed.

Lemma index_where_first {A} (test : A -> bool) (l : list A) i :
  index_where test l = Some i -> forall j x, (j < i)%nat -> l !! j = Some x -> test x = false.
Proof.
  revert i. induction l as [|y l IH]; intros i; [done|]. cbn.
  destruct (test y) eqn:Hy.
  - intros [= <-] j x Hj. lia.
  - destruct (index_where test l) as [k|] eqn:Hk; [|done]. intros [= <-] [|j] x Hj.
    + by intros [= <-].
    + cbn. apply (IH k eq_refl). lia.
Qed.

Lemma index_where_None {A} (test : A -> bool) (l : list A) :
  index_where test l = None -> forall x, x ∈ l -> test x = false.
Proof.
  induction l as [|y l IH]; intros Hn x Hx; [by apply elem_of_nil in Hx|].
  cbn in Hn. destruct (test y) eqn:Hy; [done|].
  destruct (index_where test l); [done|].
  apply elem_of_cons in Hx as [->|Hx]; [done|by apply IH].
Qed.

(** The turn goes to the player [point_at] looks for, when the roster holds
    one. *)
Lemma point_at_current (h : ptr) g :
  h ∈ Players g -> GetCurrentPlayer (point_at (Nat.eqb h) g).2 = Some h.
Proof.
  intros Hin. destruct (point_at_spec (Nat.eqb h) g) as (idx & x & -> & Hx & Heq).
  { exists h. split; [done|]. apply Nat.eqb_refl. }
  apply Nat.eqb_eq in Heq. subst x. by apply GetCurrentPlayer_pointed.
Qed.

(** The first living human of the roster is the head of [GetHumanPlayers]. *)
Lemma point_at_first_human g g' h0 rest :
  Players g' = Players g -> (forall a, is_alive_human g' a = is_alive_human g a) ->
  GetHumanPlayers g = h0 :: rest ->
  GetCurrentPlayer (point_at (is_alive_human g') g').2 = Some h0.
Proof.
  intros HP HA Hh. unfold point_at, GetHumanPlayers in *. rewrite HP.
  assert (forall l, List.filter (is_alive_human g) l = h0 :: rest ->
            exists i, index_where (is_alive_human g') l = Some i /\ l !! i = Some h0)
    as Hfirst.
  { induction l as [|y l IH]; [done|]. cbn. rewrite HA.
    destruct (is_alive_human g y) eqn:Hy.
    - intros [= -> _]. by exists 0%nat.
    - intros Hf. destruct (IH Hf) as (i & -> & Hi). by exists (S i). }
  destruct (Hfirst _ Hh) as (i & -> & Hi). cbn [snd].
  rewrite <- HP in Hi. by apply GetCurrentPlayer_pointed.
Qed.

(** The state [NextTurn] moves the turn index of, when somebody is left to
    play: the turn counter has advanced, and the week with it every fourth
    turn. *)
Lemma NextTurn_state g :
  GetHumanPlayers g <> [] ->
  exists idx,
    NextTurn g
    = set_CurrentPlayerIdx idx
        (if (Z.rem (wrap64 (TurnNumber g + 1)) 4 =? 0)%Z
         then set_Week (wrap64 (Week g + 1)) (set_TurnNumber (wrap64 (TurnNumber g + 1)) g)
         else set_TurnNumber (wrap64 (TurnNumber g + 1)) g).
Proof.
  intros Hh. unfold NextTurn.
  destruct (GetHumanPlayers g) as [|h0 rest]; [done|]. clear Hh.
  cbn [TurnNumber set_TurnNumber Week].
  generalize (if (Z.rem (wrap64 (TurnNumber g + 1)) 4 =? 0)%Z
              then set_Week (wrap64 (Week g + 1)) (set_TurnNumber (wrap64 (TurnNumber g + 1)) g)
              else set_TurnNumber (wrap64 (TurnNumber g + 1)) g).
  intros g1.
  assert (forall test g2, (exists i, g2 = set_CurrentPlayerIdx i g1) ->
            exists idx, (point_at test g2).2 = set_CurrentPlayerIdx idx g1) as Hpoint.
  { intros test g2 [i ->]. rewrite point_at_index. by eexists. }
  assert (exists i, g1 = set_CurrentPlayerIdx i g1) as Hsame
    by (exists (CurrentPlayerIdx g1); by destruct g1).
  destruct rest as [|h1 rest]; [by apply Hpoint|].
  destruct (index_where _ (h0 :: h1 :: rest)) as [i|]; cbn [fst snd]; [|by apply Hpoint].
  destruct ((h0 :: h1 :: rest) !! _) as [nh|]; cbn [fst snd]; [|by apply Hpoint].
  destruct (point_at (Nat.eqb nh) g1) as [b g2] eqn:E.
  assert (exists k, g2 = set_CurrentPlayerIdx k g1) as Hg2.
  { change g2 with (b, g2).2. rewrite <- E, point_at_index. by eexists. }
  cbn [fst snd]. destruct b; [exact Hg2|by apply Hpoint].
Qed.

(** X1.  [NextTurn] passes the turn round-robin among the living human
    players, in roster order: when the holder of the turn is the [i]-th of
    them the turn goes to the next one, wrapping around; when the holder is
    dead, a CPU or nobody, the turn goes to the first of them.  The new
    holder is a living human and the engine is finished only if it was. *)
Theorem next_turn_round_robin (g : GameState) (h0 : ptr) (rest : list ptr) :
  GetHumanPlayers g = h0 :: rest ->
  GetCurrentPlayer (NextTurn g)
  = match index_where (fun h => bool_decide (Some h = GetCurrentPlayer g)) (h0 :: rest) with
    | Some i => (h0 :: rest) !! ((i + 1) mod length (h0 :: rest))%nat
    | None => Some h0
    end
  /\ current_is_alive_human (NextTurn g)
  /\ GameOver (NextTurn g) = GameOver g.
Proof.
  intros Hh.
  assert (forall h, h ∈ h0 :: rest -> h ∈ Players g /\ is_alive_human g h = true) as Hroster.
  { intros h Hin. rewrite <- Hh in Hin. unfold GetHumanPlayers in Hin.
    apply list_elem_of_In, filter_In in Hin as [Hin ?]. split; [by apply list_elem_of_In|done]. }
  assert (GetCurrentPlayer (NextTurn g)
          = match index_where (fun h => bool_decide (Some h = GetCurrentPlayer g))
                    (h0 :: rest) with
            | Some i => (h0 :: rest) !! ((i + 1) mod length (h0 :: rest))%nat
            | None => Some h0
            end) as Hnext.
  { unfold NextTurn. rewrite Hh.
    set (g1 := if (Z.rem _ 4 =? 0)%Z then _ else _).
    assert (Players g1 = Players g) as HP by (subst g1; by destruct (_ =? _)%Z).
    assert (forall a, is_alive_human g1 a = is_alive_human g a) as HA
      by (subst g1; by destruct (_ =? _)%Z).
    assert (GetCurrentPlayer g1 = GetCurrentPlayer g) as HC
      by (subst g1; by destruct (_ =? _)%Z).
    revert HP HA HC. generalize g1. clear g1. intros g1 HP HA HC.
    destruct rest as [|h1 rest].
    - rewrite point_at_current by (rewrite HP; apply Hroster; by left).
      cbn [index_where]. by destruct (bool_decide _).
    - rewrite HC.
      destruct (index_where _ (h0 :: h1 :: rest)) as [i|]; cbn [fst snd].
      + destruct ((h0 :: h1 :: rest) !! _) as [nh|] eqn:Hnh.
        * assert (nh ∈ Players g1) as Hin
            by (rewrite HP; apply Hroster; by eapply list_elem_of_lookup_2).
          destruct (point_at_spec (Nat.eqb nh) g1) as (idx & x & Hpt & Hx & Heq).
          { exists nh. split; [done|]. apply Nat.eqb_refl. }
          rewrite Hpt. cbn [fst snd]. apply Nat.eqb_eq in Heq. subst x.
          by apply GetCurrentPlayer_pointed.
        * exfalso. apply lookup_ge_None_1 in Hnh.
          pose proof (Nat.mod_upper_bound (i + 1) (length (h0 :: h1 :: rest))
                        ltac:(discriminate)) as Hlt.
          exact (Nat.lt_irrefl _ (Nat.lt_le_trans _ _ _ Hlt Hnh)).
      + by apply (point_at_first_human g g1 h0 (h1 :: rest)). }
  destruct (NextTurn_state g) as [idx Hstate]; [by rewrite Hh|].
  assert (Heap (NextTurn g) = Heap g /\ GameOver (NextTurn g) = GameOver g) as [HH HO].
  { rewrite Hstate. by destruct (_ =? _)%Z. }
  split; [exact Hnext|]. split; [|exact HO].
  assert (exists h, GetCurrentPlayer (NextTurn g) = Some h /\ h ∈ h0 :: rest)
    as (h & Hcur & Hin).
  { rewrite Hnext. destruct (index_where _ (h0 :: rest)) as [i|].
    - destruct ((h0 :: rest) !! _) as [nh|] eqn:Hnh.
      + exists nh. split; [done|]. by eapply list_elem_of_lookup_2.
      + exfalso. apply lookup_ge_None_1 in Hnh.
        pose proof (Nat.mod_upper_bound (i + 1) (length (h0 :: rest))
                      ltac:(discriminate)) as Hlt.
        exact (Nat.lt_irrefl _ (Nat.lt_le_trans _ _ _ Hlt Hnh)).
    - exists h0. split; [done|]. by left. }
  exists h. split; [exact Hcur|].
  unfold is_alive_human, deref. rewrite HH. apply Hroster, Hin.
Qed.

(** X2.  What [NextTurn] touches.  With no living human left it only marks
    the engine as finished, and the turn counter stays.  Otherwise it
    advances the turn counter by one (and the week, when the new turn
    number is a multiple of four) and moves the turn index; the players,
    the resources, the mileage, the phase and the loot sites are what they
    were. *)
Theorem next_turn_frame (g : GameState) :
  (GetHumanPlayers g = [] -> NextTurn g = set_GameOver true g)
  /\ (GetHumanPlayers g <> [] ->
      TurnNumber (NextTurn g) = wrap64 (TurnNumber g + 1)
      /\ Week (NextTurn g)
         = (if (Z.rem (wrap64 (TurnNumber g + 1)) 4 =? 0)%Z
            then wrap64 (Week g + 1) else Week g)
      /\ Heap (NextTurn g) = Heap g /\ Players (NextTurn g) = Players g
      /\ same_resources g (NextTurn g) /\ Phase (NextTurn g) = Phase g
      /\ LootSites (NextTurn g) = LootSites g
      /\ FortAvailable (NextTurn g) = FortAvailable g
      /\ Rand (NextTurn g) = Rand g).
Proof.
  split.
  - intros Hh. unfold NextTurn. by rewrite Hh.
  - intros Hh. destruct (NextTurn_state g Hh) as [idx ->].
    destruct (_ =? _)%Z; cbn; by repeat split.
Qed.

(** ** Resolving a hunt or an encounter with riders *)

Lemma Phase_HandleHuntShoot a reactionTimeMs g :
  Phase (Game.HandleHuntShoot (Some a) reactionTimeMs g).2 = PhaseMainMenu.
Proof.
  unfold Game.HandleHuntShoot. rewrite run_bind.
  generalize (hunt_outcome (reaction_accuracy reactionTimeMs) 2 g). intros o.
  rewrite run_bind. cbn [modify fst snd]. rewrite run_bind.
  unfold check_win. rewrite run_bind. change (get ?x) with (x, x). cbn [fst snd].
  destruct (Qleb _ _); reflexivity.
Qed.

(** X3.  Whatever the state it is called in, the resolution of a hunt
    ([HandleHuntShoot]) and the resolution of an encounter with riders
    ([HandleRiderTactic]) for a player return with every resource and the
    mileage non-negative and with the engine back at the main menu. *)
Theorem resolving_a_subphase (a : ptr) (x : Z) (g : GameState) :
  resources_nonneg (Game.HandleHuntShoot (Some a) x g).2
  /\ Phase (Game.HandleHuntShoot (Some a) x g).2 = PhaseMainMenu
  /\ resources_nonneg (Game.HandleRiderTactic (Some a) x g).2
  /\ Phase (Game.HandleRiderTactic (Some a) x g).2 = PhaseMainMenu.
Proof.
  split; [apply HandleHuntShoot_nonneg|]. split; [apply Phase_HandleHuntShoot|].
  split; [apply HandleRiderTactic_nonneg|]. apply Phase_HandleRiderTactic.
Qed.

Lemma wrap64_small z : (- 2 ^ 63 <= z < 2 ^ 63)%Z -> wrap64 z = z.
Proof. intros H. unfold wrap64. rewrite Z.mod_small; lia. Qed.

(** The accuracy derived from a reaction time lies between 0 and 9. *)
Lemma reaction_accuracy_range reactionTimeMs :
  (0 <= reaction_accuracy reactionTimeMs)%Q /\ (reaction_accuracy reactionTimeMs <= 9)%Q.
Proof.
  unfold reaction_accuracy.
  destruct (Z.ltb_spec reactionTimeMs 300); [split; lra|].
  destruct (Z.ltb_spec reactionTimeMs 600).
  { rewrite wrap64_small by lia. unfold float64.
    assert (0 <= inject_Z (reactionTimeMs - 300))%Q
      by (rewrite <- (Zle_Qle 0); lia).
    assert (inject_Z (reactionTimeMs - 300) <= 300)%Q
      by (rewrite <- (Zle_Qle _ 300); lia).
    split.
    - assert (0 <= inject_Z (reactionTimeMs - 300) / 300)%Q by (apply Qle_shift_div_l; lra).
      lra.
    - assert (inject_Z (reactionTimeMs - 300) / 300 <= 1)%Q by (apply Qle_shift_div_r; lra).
      lra. }
  destruct (Z.ltb_spec reactionTimeMs 1000).
  { rewrite wrap64_small by lia. unfold float64.
    assert (0 <= inject_Z (reactionTimeMs - 600))%Q
      by (rewrite <- (Zle_Qle 0); lia).
    assert (inject_Z (reactionTimeMs - 600) <= 400)%Q
      by (rewrite <- (Zle_Qle _ 400); lia).
    split.
    - assert (0 <= inject_Z (reactionTimeMs - 600) / 250)%Q by (apply Qle_shift_div_l; lra).
      lra.
    - assert (inject_Z (reactionTimeMs - 600) / 250 <= 2)%Q by (apply Qle_shift_div_r; lra).
      lra. }
  destruct (Z.ltb_spec reactionTimeMs 2000); [|split; lra].
  rewrite wrap64_small by lia. unfold float64.
  assert (0 <= inject_Z (reactionTimeMs - 1000))%Q
    by (rewrite <- (Zle_Qle 0); lia).
  assert (inject_Z (reactionTimeMs - 1000) <= 1000)%Q
    by (rewrite <- (Zle_Qle _ 1000); lia).
  split.
  - assert (0 <= inject_Z (reactionTimeMs - 1000) / 500)%Q by (apply Qle_shift_div_l; lra).
    lra.
  - assert (inject_Z (reactionTimeMs - 1000) / 500 <= 2)%Q by (apply Qle_shift_div_r; lra).
    lra.
Qed.

(** What a hunt does to the stock, for an accuracy between 0 and 9. *)
Lemma hunt_outcome_stock accuracy big g :
  rand_ok (Rand g) -> resources_nonneg g -> (0 <= accuracy)%Q -> (accuracy <= 9)%Q ->
  (Food g <= Food (hunt_outcome accuracy big g).2)%Q
  /\ (Bullets (hunt_outcome accuracy big g).2 <= Bullets g)%Q
  /\ Clothing (hunt_outcome accuracy big g).2 = Clothing g
  /\ MiscSupplies (hunt_outcome accuracy big g).2 = MiscSupplies g
  /\ Cash (hunt_outcome accuracy big g).2 = Cash g.
Proof.
  intros Hok (Hf & Hb & Hc & Hm & Hcash & Hmile) Ha0 Ha9.
  destruct (rand_ok_draw _ (cursor (Rand g)) Hok) as [H0 H1].
  assert (clamp0 (Clothing g) = Clothing g) as Ec by by apply clamp0_id.
  assert (clamp0 (MiscSupplies g) = MiscSupplies g) as Em by by apply clamp0_id.
  assert (clamp0 (Cash g) = Cash g) as Ecash by by apply clamp0_id.
  assert (forall x, (0 <= x)%Q -> (Food g <= clamp0 (Food g + x))%Q) as HF.
  { intros x Hx. rewrite clamp0_id; lra. }
  assert (forall x, (0 <= x)%Q ->
            (clamp0 (if Qltb (Bullets g - x) 0 then 0 else Bullets g - x) <= Bullets g)%Q)
    as HB.
  { intros x Hx. destruct (Qltb (Bullets g - x) 0) eqn:E.
    - rewrite clamp0_id; lra.
    - apply Qltb_ge in E. rewrite clamp0_id; lra. }
  unfold hunt_outcome.
  destruct (Qleb accuracy big).
  - rewrite !run_bind. cbn.
    destruct (Qltb (Bullets g - (10 + 3 * accuracy)) 0) eqn:E; cbn.
    + split; [apply HF; lra|]. split; [rewrite clamp0_id; lra|done].
    + apply Qltb_ge in E. split; [apply HF; lra|]. split; [rewrite clamp0_id; lra|done].
  - rewrite run_bind, (run_bind Float64).
    destruct (Qltb _ _); rewrite !run_bind; cbn.
    all: destruct (Qltb (Bullets g - (10 + 3 * accuracy)) 0) eqn:E; cbn.
    all: try apply Qltb_ge in E.
    all: split; [first [apply HF; lra | rewrite clamp0_id; lra]|].
    all: split; [rewrite clamp0_id; lra|done].
Qed.

(** X4.  The shot of a hunt, on a state whose resources are not negative:
    the food does not decrease, the bullets do not increase, the party
    advances by 45 miles plus up to 20 more, and clothing, supplies, cash
    and the players are what they were. *)
Theorem hunt_shot_effect (a : ptr) (reactionTimeMs : Z) (g : GameState) :
  rand_ok (Rand g) -> resources_nonneg g ->
  (Food g <= Food (Game.HandleHuntShoot (Some a) reactionTimeMs g).2)%Q
  /\ (Bullets (Game.HandleHuntShoot (Some a) reactionTimeMs g).2 <= Bullets g)%Q
  /\ (exists r, (0 <= r)%Q /\ (r < 1)%Q
                /\ Mileage (Game.HandleHuntShoot (Some a) reactionTimeMs g).2
                   = (Mileage g + (45 + r * 20))%Q)
  /\ Clothing (Game.HandleHuntShoot (Some a) reactionTimeMs g).2 = Clothing g
  /\ MiscSupplies (Game.HandleHuntShoot (Some a) reactionTimeMs g).2 = MiscSupplies g
  /\ Cash (Game.HandleHuntShoot (Some a) reactionTimeMs g).2 = Cash g
  /\ Heap (Game.HandleHuntShoot (Some a) reactionTimeMs g).2 = Heap g
  /\ Players (Game.HandleHuntShoot (Some a) reactionTimeMs g).2 = Players g.
Proof.
  intros Hok Hnn.
  destruct (reaction_accuracy_range reactionTimeMs) as [Ha0 Ha9].
  destruct (hunt_outcome_stock _ 2 g Hok Hnn Ha0 Ha9) as (HF & HB & HC & HM & HCash).
  destruct (hunt_outcome_mileage (reaction_accuracy reactionTimeMs) 2 g Hok)
    as (r & Hr0 & Hr1 & HMile); [apply Hnn|].
  assert (Heap (hunt_outcome (reaction_accuracy reactionTimeMs) 2 g).2 = Heap g) as HH
    by (apply preserves_hunt_outcome; intros; reflexivity).
  assert (Players (hunt_outcome (reaction_accuracy reactionTimeMs) 2 g).2 = Players g) as HP
    by (apply preserves_hunt_outcome; intros; reflexivity).
  assert (exists o, (Game.HandleHuntShoot (Some a) reactionTimeMs g).2 = o
                    /\ same_resources (hunt_outcome (reaction_accuracy reactionTimeMs) 2 g).2 o
                    /\ Heap o = Heap (hunt_outcome (reaction_accuracy reactionTimeMs) 2 g).2
                    /\ Players o = Players (hunt_outcome (reaction_accuracy reactionTimeMs) 2 g).2)
    as (o & -> & (EF & EB & EC & EM & ECash & EMile & _) & EH & EP).
  { eexists. split; [reflexivity|].
    unfold Game.HandleHuntShoot. rewrite run_bind.
    generalize (hunt_outcome (reaction_accuracy reactionTimeMs) 2 g). intros o.
    rewrite run_bind. cbn [modify fst snd]. rewrite run_bind.
    unfold check_win. rewrite run_bind. change (get ?x) with (x, x). cbn [fst snd].
    destruct (Qleb _ _); by repeat split. }
  rewrite EF, EB, EC, EM, ECash, EMile, EH, EP.
  split; [exact HF|]. split; [exact HB|]. split; [by exists r|]. by repeat split.
Qed.

(** ** Trading at the fort *)

(** The items the fort trades are the four the sale knows. *)
Lemma fort_items item fi :
  GetFortPrices item = Some fi ->
  item = "food" \/ item = "bullets" \/ item = "clothing" \/ item = "misc".
Proof.
  unfold GetFortPrices.
  destruct (String.eqb_spec item "food"); [auto|].
  destruct (String.eqb_spec item "bullets"); [auto|].
  destruct (String.eqb_spec item "clothing"); [auto|].
  destruct (String.eqb_spec item "misc"); [auto|done].
Qed.

(** A purchase the cash covers, on a state whose resources are not
    negative. *)
Lemma HandleFortBuy_effect g item qty fi stock word take :
  Phase g = PhaseFort -> (0 < qty)%Z -> GetFortPrices item = Some fi ->
  sell_item item = Some (stock, word, take) -> resources_nonneg g ->
  (Price fi * float64 qty <= Cash g)%Q ->
  (Game.HandleFortBuy item qty g).1
  = ln ("Bought " +:+ fmt_f0 (Qty fi * float64 qty) +:+ " " +:+ item +:+ " for $"
        +:+ fmt_f0 (Price fi * float64 qty))
  /\ Cash (Game.HandleFortBuy item qty g).2 = (Cash g - Price fi * float64 qty)%Q
  /\ stock (Game.HandleFortBuy item qty g).2 = (stock g + Qty fi * float64 qty)%Q
  /\ Phase (Game.HandleFortBuy item qty g).2 = PhaseFort
  /\ Mileage (Game.HandleFortBuy item qty g).2 = Mileage g
  /\ Heap (Game.HandleFortBuy item qty g).2 = Heap g
  /\ resources_nonneg (Game.HandleFortBuy item qty g).2.
Proof.
  intros Hphase Hqty Hitem Hsell Hnn Hcash.
  assert (0 <= Price fi * float64 qty)%Q as Hcost.
  { assert (0 <= float64 qty)%Q by (unfold float64; rewrite <- (Zle_Qle 0); lia).
    assert (0 <= Price fi)%Q.
    { destruct (fort_items _ _ Hitem) as [-> | [-> | [-> | ->]]];
        injection Hitem as <-; cbn; lra. }
    by apply Qmult_le_0_compat. }
  assert (0 <= Qty fi * float64 qty)%Q as Hgain.
  { assert (0 <= float64 qty)%Q by (unfold float64; rewrite <- (Zle_Qle 0); lia).
    assert (0 <= Qty fi)%Q.
    { destruct (fort_items _ _ Hitem) as [-> | [-> | [-> | ->]]];
        injection Hitem as <-; cbn; lra. }
    by apply Qmult_le_0_compat. }
  unfold Game.HandleFortBuy. rewrite run_bind. change (get g) with (g, g). cbn [fst snd].
  rewrite Hphase. cbn [TurnPhase_eqb negb].
  destruct (Z.leb_spec qty 0); [lia|]. rewrite Hitem.
  apply Qleb_le in Hcash as Hcash'. unfold Qleb in Hcash'. unfold Qltb.
  destruct (Qlt_le_dec (Cash g) (Price fi * float64 qty)); [done|]. clear Hcash'.
  generalize dependent (Price fi * float64 qty)%Q. intros cost Hcash Hcost _.
  generalize dependent (Qty fi * float64 qty)%Q. intros gained Hgain.
  destruct Hnn as (Hf & Hb & Hc & Hm & Hca & Hmi).
  rewrite !run_bind.
  destruct (fort_items _ _ Hitem) as [-> | [-> | [-> | ->]]]; injection Hsell as <- <- <-.
  all: cbn; unfold resources_nonneg; cbn.
  all: rewrite ?clamp0_id by lra.
  all: repeat split; try done; try lra; try apply clamp0_nonneg.
Qed.

(** A sale the stock covers, on a state whose resources are not negative. *)
Lemma HandleFortSell_effect g item qty fi stock word take :
  Phase g = PhaseFort -> (0 < qty)%Z -> GetFortPrices item = Some fi ->
  sell_item item = Some (stock, word, take) -> resources_nonneg g ->
  (Qty fi * float64 qty <= stock g)%Q ->
  (Game.HandleFortSell item qty g).1
  = ln ("Sold " +:+ fmt_f0 (Qty fi * float64 qty) +:+ " " +:+ item +:+ " for $"
        +:+ fmt_f0 (Price fi * 0.5 * float64 qty))
  /\ Cash (Game.HandleFortSell item qty g).2 = (Cash g + Price fi * 0.5 * float64 qty)%Q
  /\ stock (Game.HandleFortSell item qty g).2 = (stock g - Qty fi * float64 qty)%Q
  /\ Phase (Game.HandleFortSell item qty g).2 = PhaseFort
  /\ Mileage (Game.HandleFortSell item qty g).2 = Mileage g
  /\ Heap (Game.HandleFortSell item qty g).2 = Heap g
  /\ resources_nonneg (Game.HandleFortSell item qty g).2.
Proof.
  intros Hphase Hqty Hitem Hsell Hnn Hstock.
  assert (0 <= Price fi * 0.5 * float64 qty)%Q as Hearn.
  { assert (0 <= float64 qty)%Q by (unfold float64; rewrite <- (Zle_Qle 0); lia).
    assert (0 <= Price fi * 0.5)%Q.
    { destruct (fort_items _ _ Hitem) as [-> | [-> | [-> | ->]]];
        injection Hitem as <-; cbn; lra. }
    by apply Qmult_le_0_compat. }
  unfold Game.HandleFortSell. rewrite run_bind. change (get g) with (g, g). cbn [fst snd].
  rewrite Hphase. cbn [TurnPhase_eqb negb].
  destruct (Z.leb_spec qty 0); [lia|]. rewrite Hitem, Hsell.
  apply Qleb_le in Hstock as Hstock'. unfold Qleb in Hstock'. unfold Qltb.
  destruct (Qlt_le_dec (stock g) (Qty fi * float64 qty)); [done|]. clear Hstock'.
  generalize dependent (Price fi * 0.5 * float64 qty)%Q. intros earnings Hearn.
  generalize dependent (Qty fi * float64 qty)%Q. intros amount Hstock _.
  destruct Hnn as (Hf & Hb & Hc & Hm & Hca & Hmi).
  rewrite !run_bind.
  destruct (fort_items _ _ Hitem) as [-> | [-> | [-> | ->]]]; injection Hsell as <- <- <-.
  all: cbn; unfold resources_nonneg; cbn.
  all: rewrite ?clamp0_id by (cbn in *; lra).
  all: repeat split; try done; try (cbn in *; lra); try apply clamp0_nonneg.
Qed.

(** X5.  Trading at the fort, by a party whose resources are not negative.
    A purchase the cash covers takes the price times the number of bundles
    from the cash and adds the content of the bundles to the stock of the
    item; a sale the stock covers removes the bundles from the stock and
    pays half the price.  Either way the reply names the amounts, the
    party stays at the fort and where it is, and no resource is negative
    afterwards. *)
Theorem fort_trade (g : GameState) (item : string) (qty : Z) (fi : FortItem)
    (stock : GameState -> Q) (word : string) (take : Q -> M unit) :
  Phase g = PhaseFort -> (0 < qty)%Z -> GetFortPrices item = Some fi ->
  sell_item item = Some (stock, word, take) -> resources_nonneg g ->
  ((Price fi * float64 qty <= Cash g)%Q ->
   (Game.HandleFortBuy item qty g).1
   = ln ("Bought " +:+ fmt_f0 (Qty fi * float64 qty) +:+ " " +:+ item +:+ " for $"
         +:+ fmt_f0 (Price fi * float64 qty))
   /\ Cash (Game.HandleFortBuy item qty g).2 = (Cash g - Price fi * float64 qty)%Q
   /\ stock (Game.HandleFortBuy item qty g).2 = (stock g + Qty fi * float64 qty)%Q
   /\ Phase (Game.HandleFortBuy item qty g).2 = PhaseFort
   /\ Mileage (Game.HandleFortBuy item qty g).2 = Mileage g
   /\ Heap (Game.HandleFortBuy item qty g).2 = Heap g
   /\ resources_nonneg (Game.HandleFortBuy item qty g).2)
  /\ ((Qty fi * float64 qty <= stock g)%Q ->
      (Game.HandleFortSell item qty g).1
      = ln ("Sold " +:+ fmt_f0 (Qty fi * float64 qty) +:+ " " +:+ item +:+ " for $"
            +:+ fmt_f0 (Price fi * 0.5 * float64 qty))
      /\ Cash (Game.HandleFortSell item qty g).2
         = (Cash g + Price fi * 0.5 * float64 qty)%Q
      /\ stock (Game.HandleFortSell item qty g).2 = (stock g - Qty fi * float64 qty)%Q
      /\ Phase (Game.HandleFortSell item qty g).2 = PhaseFort
      /\ Mileage (Game.HandleFortSell item qty g).2 = Mileage g
      /\ Heap (Game.HandleFortSell item qty g).2 = Heap g
      /\ resources_nonneg (Game.HandleFortSell item qty g).2).
Proof.
  intros Hphase Hqty Hitem Hsell Hnn. split; intros Hcovered.
  - by eapply HandleFortBuy_effect.
  - by eapply HandleFortSell_effect.
Qed.


(** X7.  The requests the fort refuses before looking at the stock: a
    purchase or a sale outside the fort phase, of a quantity that is not
    positive, or of an item the fort does not trade.  The engine is left
    exactly as it was. *)
Theorem fort_refusals (g : GameState) (item : string) (qty : Z) :
  (Phase g <> PhaseFort ->
   Game.HandleFortBuy item qty g = (ln "You're not at a fort!", g)
   /\ Game.HandleFortSell item qty g = (ln "You're not at a fort!", g))
  /\ (Phase g = PhaseFort -> (qty <= 0)%Z ->
      Game.HandleFortBuy item qty g = (ln "Invalid quantity.", g)
      /\ Game.HandleFortSell item qty g = (ln "Invalid quantity.", g))
  /\ (Phase g = PhaseFort -> (0 < qty)%Z -> GetFortPrices item = None ->
      Game.HandleFortBuy item qty g = (ln "Unknown item.", g)
      /\ Game.HandleFortSell item qty g = (ln "Unknown item.", g)).
Proof.
  unfold Game.HandleFortBuy, Game.HandleFortSell.
  rewrite !run_bind. change (get g) with (g, g). cbn [fst snd].
  split; [|split].
  - intros Hphase.
    assert (TurnPhase_eqb (Phase g) PhaseFort = false) as ->.
    { apply not_true_is_false. by intros ?%TurnPhase_eqb_eq. }
    done.
  - intros -> Hqty. cbn [TurnPhase_eqb negb].
    by destruct (Z.leb_spec qty 0); [|lia].
  - intros -> Hqty ->. cbn [TurnPhase_eqb negb].
    by destruct (Z.leb_spec qty 0); [lia|].
Qed.

(** ** Parties stay consistent *)

Lemma heap_ok_store a v g : heap_ok g -> player_ok v -> heap_ok (store a v g).
Proof. intros Hg Hv. unfold heap_ok, store. cbn [Heap set_Heap]. by apply Forall_insert. Qed.

Lemma player_ok_deref a g : heap_ok g -> player_ok (deref a g).
Proof.
  intros Hg. unfold deref. destruct (Heap g !! a) as [p|] eqn:Hp; cbn.
  - by eapply Forall_lookup_1.
  - split; [constructor|done].
Qed.

Lemma keeps_heap_ok_DamagePartyMember a i amount :
  keeps heap_ok (DamagePartyMember a i amount).
Proof.
  intros g Hg. unfold DamagePartyMember.
  pose proof (player_ok_deref a g Hg) as [Hmembers Hleader].
  destruct (Party (deref a g) !! i) as [m|] eqn:Hm; [|done].
  destruct (MemberAlive m) eqn:Halive; [|done]. cbn [negb].
  destruct (Z.leb_spec (wrap64 (Health m - amount)) 0) as [Hdead|Hlives].
  - assert (Forall member_ok
              (<[i := mkPartyMember (MemberName m) false 0 (Injured m)]> (Party (deref a g))))
      as Hparty by (by apply Forall_insert).
    destruct (Nat.eqb_spec i 0) as [->|Hi]; cbn [snd].
    + unfold CheckAllPlayersDead. destruct (existsb _ _); cbn [snd].
      all: apply heap_ok_store; [done|]; by split.
    + apply heap_ok_store; [done|]. split; [done|]. cbn [Party set_Party Alive].
      rewrite list_lookup_insert_ne by done. apply Hleader.
  - cbn [snd]. apply heap_ok_store; [done|]. split.
    + cbn [Party set_Party]. apply Forall_insert; [done|]. unfold member_ok. cbn. lia.
    + cbn [Party set_Party Alive]. intros m0.
      destruct (Nat.eqb_spec i 0) as [->|Hi].
      * apply lookup_lt_Some in Hm as Hlt. rewrite list_lookup_insert_eq by done.
        by intros [= <-].
      * rewrite list_lookup_insert_ne by done. apply Hleader.
Qed.

Lemma keeps_heap_ok_DamageRandomMember a amount :
  keeps heap_ok (DamageRandomMember a amount).
Proof.
  intros g Hg. unfold DamageRandomMember.
  destruct (alive_indices _) as [|i0 rest]; [done|].
  cbn [Intn]. by apply keeps_heap_ok_DamagePartyMember.
Qed.

(** Walking down a computation to show that the parties stay consistent. *)
Ltac keep_parties_step :=
  match goal with
  | |- keeps heap_ok (DamageRandomMember _ _) => apply keeps_heap_ok_DamageRandomMember
  | |- keeps heap_ok (DamagePartyMember _ _ _) => apply keeps_heap_ok_DamagePartyMember
  | |- keeps _ (if ?b then _ else _) => destruct b
  | |- keeps _ (ret _) => apply keeps_ret
  | |- keeps _ (bind _ _) => apply keeps_bind; [|intro]
  | |- keeps _ _ => assumption
  | |- keeps _ _ => by intros ? ?
  | |- keeps _ (modify _) =>
    intros ? ?; cbn [modify snd];
    match goal with |- context [if ?b then _ else _] => by destruct b end
  end.

Ltac keep_parties := repeat keep_parties_step.

Lemma keeps_heap_ok_starve a idxs : keeps heap_ok (starve a idxs).
Proof. induction idxs as [|i rest IH]; cbn [starve]; keep_parties. Qed.

Lemma keeps_heap_ok_HandleRiverCrossing p : keeps heap_ok (HandleRiverCrossing p).
Proof.
  unfold HandleRiverCrossing. apply keeps_bind; [by intros ? ?|]. intros g.
  repeat (destruct (_ && _); [unfold river_band; keep_parties|]). apply keeps_ret.
Qed.

Lemma keeps_heap_ok_travel_leg a : keeps heap_ok (travel_leg a).
Proof.
  unfold travel_leg. apply keeps_bind; [by intros ? ?|]. intros g.
  apply keeps_bind.
  { destruct (Qltb (Food g) 13); [|apply keeps_ret].
    apply keeps_bind; [apply keeps_heap_ok_starve|]. intros. apply keeps_ret. }
  intros hunger. apply keeps_bind; [by intros ? ?|]. intros g1.
  destruct (_ && _); [apply keeps_ret|].
  do 4 (apply keeps_bind; [by intros ? ?|]; intro).
  apply keeps_bind; [apply keeps_heap_ok_HandleRiverCrossing|].
  intros river. apply keeps_bind; [by intros ? ?|]. intros g3.
  apply keeps_bind; [|intros; apply keeps_ret].
  destruct (_ && _); [unfold CheckRiders; keep_parties|apply keeps_ret].
Qed.

Lemma keeps_heap_ok_HandleIllness p lvl : keeps heap_ok (HandleIllness p lvl).
Proof. unfold HandleIllness. keep_parties. Qed.

Lemma keeps_heap_ok_event p i : keeps heap_ok (nth i events eventWagonBreakdown p).
Proof.
  do 15 (destruct i as [|i];
         [cbn [nth events];
          unfold eventWagonBreakdown, eventOxInjury, eventDaughterBrokenArm,
            eventOxWandersOff, eventSonGetsLost, eventUnsafeWater, eventHeavyRains,
            eventBandits, eventFireInWagon, eventLostInFog, eventSnakeBite,
            eventWagonSwamped, eventWildAnimals, eventHailStorm, eventBadFood,
            cpu_shot_accuracy, getShootingTime; keep_parties|]).
  destruct i; cbn [nth events]; unfold eventWagonBreakdown; keep_parties.
Qed.

Lemma keeps_heap_ok_HandleRandomEvent p : keeps heap_ok (HandleRandomEvent p).
Proof.
  unfold HandleRandomEvent. apply keeps_bind; [by intros ? ?|]. intros r0.
  apply keeps_bind; [apply keeps_heap_ok_event|]. intros t.
  unfold eventAbandonedWagon. keep_parties.
Qed.

Lemma keeps_heap_ok_HandleMountains p : keeps heap_ok (HandleMountains p).
Proof.
  unfold HandleMountains. apply keeps_bind; [by intros ? ?|]. intros g.
  apply keeps_bind; [by intros ? ?|]. intros r0.
  apply keeps_bind; [keep_parties|]. intros rugged.
  apply keeps_bind; [by intros ? ?|]. intros g1.
  apply keeps_bind; [|intros; keep_parties].
  destruct (_ && _); [|apply keeps_ret].
  apply keeps_bind; [by intros ? ?|]. intros r.
  destruct (Qltb r 0.3); [|apply keeps_ret].
  do 7 (apply keeps_bind; [by intros ? ?|]; intro).
  apply keeps_bind; [|intros; apply keeps_ret].
  destruct (Qltb _ _); [apply keeps_heap_ok_HandleIllness|apply keeps_ret].
Qed.

Lemma keeps_heap_ok_FinishTurn p lvl : keeps heap_ok (FinishTurn p lvl).
Proof.
  unfold FinishTurn. apply keeps_bind; [by intros ? ?|]. intros g.
  apply keeps_bind.
  { destruct (still_playing p g); [apply keeps_heap_ok_HandleRandomEvent|apply keeps_ret]. }
  intros ev. apply keeps_bind; [by intros ? ?|]. intros g1.
  apply keeps_bind.
  { destruct (_ && _); [apply keeps_heap_ok_HandleMountains|apply keeps_ret]. }
  intros mo. apply keeps_bind; [apply keeps_heap_ok_HandleIllness|]. intros _.
  unfold HandleFinalTurn. keep_parties.
Qed.

Lemma keeps_heap_ok_ResolveRiderTactic a tactic : keeps heap_ok (ResolveRiderTactic a tactic).
Proof.
  unfold ResolveRiderTactic, riders_epilogue, shot_accuracy, getShootingTime.
  apply keeps_bind; [by intros ? ?|]. intros g.
  destruct (PendingRiderHostile g);
    repeat (destruct (tactic =? _)%Z); keep_parties.
  all: destruct (PType _); keep_parties.
Qed.

Lemma keeps_heap_ok_hunt_outcome accuracy big : keeps heap_ok (hunt_outcome accuracy big).
Proof. unfold hunt_outcome. keep_parties. Qed.

Lemma keeps_heap_ok_HandleHunting a : keeps heap_ok (HandleHunting a).
Proof.
  unfold HandleHunting. apply keeps_bind; [by intros ? ?|]. intros g.
  destruct (Qltb _ _); [apply keeps_ret|].
  apply keeps_bind; [by intros ? ?|]. intros _.
  apply keeps_bind.
  { unfold shot_accuracy, getShootingTime. apply keeps_bind; [by intros ? ?|]. intros g1.
    destruct (PType _); keep_parties. }
  intros acc. apply keeps_bind; [apply keeps_heap_ok_hunt_outcome|]. intros t.
  unfold check_win, HandleFinalTurn. keep_parties.
Qed.

Lemma keeps_heap_ok_ContinueTravel a : keeps heap_ok (ContinueTravel a).
Proof.
  unfold ContinueTravel. apply keeps_bind; [apply keeps_heap_ok_travel_leg|].
  intros [text [[lvl riders]|]]; [|apply keeps_ret].
  apply keeps_bind; [by intros ? ?|]. intros g.
  destruct (_ && _); [keep_parties|].
  apply keeps_bind.
  { destruct riders; [|apply keeps_ret].
    apply keeps_bind; [unfold cpuChooseTactic, choose_weighted; keep_parties|].
    intros tactic. apply keeps_heap_ok_ResolveRiderTactic. }
  intros fight. apply keeps_bind; [by intros ? ?|]. intros g1.
  apply keeps_bind; [|intros; apply keeps_ret].
  destruct (still_playing a g1); [apply keeps_heap_ok_FinishTurn|apply keeps_ret].
Qed.

Lemma keeps_heap_ok_ProcessTurn p action : keeps heap_ok (ProcessTurn p action).
Proof.
  unfold ProcessTurn. destruct p as [a|]; [|apply keeps_ret].
  apply keeps_bind; [by intros ? ?|]. intros g.
  destruct (negb _); [apply keeps_ret|].
  apply keeps_bind; [by intros ? ?|]. intros _.
  destruct (String.eqb action "hunt"); [|apply keeps_heap_ok_ContinueTravel].
  destruct (Qleb _ _).
  - destruct (PType _).
    + unfold GetShootingPrompt. keep_parties.
    + apply keeps_heap_ok_HandleHunting.
  - apply keeps_bind; [apply keeps_heap_ok_ContinueTravel|]. intros; apply keeps_ret.
Qed.

Lemma keeps_heap_ok_HandleHuntShoot p reactionTimeMs :
  keeps heap_ok (Game.HandleHuntShoot p reactionTimeMs).
Proof.
  unfold Game.HandleHuntShoot. destruct p as [a|]; [|apply keeps_ret].
  apply keeps_bind; [apply keeps_heap_ok_hunt_outcome|]. intros t.
  unfold check_win, HandleFinalTurn. keep_parties.
Qed.

Lemma keeps_heap_ok_HandleRiderTactic p tactic :
  keeps heap_ok (Game.HandleRiderTactic p tactic).
Proof.
  unfold Game.HandleRiderTactic. destruct p as [a|]; [|apply keeps_ret].
  apply keeps_bind; [apply keeps_heap_ok_ResolveRiderTactic|]. intros t.
  apply keeps_bind; [by intros ? ?|]. intros g.
  apply keeps_bind; [|intros; keep_parties].
  destruct (still_playing a g); [apply keeps_heap_ok_FinishTurn|apply keeps_ret].
Qed.

Lemma keeps_heap_ok_fort item qty a :
  keeps heap_ok (Game.HandleFortBuy item qty)
  /\ keeps heap_ok (Game.HandleFortSell item qty)
  /\ keeps heap_ok Game.HandleFortLeave
  /\ keeps heap_ok (HandleFort a).
Proof.
  split; [|split; [|split]].
  - unfold Game.HandleFortBuy, gain_item. apply keeps_bind; [by intros ? ?|]. intros g.
    destruct (negb _); [apply keeps_ret|]. destruct (_ <=? _)%Z; [apply keeps_ret|].
    destruct (GetFortPrices item); keep_parties.
  - unfold Game.HandleFortSell. apply keeps_bind; [by intros ? ?|]. intros g.
    destruct (negb _); [apply keeps_ret|]. destruct (_ <=? _)%Z; [apply keeps_ret|].
    destruct (GetFortPrices item); [|apply keeps_ret].
    unfold sell_item. repeat (destruct (String.eqb item _)); keep_parties.
  - by intros ? ?.
  - unfold HandleFort, cpu_purchase. keep_parties.
Qed.

Lemma player_ok_fresh id name t : player_ok (mkPlayer id name t newParty true 3 true).
Proof.
  split; [|by intros m [= <-]].
  unfold newParty. cbn. repeat constructor.
Qed.

(** X8.  The engine keeps the parties consistent.  If, for every player, a
    member is alive exactly when its health is positive, dead members have
    health 0 and a player whose leader is dead is out of the game, then
    the same holds after a turn, after the resolution of a hunt or of an
    encounter with riders, after any trade at the fort, after damage to a
    member, after the turn has passed, and after a player was added. *)
Theorem parties_stay_consistent (g : GameState) :
  heap_ok g ->
  (forall p action, heap_ok (ProcessTurn p action g).2)
  /\ (forall p reactionTimeMs, heap_ok (Game.HandleHuntShoot p reactionTimeMs g).2)
  /\ (forall p tactic, heap_ok (Game.HandleRiderTactic p tactic g).2)
  /\ (forall item qty,
        heap_ok (Game.HandleFortBuy item qty g).2
        /\ heap_ok (Game.HandleFortSell item qty g).2)
  /\ (forall a, heap_ok (HandleFort a g).2)
  /\ (forall a i amount, heap_ok (DamagePartyMember a i amount g).2)
  /\ (forall a amount, heap_ok (DamageRandomMember a amount g).2)
  /\ heap_ok (NextTurn g)
  /\ (forall now name t, heap_ok (AddPlayer now name t g).2).
Proof.
  intros Hg.
  split; [intros; by apply keeps_heap_ok_ProcessTurn|].
  split; [intros; by apply keeps_heap_ok_HandleHuntShoot|].
  split; [intros; by apply keeps_heap_ok_HandleRiderTactic|].
  split.
  { intros item qty. destruct (keeps_heap_ok_fort item qty 0%nat) as (Hb & Hs & _).
    split; [by apply Hb|by apply Hs]. }
  split.
  { intros a. destruct (keeps_heap_ok_fort EmptyString 0 a) as (_ & _ & _ & Hf). by apply Hf. }
  split; [intros; by apply keeps_heap_ok_DamagePartyMember|].
  split; [intros; by apply keeps_heap_ok_DamageRandomMember|].
  split.
  { destruct (GetHumanPlayers g) as [|h0 rest] eqn:Hh.
    - unfold NextTurn. by rewrite Hh.
    - destruct (NextTurn_state g) as [idx ->]; [by rewrite Hh|]. by destruct (_ =? _)%Z. }
  intros now name t. unfold AddPlayer, heap_ok. cbn [snd Heap set_Players set_Heap].
  apply Forall_app. split; [done|]. constructor; [apply player_ok_fresh|constructor].
Qed.

(** ** Damage *)

Lemma deref_allocated a g p : Heap g !! a = Some p -> deref a g = p.
Proof. intros H. unfold deref. by rewrite H. Qed.

(** X9.  The death of a leader.  When damage takes the last health of the
    first member of a player's party, that player is out of the game, and
    the engine is finished afterwards exactly when it was already or no
    other player of the roster is a living human. *)
Theorem death_of_a_leader (a : ptr) (amount : Z) (g : GameState) (m : PartyMember) :
  (a < length (Heap g))%nat ->
  Party (deref a g) !! 0%nat = Some m -> MemberAlive m = true ->
  (wrap64 (Health m - amount) <= 0)%Z ->
  Alive (deref a (DamagePartyMember a 0 amount g).2) = false
  /\ Party (deref a (DamagePartyMember a 0 amount g).2) !! 0%nat
     = Some (mkPartyMember (MemberName m) false 0 (Injured m))
  /\ (forall b, b <> a -> deref b (DamagePartyMember a 0 amount g).2 = deref b g)
  /\ (GameOver (DamagePartyMember a 0 amount g).2 = true
      <-> GameOver g = true
          \/ forall b, b ∈ Players g -> b <> a -> is_alive_human g b = false).
Proof.
  intros Hlt Hm Halive Hdead. unfold DamagePartyMember. rewrite Hm, Halive. cbn [negb].
  destruct (Z.leb_spec (wrap64 (Health m - amount)) 0); [|lia].
  cbn [Nat.eqb snd].
  set (p1 := set_Alive false _).
  assert (Alive p1 = false) as Hp1 by done.
  assert (Party p1 !! 0%nat = Some (mkPartyMember (MemberName m) false 0 (Injured m)))
    as Hparty.
  { subst p1. cbn [Party set_Alive set_Party]. apply list_lookup_insert_eq.
    by eapply lookup_lt_Some. }
  revert Hp1 Hparty. generalize p1. clear p1. intros p1 Hp1 Hparty.
  assert (deref a (store a p1 g) = p1) as Ha by by apply deref_store_same.
  assert (forall b, b <> a -> deref b (store a p1 g) = deref b g) as Hb
    by (intros b Hab; by apply deref_store_other).
  assert (forall b, is_alive_human (store a p1 g) b
                    = if bool_decide (b = a) then false else is_alive_human g b) as Hhuman.
  { intros b. unfold is_alive_human. case_bool_decide as Hab.
    - subst b. rewrite Ha, Hp1. apply andb_false_r.
    - by rewrite Hb. }
  unfold CheckAllPlayersDead.
  destruct (existsb (is_alive_human (store a p1 g)) (Players (store a p1 g))) eqn:Hex;
    cbn [snd].
  - split; [by rewrite Ha|]. split; [by rewrite Ha|]. split; [exact Hb|].
    apply existsb_exists in Hex as (b & Hin & Hal). rewrite Hhuman in Hal.
    case_bool_decide as Hab; [done|]. cbn [GameOver store set_Heap]. split; [by left|].
    intros [Hover|Hnone]; [done|].
    rewrite Hnone in Hal; [done| |done]. by apply list_elem_of_In.
  - assert (forall b, deref b (set_GameOver true (store a p1 g)) = deref b (store a p1 g))
      as Hsame by done.
    split; [by rewrite Hsame, Ha|]. split; [by rewrite Hsame, Ha|].
    split; [intros b Hab; rewrite Hsame; by apply Hb|].
    split; [|done]. intros _. right. intros b Hin Hab.
    assert (is_alive_human (store a p1 g) b = false) as Hal.
    { apply not_true_is_false. intros Hal. apply not_true_iff_false in Hex. apply Hex.
      apply existsb_exists. exists b. split; [by apply list_elem_of_In|done]. }
    rewrite Hhuman in Hal. by case_bool_decide.
Qed.

(** ** New players *)

(** X10.  [AddPlayer] allocates the new player behind all the others: its
    reference is new to the roster, it comes last in the roster, it has
    the name and the type asked for and a party of five healthy members;
    the players there were and the resources are untouched, and every
    reference of the roster is still allocated. *)
Theorem add_player_is_fresh (now : Z) (name : string) (t : PlayerType) (g : GameState) :
  roster_allocated g ->
  ((AddPlayer now name t g).1 ∉ Players g)
  /\ Players (AddPlayer now name t g).2 = (Players g ++ [(AddPlayer now name t g).1])%list
  /\ deref (AddPlayer now name t g).1 (AddPlayer now name t g).2
     = mkPlayer (generateID now) name t newParty true 3 true
  /\ (forall b, b ∈ Players g ->
        deref b (AddPlayer now name t g).2 = deref b g)
  /\ roster_allocated (AddPlayer now name t g).2
  /\ same_resources g (AddPlayer now name t g).2.
Proof.
  intros Hall. unfold roster_allocated in *. rewrite forallb_forall in Hall.
  assert (forall b, b ∈ Players g -> (b < length (Heap g))%nat) as Hlt.
  { intros b Hin. by apply Nat.ltb_lt, Hall, list_elem_of_In. }
  unfold AddPlayer. cbn [fst snd Players Heap set_Players set_Heap].
  split; [intros Hin; apply Hlt in Hin; lia|]. split; [done|].
  split.
  { unfold deref. cbn [Heap set_Players set_Heap].
    rewrite lookup_app_r by done. by rewrite Nat.sub_diag. }
  split.
  { intros b Hin. unfold deref. cbn [Heap set_Players set_Heap].
    by rewrite lookup_app_l by by apply Hlt. }
  split; [|by repeat split].
  rewrite forallb_forall. intros b [Hin|[<-|[]]]%in_app_or.
  - apply Nat.ltb_lt. rewrite length_app. apply list_elem_of_In, Hlt in Hin. lia.
  - apply Nat.ltb_lt. rewrite length_app. cbn. lia.
Qed.

(** ** The resources at the boundary of the server *)

Lemma NextTurn_same_resources g : same_resources g (NextTurn g).
Proof.
  destruct (GetHumanPlayers g) as [|h0 rest] eqn:Hh.
  - unfold NextTurn. rewrite Hh. by repeat split.
  - destruct (NextTurn_state g) as [idx ->]; [by rewrite Hh|].
    destruct (_ =? _)%Z; by repeat split.
Qed.

Lemma advance_same_resources now room :
  same_resources (game room) (game (Room.advanceTurnAndCheckFort now room).2).
Proof.
  unfold Room.advanceTurnAndCheckFort.
  pose proof (NextTurn_same_resources (game room)) as Hnext.
  destruct (Room.current _) as [[a np]|]; [|exact Hnext].
  destruct (negb (Alive np) || _); [exact Hnext|].
  cbn [snd Room.StartTurnTimer game set_turnTimer set_turnDeadline].
  destruct (_ && _); exact Hnext.
Qed.

Lemma createLootSite_same_resources now c room :
  same_resources (game room) (game (Room.createLootSite now c room)).
Proof. unfold Room.createLootSite. destruct (ClientPlayer c); by repeat split. Qed.

Lemma loot_for_the_dead_same_resources now cs room :
  same_resources (game room) (game (Room.loot_for_the_dead now cs room)).
Proof.
  revert room. induction cs as [|[k cl] cs IH]; intros room; [apply same_resources_refl|].
  cbn [Room.loot_for_the_dead]. eapply same_resources_trans; [|apply IH].
  destruct (ClientPlayer cl); [|apply same_resources_refl].
  destruct (negb _); [|apply same_resources_refl].
  destruct (existsb _ _); [apply same_resources_refl|apply createLootSite_same_resources].
Qed.

Lemma close_or_advance_same_resources now result room :
  same_resources (game room) (game (Room.room_after (Room.close_or_advance now result room))).
Proof.
  unfold Room.close_or_advance. destruct (GameOver (game room)).
  - apply same_resources_refl.
  - apply advance_same_resources.
Qed.

Lemma createLootSite_Phase now c room :
  Phase (game (Room.createLootSite now c room)) = Phase (game room).
Proof. unfold Room.createLootSite. by destruct (ClientPlayer c). Qed.

Lemma loot_for_the_dead_Phase now cs room :
  Phase (game (Room.loot_for_the_dead now cs room)) = Phase (game room).
Proof.
  revert room. induction cs as [|[k cl] cs IH]; intros room; [done|].
  cbn [Room.loot_for_the_dead]. rewrite IH.
  destruct (ClientPlayer cl); [|done]. destruct (negb _); [|done].
  destruct (existsb _ _); [done|apply createLootSite_Phase].
Qed.

(** What [HandleAction] does to the engine after [ProcessTurn] has run
    leaves the resources and the phase alone. *)
Lemma HandleAction_after_the_turn now clientID action room c a :
  String.eqb action "start" = false -> String.eqb action "start_game" = false ->
  clients room !! clientID = Some c -> ClientPlayer c = Some a ->
  Alive (deref a (game room)) = true ->
  same_resources (ProcessTurn (Some a) action (game room)).2
    (game (Room.room_after (Room.HandleAction now clientID action room)))
  /\ Phase (game (Room.room_after (Room.HandleAction now clientID action room)))
     = Phase (ProcessTurn (Some a) action (game room)).2.
Proof.
  intros Hs1 Hs2 Hc Hp Halive. unfold Room.HandleAction.
  rewrite Hs1, Hs2, Hc, Hp, Halive. cbn [negb]. unfold Room.on_game.
  generalize (ProcessTurn (Some a) action (game room)). intros [result g1]. cbn [snd].
  set (room1 := if _ && _ then _ else _).
  assert (same_resources g1 (game room1) /\ Phase (game room1) = Phase g1) as [HR HP].
  { subst room1. destruct (_ && _).
    - split; [apply (createLootSite_same_resources now c (set_game g1 room))|].
      apply (createLootSite_Phase now c (set_game g1 room)).
    - split; [apply same_resources_refl|done]. }
  revert HR HP. generalize room1. clear room1. intros room1 HR HP.
  destruct (GameOver (game room1)).
  - cbn [Room.room_after Room.CancelTurnTimer game set_turnDeadline set_turnTimer].
    destruct (RoomType_eqb _ _).
    + split.
      * eapply same_resources_trans; [exact HR|].
        apply (loot_for_the_dead_same_resources now _ room1).
      * cbn [game set_status]. by rewrite (loot_for_the_dead_Phase now _ room1).
    + by split.
  - destruct (_ && _); cbn [Room.room_after].
    + split; [eapply same_resources_trans; [exact HR|apply advance_same_resources]|].
      by rewrite Phase_advance, Phase_NextTurn.
    + by split.
Qed.

(** X11.  The resources at the boundary of the server.  On a room whose
    engine is not finished and holds no negative resource, every request
    that plays, resolves, trades or loots returns with every resource and
    the mileage non-negative, with one exception: a request to travel that
    stops to wait for the answer to riders. *)
Theorem requests_keep_resources (now : Z) (clientID : string) (room : GameRoom) :
  resources_nonneg (game room) -> GameOver (game room) = false ->
  (forall action,
     Phase (game (Room.room_after (Room.HandleAction now clientID action room)))
     <> PhaseRiders ->
     resources_nonneg (game (Room.room_after (Room.HandleAction now clientID action room))))
  /\ (forall reactionTimeMs,
        resources_nonneg
          (game (Room.room_after (Room.HandleHuntShoot now clientID reactionTimeMs room))))
  /\ (forall tactic,
        resources_nonneg
          (game (Room.room_after (Room.HandleRiderTactic now clientID tactic room))))
  /\ (forall item qty,
        resources_nonneg (game (Room.HandleFortBuy clientID item qty room).2)
        /\ resources_nonneg (game (Room.HandleFortSell clientID item qty room).2))
  /\ resources_nonneg (game (Room.HandleFortEnter clientID room).2)
  /\ resources_nonneg (game (Room.HandleFortLeave now clientID room).2)
  /\ (forall lootSiteID,
        resources_nonneg (game (Room.HandleLootClaim now clientID lootSiteID room).2)).
Proof.
  intros Hnn Hover.
  split; [|split; [|split; [|split; [|split; [|split]]]]].
  - intros action Hphase.
    destruct (String.eqb action "start") eqn:Hs1.
    { unfold Room.HandleAction. rewrite Hs1. cbn [Room.room_after].
      unfold Room.start_journey. destruct (Room.current _) as [[a cp]|];
        destruct Hnn as (? & ? & ? & ? & ? & ?); by repeat split. }
    destruct (String.eqb action "start_game") eqn:Hs2.
    { unfold Room.HandleAction. rewrite Hs1, Hs2. cbn [Room.room_after].
      unfold Room.start_journey. destruct (Room.current _) as [[a cp]|];
        destruct Hnn as (? & ? & ? & ? & ? & ?); by repeat split. }
    destruct (clients room !! clientID) as [c|] eqn:Hc;
      [|unfold Room.HandleAction; by rewrite Hs1, Hs2, Hc].
    destruct (ClientPlayer c) as [a|] eqn:Hp;
      [|unfold Room.HandleAction; by rewrite Hs1, Hs2, Hc, Hp].
    destruct (Alive (deref a (game room))) eqn:Halive;
      [|unfold Room.HandleAction; by rewrite Hs1, Hs2, Hc, Hp, Halive].
    destruct (HandleAction_after_the_turn now clientID action room c a) as [HR HP];
      try done.
    eapply same_resources_nonneg; [exact HR|].
    apply ProcessTurn_nonneg; try done. by rewrite <- HP.
  - intros ms. unfold Room.HandleHuntShoot.
    destruct (Room.turn_gate clientID room) as [?|c]; [done|].
    destruct (negb _); [done|]. destruct (ClientPlayer c) as [a|]; [|done].
    unfold Room.on_game.
    pose proof (HandleHuntShoot_nonneg a ms (game room)) as H.
    destruct (Game.HandleHuntShoot (Some a) ms (game room)) as [result g1].
    eapply same_resources_nonneg; [apply close_or_advance_same_resources|exact H].
  - intros tactic. unfold Room.HandleRiderTactic.
    destruct (Room.turn_gate clientID room) as [?|c]; [done|].
    destruct (negb _); [done|]. destruct (ClientPlayer c) as [a|]; [|done].
    unfold Room.on_game.
    match goal with |- context [Game.HandleRiderTactic (Some a) ?t (game room)] =>
      pose proof (HandleRiderTactic_nonneg a t (game room)) as H;
      destruct (Game.HandleRiderTactic (Some a) t (game room)) as [result g1] end.
    eapply same_resources_nonneg; [apply close_or_advance_same_resources|exact H].
  - intros item qty. unfold Room.HandleFortBuy, Room.HandleFortSell.
    destruct (Room.turn_gate clientID room) as [?|c]; [done|]. unfold Room.on_game.
    pose proof (keeps_HandleFortBuy item qty (game room) Hnn) as Hb.
    pose proof (keeps_HandleFortSell item qty (game room) Hnn) as Hs.
    destruct (Game.HandleFortBuy item qty (game room)).
    by destruct (Game.HandleFortSell item qty (game room)).
  - by apply HandleFortEnter_nonneg.
  - unfold Room.HandleFortLeave.
    destruct (Room.turn_gate clientID room) as [?|c]; [done|].
    cbn [Room.on_game Game.HandleFortLeave snd].
    eapply same_resources_nonneg; [apply advance_same_resources|].
    cbn [game set_game]. destruct Hnn as (? & ? & ? & ? & ? & ?); by repeat split.
  - intros lootSiteID. unfold Room.HandleLootClaim.
    destruct (Room.turn_gate clientID room) as [?|c]; [done|].
    destruct (negb _); [done|].
    destruct (index_where _ _) as [i|]; [|done].
    destruct (LootSites (game room) !! i) as [site|]; [|done].
    destruct (_ || _); [done|]. destruct (IsLooted site); [done|].
    cbn [snd game set_game]. unfold Room.claim_site. apply ClampResources_nonneg.
Qed.

(** ** Requests out of turn *)

(** X12.  A request that needs the turn, made by a connected client who
    does not hold it (the turn is nobody's, or the id of the current
    player is not the id of the client), is answered "It's not your turn."
    and leaves the room exactly as it was; this covers the fort, the loot
    sites, the shot of a hunt and the answer to riders. *)
Theorem out_of_turn_requests (now : Z) (clientID : string) (room : GameRoom) (c : Client) :
  clients room !! clientID = Some c ->
  match Room.current room with
  | Some (_, cp) => ID cp <> ClientID c
  | None => True
  end ->
  (forall item qty,
     Room.HandleFortBuy clientID item qty room = (ln "It's not your turn.", room)
     /\ Room.HandleFortSell clientID item qty room = (ln "It's not your turn.", room))
  /\ Room.HandleFortEnter clientID room = (ln "It's not your turn.", room)
  /\ Room.HandleFortLeave now clientID room = (ln "It's not your turn.", room)
  /\ (forall lootSiteID,
        Room.HandleLootClaim now clientID lootSiteID room = (ln "It's not your turn.", room))
  /\ (forall reactionTimeMs,
        Room.HandleHuntShoot now clientID reactionTimeMs room
        = Room.mkReply (ln "It's not your turn.") room [])
  /\ (forall tactic,
        Room.HandleRiderTactic now clientID tactic room
        = Room.mkReply (ln "It's not your turn.") room []).
Proof.
  intros Hc Hturn.
  assert (Room.turn_gate clientID room = inl (ln "It's not your turn.")) as Hgate.
  { unfold Room.turn_gate. rewrite Hc.
    destruct (Room.current room) as [[a cp]|]; [|done].
    by destruct (String.eqb_spec (ID cp) (ClientID c)). }
  unfold Room.HandleFortBuy, Room.HandleFortSell, Room.HandleFortEnter,
    Room.HandleFortLeave, Room.HandleLootClaim, Room.HandleHuntShoot,
    Room.HandleRiderTactic.
  rewrite Hgate. by repeat split.
Qed.

(** ** Leaving a room *)

(** X13.  [KickClient] succeeds exactly when the requester owns the room,
    does not name itself and names a connected client.  A refused kick
    leaves the room as it was; a successful one removes the target, and
    only the target, from the clients and takes at most one player off the
    roster, without touching the store of players or the resources. *)
Theorem kick_client (now : Z) (requesterID targetID : string) (room : GameRoom) :
  ((Room.KickClient now requesterID targetID room).1 = true
   <-> ownerID room = requesterID /\ requesterID <> targetID
       /\ is_Some (clients room !! targetID))
  /\ ((Room.KickClient now requesterID targetID room).1 = false ->
      (Room.KickClient now requesterID targetID room).2 = room)
  /\ ((Room.KickClient now requesterID targetID room).1 = true ->
      clients (Room.KickClient now requesterID targetID room).2
      = delete targetID (clients room)
      /\ (length (Players (game room)) <=
          S (length (Players (game (Room.KickClient now requesterID targetID room).2))))%nat
      /\ Heap (game (Room.KickClient now requesterID targetID room).2) = Heap (game room)
      /\ same_resources (game room)
           (game (Room.KickClient now requesterID targetID room).2)).
Proof.
  unfold Room.KickClient.
  destruct (String.eqb_spec (ownerID room) requesterID) as [Ho|Ho]; cbn [negb];
    [|split; [split; [done|by intros (? & _)]|by split]].
  destruct (String.eqb_spec requesterID targetID) as [Hs|Hs];
    [split; [split; [done|by intros (_ & ? & _)]|by split]|].
  destruct (clients room !! targetID) as [c|] eqn:Hc;
    [|split; [split; [done|by intros (_ & _ & [? ?])]|by split]].
  cbn [fst snd]. split; [split; [by eauto|done]|]. split; [done|]. intros _.
  set (room1 := match index_where _ _ with Some i => _ | None => room end).
  assert (clients room1 = clients room
          /\ (length (Players (game room)) <= S (length (Players (game room1))))%nat
          /\ Heap (game room1) = Heap (game room)
          /\ same_resources (game room) (game room1)) as (HC & HL & HH & HR).
  { subst room1. destruct (index_where _ _) as [i|] eqn:Hi;
      [|split; [done|]; split; [lia|]; split; [done|apply same_resources_refl]].
    cbn [game set_game clients]. split; [done|]. unfold Room.drop_player.
    cbn [Players set_Players CurrentPlayerIdx].
    assert (length (Players (game room))
            <= S (length (delete i (Players (game room)))))%nat as Hlen.
    { destruct (index_where_lookup _ _ _ Hi) as (x & Hx & _).
      rewrite length_delete by eauto. lia. }
    destruct (_ && _); cbn [Players set_CurrentPlayerIdx set_Players Heap];
      by repeat split. }
  revert HC HL HH HR. generalize room1. clear room1. intros room1 HC HL HH HR.
  unfold Room.rearm_after_leave.
  destruct (_ && _ && _); cbn [clients set_clients game]; [|by rewrite HC].
  destruct (Room.current _) as [[a np]|]; [destruct (Alive np)|];
    cbn [Room.StartTurnTimer clients game set_game set_clients set_turnTimer
         set_turnDeadline Players Heap set_Phase];
    rewrite ?HC; by repeat split; try apply HR.
Qed.

(** X14.  A connection that closes ([RemoveClient]) takes the client out
    of the room and nothing else: the engine, with the player of that
    client, stays as it is, so the player can be found again by a later
    join.  If the owner left and somebody remains, the room is owned by
    one of those who remain. *)
Theorem remove_client (clientID : string) (room : GameRoom) :
  game (Room.RemoveClient clientID room) = game room
  /\ clients (Room.RemoveClient clientID room) = delete clientID (clients room)
  /\ status (Room.RemoveClient clientID room) = status room
  /\ deadPlayers (Room.RemoveClient clientID room) = deadPlayers room
  /\ (ownerID (Room.RemoveClient clientID room) = ownerID room
      \/ exists k next,
           clients (Room.RemoveClient clientID room) !! k = Some next
           /\ ownerID (Room.RemoveClient clientID room) = ClientID next)
  /\ (is_Some (clients room !! clientID) -> ownerID room = clientID ->
      delete clientID (clients room) <> ∅ ->
      exists k next,
        clients (Room.RemoveClient clientID room) !! k = Some next
        /\ ownerID (Room.RemoveClient clientID room) = ClientID next).
Proof.
  unfold Room.RemoveClient.
  destruct (clients room !! clientID) as [c|] eqn:Hc.
  - unfold Room.transfer_ownership. cbn [ownerID clients set_clients].
    destruct (String.eqb_spec (ownerID room) clientID) as [Ho|Ho].
    + destruct (map_to_list (delete clientID (clients room))) as [|[k next] rest] eqn:Hl.
      * apply map_to_list_empty_iff in Hl.
        split; [done|]. split; [done|]. split; [done|]. split; [done|].
        split; [by left|]. intros _ _ Hne. done.
      * assert (delete clientID (clients room) !! k = Some next) as Hk.
        { apply elem_of_map_to_list. rewrite Hl. by left. }
        cbn [game clients set_ownerID set_clients status deadPlayers ownerID].
        split; [done|]. split; [done|]. split; [done|]. split; [done|].
        split; [right|intros _ _ _]; by exists k, next.
    + cbn [game clients set_clients status deadPlayers ownerID].
      split; [done|]. split; [done|]. split; [done|]. split; [done|].
      split; [by left|]. intros _ Hown. done.
  - split; [done|]. split; [by rewrite delete_id|]. split; [done|]. split; [done|].
    split; [by left|]. by intros [? ?].
Qed.

(** ** Joining for the first time *)

(** The last step of [AddClient] only puts the turn index back in range. *)
Lemma AddClient_tail (r : GameRoom) :
  let r' := if bool_decide (GetCurrentPlayer (game r) = None)
               && (0 <? length (Players (game r)))%nat
            then set_game (set_CurrentPlayerIdx 0 (game r)) r else r in
  clients r' = clients r /\ status r' = status r
  /\ Players (game r') = Players (game r) /\ Heap (game r') = Heap (game r)
  /\ same_resources (game r) (game r').
Proof. cbv zeta. destruct (_ && _); by repeat split. Qed.

(** X15.  A join by a client whose id and name match no player of the
    roster, in a continuous room or a room that is still waiting, adds
    exactly one player, last in the roster: a living human with the id and
    the name of the client and a party of five; the client is bound to it;
    the players of the roster are what they were.  The first client of a
    continuous room at turn 0 starts the journey with the initial stock;
    otherwise the status and the resources do not change. *)
Theorem first_join (now : Z) (c : Client) (roomID : string) (room : GameRoom) :
  roster_allocated (game room) ->
  Room.find_existing c (game room) = None ->
  roomType room = RoomTypeContinuous \/ status room = StatusWaiting ->
  let a := length (Heap (game room)) in
  let room' := Room.AddClient now c roomID room in
  Players (game room') = (Players (game room) ++ [a])%list
  /\ deref a (game room')
     = mkPlayer (ClientID c) (ClientName c) PlayerTypeHuman newParty true 3 true
  /\ clients room'
     = <[ClientID c := mkClient (ClientID c) (ClientName c) (Some a) (ClientSessionID c)
                         roomID]> (clients room)
  /\ (forall b, b ∈ Players (game room) -> deref b (game room') = deref b (game room))
  /\ (roomType room = RoomTypeContinuous -> TurnNumber (game room) = 0%Z ->
      size (clients room') = 1%nat ->
      status room' = StatusPlaying
      /\ Food (game room') = 100%Q /\ Bullets (game room') = 50%Q
      /\ Clothing (game room') = 20%Q /\ MiscSupplies (game room') = 10%Q
      /\ Cash (game room') = 700%Q /\ OxenCost (game room') = 220%Q)
  /\ (roomType room <> RoomTypeContinuous \/ TurnNumber (game room) <> 0%Z
      \/ size (clients room') <> 1%nat ->
      status room' = status room /\ same_resources (game room) (game room')).
Proof.
  intros Hall Hfind Hopen a room'. subst a room'.
  unfold roster_allocated in Hall. rewrite forallb_forall in Hall.
  assert (forall b, b ∈ Players (game room) -> (b < length (Heap (game room)))%nat) as Hlt.
  { intros b Hin. by apply Nat.ltb_lt, Hall, list_elem_of_In. }
  unfold Room.AddClient. cbn [roomType status set_clients set_ClientRoomID].
  assert (RoomType_eqb (roomType room) RoomTypeScheduled
          && negb (GameStatus_eqb (status room) StatusWaiting) = false) as ->.
  { destruct Hopen as [-> | ->]; [done|]. apply andb_false_r. }
  change (Room.find_existing _ (game (set_clients _ room)))
    with (Room.find_existing c (game room)). rewrite Hfind.
  unfold AddPlayer. cbn [game set_clients fst snd].
  set (g1 := store _ _ _).
  assert (Players g1 = (Players (game room) ++ [length (Heap (game room))])%list) as HP
    by done.
  assert (deref (length (Heap (game room))) g1
          = mkPlayer (ClientID c) (ClientName c) PlayerTypeHuman newParty true 3 true) as HD.
  { subst g1. unfold store, deref. cbn [Heap set_Heap set_Players ClientID ClientName].
    rewrite list_lookup_insert_eq by (rewrite length_app; cbn; lia).
    cbn. rewrite lookup_app_r by done. by rewrite Nat.sub_diag. }
  assert (forall b, b ∈ Players (game room) -> deref b g1 = deref b (game room)) as HB.
  { intros b Hin. apply Hlt in Hin. subst g1. unfold store, deref.
    cbn [Heap set_Heap set_Players].
    rewrite list_lookup_insert_ne by lia. by rewrite lookup_app_l. }
  assert (same_resources (game room) g1 /\ TurnNumber g1 = TurnNumber (game room))
    as [HR HT] by (by repeat split).
  revert HP HD HB HR HT. generalize g1. clear g1. intros g1 HP HD HB HR HT.
  cbn [roomType set_game set_clients game clients ClientID ClientName ClientSessionID
       set_ClientPlayer set_ClientRoomID].
  rewrite HT, insert_insert_eq.
  set (cs := <[ClientID c := _]> (clients room)).
  match goal with |- context [set_clients cs ?r0] => set (r1 := set_clients cs r0) end.
  assert (clients r1 = cs /\ status r1 = status room /\ game r1 = g1) as (Hc1 & Hs1 & Hg1)
    by done.
  set (r2 := if RoomType_eqb _ _ && _ && _ then _ else r1).
  assert (clients r2 = cs /\ Players (game r2) = Players g1 /\ Heap (game r2) = Heap g1)
    as (Hc2 & Hp2 & Hh2).
  { subst r2. by destruct (_ && _ && _). }
  assert ((roomType room = RoomTypeContinuous -> TurnNumber (game room) = 0%Z ->
           size cs = 1%nat ->
           status r2 = StatusPlaying
           /\ Food (game r2) = 100%Q /\ Bullets (game r2) = 50%Q
           /\ Clothing (game r2) = 20%Q /\ MiscSupplies (game r2) = 10%Q
           /\ Cash (game r2) = 700%Q /\ OxenCost (game r2) = 220%Q)
          /\ (roomType room <> RoomTypeContinuous \/ TurnNumber (game room) <> 0%Z
              \/ size cs <> 1%nat ->
              status r2 = status room /\ same_resources (game room) (game r2))) as [Hauto Hnot].
  { subst r2. split.
    - intros -> -> ->. cbn [RoomType_eqb andb Z.eqb Nat.eqb]. by repeat split.
    - intros Hcase.
      assert (RoomType_eqb (roomType room) RoomTypeContinuous
              && (TurnNumber (game room) =? 0)%Z && (size cs =? 1)%nat = false) as ->.
      { destruct Hcase as [H|[H|H]].
        - destruct (roomType room); done.
        - apply Z.eqb_neq in H. rewrite H. by rewrite andb_false_r.
        - apply Nat.eqb_neq in H. rewrite H. by rewrite andb_false_r. }
      rewrite Hs1, Hg1. by split. }
  revert Hc2 Hp2 Hh2 Hauto Hnot. generalize r2. clear r2 r1 Hc1 Hs1 Hg1.
  intros r2 Hc2 Hp2 Hh2 Hauto Hnot.
  destruct (AddClient_tail r2) as (Hc3 & Hs3 & Hp3 & Hh3 & Hr3). cbv zeta in *.
  revert Hc3 Hs3 Hp3 Hh3 Hr3.
  generalize (if bool_decide (GetCurrentPlayer (game r2) = None)
                 && (0 <? length (Players (game r2)))%nat
              then set_game (set_CurrentPlayerIdx 0 (game r2)) r2 else r2).
  intros r3 Hc3 Hs3 Hp3 Hh3 Hr3.
  assert (forall b, deref b (game r3) = deref b g1) as Hderef
    by (intros b; unfold deref; by rewrite Hh3, Hh2).
  split; [by rewrite Hp3, Hp2|]. split; [by rewrite Hderef|].
  split; [by rewrite Hc3, Hc2|]. split; [intros b Hin; rewrite Hderef; by apply HB|].
  rewrite Hc3, Hc2, Hs3.
  destruct Hr3 as (E1 & E2 & E3 & E4 & E5 & E6 & E7).
  split.
  - intros H1 H2 H3. destruct (Hauto H1 H2 H3) as (? & ? & ? & ? & ? & ? & ?).
    rewrite E1, E2, E3, E4, E5, E7. by repeat split.
  - intros Hcase. destruct (Hnot Hcase) as [? Hres]. split; [done|].
    eapply same_resources_trans; [exact Hres|]. by repeat split.
Qed.

(** ** The dead who leave *)

Lemma rearm_after_leave_deadPlayers now b room :
  deadPlayers (Room.rearm_after_leave now b room) = deadPlayers room
  /\ maxPlayers (Room.rearm_after_leave now b room) = maxPlayers room.
Proof.
  unfold Room.rearm_after_leave. destruct (_ && _ && _); [|done].
  destruct (Room.current _) as [[a np]|]; [by destruct (Alive np)|done].
Qed.

Lemma transfer_ownership_deadPlayers leaving room :
  deadPlayers (Room.transfer_ownership leaving room) = deadPlayers room
  /\ maxPlayers (Room.transfer_ownership leaving room) = maxPlayers room.
Proof.
  unfold Room.transfer_ownership. destruct (String.eqb _ _); [|done].
  by destruct (map_to_list _) as [|[k next] rest].
Qed.

(** X16.  A player whose party has perished and who logs out of a room in
    play loses the seat: the room counts one player less (when it counted
    any).  In a party room the name is banned from then on; in a
    continuous room nobody is banned. *)
Theorem dead_player_logs_out (now : Z) (clientID : string) (room : GameRoom) (c : Client)
    (i : nat) (a : ptr) :
  clients room !! clientID = Some c ->
  index_where (fun a => String.eqb (ID (deref a (game room))) clientID)
    (Players (game room)) = Some i ->
  Players (game room) !! i = Some a ->
  Alive (deref a (game room)) = false ->
  status room = StatusPlaying ->
  maxPlayers (Room.LogoutClient now clientID room)
  = (if (0 <? maxPlayers room)%Z then wrap64 (maxPlayers room - 1) else maxPlayers room)
  /\ (roomType room = RoomTypeScheduled ->
      deadPlayers (Room.LogoutClient now clientID room)
      = <[ClientName c := true]> (deadPlayers room))
  /\ (roomType room = RoomTypeContinuous ->
      deadPlayers (Room.LogoutClient now clientID room) = deadPlayers room).
Proof.
  intros Hc Hi Ha Hdead Hst.
  assert (maxPlayers (Room.LogoutClient now clientID room)
          = (if (0 <? maxPlayers room)%Z then wrap64 (maxPlayers room - 1)
             else maxPlayers room)
          /\ deadPlayers (Room.LogoutClient now clientID room)
             = (if negb (RoomType_eqb (roomType room) RoomTypeContinuous)
                then <[ClientName c := true]> (deadPlayers room) else deadPlayers room))
    as [Hmax Hban].
  { unfold Room.LogoutClient. rewrite Hc, Hi. cbv zeta.
    change (@lookup nat nat (list ptr) (@list_lookup ptr) i (Players (game room)) = Some a)
      in Ha.
    rewrite Ha. unfold from_option, Datatypes.id.
    rewrite Hdead, Hst.
    cbn [negb GameStatus_eqb andb].
    match goal with |- context [Room.rearm_after_leave now ?w ?r] =>
      destruct (rearm_after_leave_deadPlayers now w r) as [-> ->] end.
    match goal with |- context [Room.transfer_ownership clientID ?r] =>
      destruct (transfer_ownership_deadPlayers clientID r) as [-> ->] end.
    cbn [maxPlayers deadPlayers set_clients set_game].
    destruct (0 <? maxPlayers room)%Z;
      cbn [roomType set_maxPlayers]; destruct (RoomType_eqb (roomType room) _); by split. }
  split; [exact Hmax|]. split.
  - intros Hrt. by rewrite Hban, Hrt.
  - intros Hrt. by rewrite Hban, Hrt.
Qed.

(** ** Starting over *)







(** ** The decay of the wagons left behind *)

Lemma decay_le (x f : Q) : (0 <= x)%Q -> (0 <= f)%Q -> (f <= 1)%Q ->
  (0 <= x * f)%Q /\ (x * f <= x)%Q.
Proof. intros Hx Hf0 Hf1. split; nra. Qed.

Lemma deteriorate_spec (site : LootSite) :
  SiteID (Room.deteriorate site) = SiteID site
  /\ SiteMileage (Room.deteriorate site) = SiteMileage site
  /\ PlayerName (Room.deteriorate site) = PlayerName site
  /\ SiteCash (Room.deteriorate site) = SiteCash site
  /\ IsLooted (Room.deteriorate site) = IsLooted site
  /\ (IsLooted site = true -> Room.deteriorate site = site)
  /\ (IsLooted site = false ->
      ((0 <= SiteFood site)%Q ->
       (0 <= SiteFood (Room.deteriorate site) <= SiteFood site)%Q)
      /\ ((0 <= SiteBullets site)%Q ->
          (0 <= SiteBullets (Room.deteriorate site) <= SiteBullets site)%Q)
      /\ ((0 <= SiteClothing site)%Q ->
          (0 <= SiteClothing (Room.deteriorate site) <= SiteClothing site)%Q)
      /\ ((0 <= SiteMiscSupplies site)%Q ->
          (0 <= SiteMiscSupplies (Room.deteriorate site) <= SiteMiscSupplies site)%Q)
      /\ ((0 <= SiteOxenCost site)%Q ->
          (0 <= SiteOxenCost (Room.deteriorate site) <= SiteOxenCost site)%Q)).
Proof.
  unfold Room.deteriorate. destruct (IsLooted site) eqn:Hl.
  - do 6 (split; [done|]). intros H. discriminate H.
  - cbn. do 5 (split; [done|]). split; [intros H; discriminate H|]. intros _.
    do 4 (split; [intros H; apply decay_le; done|]). intros H. apply decay_le; done.
Qed.

(** X18.  The daily decay of the loot sites.  It touches the rooms of the
    directory one by one and removes none; a party room is left as it
    was.  In a continuous room only the loot sites change: there are as
    many as before, in the same order, with the same identifier, place,
    owner and cash; a site that was looted is left as it was, and the
    food, bullets, clothing, supplies and oxen of a site that was not are
    not more than before and not negative (when they were not). *)
Theorem loot_sites_decay (s : Server) (id : string) (room : GameRoom) :
  rooms s !! id = Some room ->
  exists room',
    rooms (deteriorateLootSites s) !! id = Some room'
    /\ (roomType room = RoomTypeScheduled -> room' = room)
    /\ room' = set_game (set_LootSites (LootSites (game room')) (game room)) room
    /\ length (LootSites (game room')) = length (LootSites (game room))
    /\ (forall i site, LootSites (game room) !! i = Some site ->
          exists site',
            LootSites (game room') !! i = Some site'
            /\ SiteID site' = SiteID site
            /\ SiteMileage site' = SiteMileage site
            /\ PlayerName site' = PlayerName site
            /\ SiteCash site' = SiteCash site
            /\ IsLooted site' = IsLooted site
            /\ (IsLooted site = true -> site' = site)
            /\ ((0 <= SiteFood site)%Q -> (0 <= SiteFood site' <= SiteFood site)%Q)
            /\ ((0 <= SiteBullets site)%Q ->
                (0 <= SiteBullets site' <= SiteBullets site)%Q)
            /\ ((0 <= SiteClothing site)%Q ->
                (0 <= SiteClothing site' <= SiteClothing site)%Q)
            /\ ((0 <= SiteMiscSupplies site)%Q ->
                (0 <= SiteMiscSupplies site' <= SiteMiscSupplies site)%Q)
            /\ ((0 <= SiteOxenCost site)%Q ->
                (0 <= SiteOxenCost site' <= SiteOxenCost site)%Q)).
Proof.
  intros Hroom. exists (Room.deteriorateLootSites room).
  split. { unfold deteriorateLootSites. cbn [rooms set_rooms]. by rewrite lookup_fmap, Hroom. }
  unfold Room.deteriorateLootSites.
  destruct (roomType room) eqn:Hrt; cbn [RoomType_eqb negb].
  - split; [intros H; discriminate H|]. cbn [game set_game LootSites set_LootSites].
    split; [done|]. split; [by rewrite length_fmap|].
    intros i site Hs. exists (Room.deteriorate site).
    split; [by rewrite list_lookup_fmap, Hs|].
    destruct (deteriorate_spec site) as (H1 & H2 & H3 & H4 & H5 & H6 & H7).
    do 5 (split; [done|]). split; [exact H6|].
    destruct (IsLooted site) eqn:Hl.
    + rewrite (H6 eq_refl).
      do 4 (split; [intros H; split; [exact H|apply Qle_refl]|]).
      intros H; split; [exact H|apply Qle_refl].
    + exact (H7 eq_refl).
  - split; [done|]. split; [by destruct room as [? ? ? ? ? ? ? ? []]|]. split; [done|].
    intros i site Hs. exists site. do 7 (split; [done|]).
    do 4 (split; [intros H; split; [exact H|apply Qle_refl]|]).
    intros H; split; [exact H|apply Qle_refl].
Qed.

(** ** Passing the turn in a room *)

(** X19.  Passing the turn in a room ([advanceTurnAndCheckFort]).  When no
    living human is left the engine is marked as finished and the timer
    is left as it was.  Otherwise, on an engine that is not finished, the
    turn goes to a living human, for whom the timer is armed with twenty
    seconds; the trading post opens exactly when the new turn number is a
    positive multiple of three, which is what the function reports, and
    it is never closed here. *)
Theorem passing_the_turn (now : Z) (room : GameRoom) :
  (GetHumanPlayers (game room) = [] ->
   Room.advanceTurnAndCheckFort now room
   = (false, set_game (set_GameOver true (game room)) room))
  /\ (GetHumanPlayers (game room) <> [] -> GameOver (game room) = false ->
      exists a,
        GetCurrentPlayer (game (Room.advanceTurnAndCheckFort now room).2) = Some a
        /\ is_alive_human (game (Room.advanceTurnAndCheckFort now room).2) a = true
        /\ turnTimer (Room.advanceTurnAndCheckFort now room).2
           = Some (ID (deref a (game (Room.advanceTurnAndCheckFort now room).2)))
        /\ turnDeadline (Room.advanceTurnAndCheckFort now room).2
           = Some (now + 20 * second)%Z
        /\ (Room.advanceTurnAndCheckFort now room).1
           = (0 <? wrap64 (TurnNumber (game room) + 1))%Z
             && (Z.rem (wrap64 (TurnNumber (game room) + 1)) 3 =? 0)%Z
        /\ TurnNumber (game (Room.advanceTurnAndCheckFort now room).2)
           = wrap64 (TurnNumber (game room) + 1)
        /\ FortAvailable (game (Room.advanceTurnAndCheckFort now room).2)
           = (Room.advanceTurnAndCheckFort now room).1 || FortAvailable (game room)
        /\ GameOver (game (Room.advanceTurnAndCheckFort now room).2) = false).
Proof.
  split.
  - intros Hnone. unfold Room.advanceTurnAndCheckFort, Room.current.
    assert (NextTurn (game room) = set_GameOver true (game room)) as ->
      by (unfold NextTurn; by rewrite Hnone).
    cbn [game set_game GameOver set_GameOver].
    destruct (GetCurrentPlayer _) as [a|]; cbn [fmap option_fmap option_map]; [|done].
    by rewrite orb_true_r.
  - intros Hsome Hover.
    destruct (NextTurn_state (game room) Hsome) as [idx Hstate].
    destruct (NextTurn_turn_holder (game room)) as [Hfin|(a & Hcur & Halive)].
    { rewrite Hstate in Hfin. destruct (_ =? _)%Z; cbn in Hfin; congruence. }
    assert (TurnNumber (NextTurn (game room)) = wrap64 (TurnNumber (game room) + 1)
            /\ FortAvailable (NextTurn (game room)) = FortAvailable (game room)
            /\ GameOver (NextTurn (game room)) = false) as (HT & HFo & HG).
    { rewrite Hstate. destruct (_ =? _)%Z; cbn; by rewrite Hover. }
    clear Hstate. exists a. unfold Room.advanceTurnAndCheckFort, Room.current.
    cbn [game set_game]. revert Hcur Halive HT HFo HG.
    generalize (NextTurn (game room)). intros g Hcur Halive HT HFo HG.
    rewrite Hcur. cbn [fmap option_fmap option_map].
    pose proof Halive as Ha. unfold is_alive_human in Ha.
    apply andb_prop in Ha as [_ Ha]. rewrite Ha, HG. cbn [negb orb].
    rewrite HT. unfold fortInterval.
    destruct ((0 <? wrap64 (TurnNumber (game room) + 1))%Z
              && (Z.rem (wrap64 (TurnNumber (game room) + 1)) 3 =? 0)%Z);
      cbn [fst snd game set_game Room.StartTurnTimer set_turnTimer set_turnDeadline
           turnTimer turnDeadline orb].
    + repeat split; try done.
    + repeat split; try done.
Qed.

(** ** The turn that runs out of time *)




(** ** The directory of rooms *)

Lemma AddClient_scheduled now c roomID room :
  roomType room = RoomTypeScheduled ->
  status (Room.AddClient now c roomID room) = status room
  /\ createdAt (Room.AddClient now c roomID room) = createdAt room
  /\ is_Some (clients (Room.AddClient now c roomID room) !! ClientID c).
Proof.
  intros Hrt. unfold Room.AddClient.
  cbn [roomType status set_clients set_ClientRoomID ClientID]. rewrite Hrt.
  cbn [RoomType_eqb andb].
  destruct (negb (GameStatus_eqb (status room) StatusWaiting)).
  { cbn [status createdAt clients set_clients]. rewrite lookup_insert_eq.
    split; [done|]. split; [done|]. by eexists. }
  cbn [game set_clients].
  destruct (Room.find_existing _ (game room)) as [a|].
  - match goal with |- context [if ?b then _ else _] => destruct b end;
      cbn [status createdAt clients set_clients set_game ClientID set_ClientPlayer
           set_ClientRoomID];
      rewrite lookup_insert_eq; (split; [done|]); (split; [done|]); by eexists.
  - cbn [AddPlayer roomType set_clients set_game]. rewrite Hrt.
    cbn [RoomType_eqb andb].
    match goal with |- context [if ?b then _ else _] => destruct b end;
      cbn [status createdAt clients set_clients set_game ClientID set_ClientPlayer
           set_ClientRoomID];
      rewrite lookup_insert_eq; (split; [done|]); (split; [done|]); by eexists.
Qed.

(** X21.  A room that is created is entered in the directory under the
    identifier chosen for it, which no room had: the other rooms stay, and
    the new one is a party room that waits, owned by its creator, with the
    password and the size asked for, without clients and without bans.  As
    long as nobody has joined, the next sweep removes it; once somebody
    has joined, a sweep run within twenty-four hours of the creation keeps
    it. *)
Theorem create_room (now : Z) (rnd : RandSrc) (id name password ownerID : string)
    (maxPlayers : Z) (s : Server) :
  rooms s !! id = None ->
  rooms s !! "continuous" <> None ->
  GetRoom id (CreateRoom now rnd id name password ownerID maxPlayers s).2
  = Some (CreateRoom now rnd id name password ownerID maxPlayers s).1
  /\ (forall other, other <> id ->
        GetRoom other (CreateRoom now rnd id name password ownerID maxPlayers s).2
        = GetRoom other s)
  /\ size (rooms (CreateRoom now rnd id name password ownerID maxPlayers s).2)
     = S (size (rooms s))
  /\ (CreateRoom now rnd id name password ownerID maxPlayers s).1
     = mkGameRoom id name RoomTypeScheduled StatusWaiting password ownerID maxPlayers now
         (NewGameState rnd) ∅ ∅ None None
  /\ (forall who,
        IsPlayerBanned id who (CreateRoom now rnd id name password ownerID maxPlayers s).2
        = false)
  /\ (forall later,
        GetRoom id
          (CleanupStaleRooms later
             (CreateRoom now rnd id name password ownerID maxPlayers s).2)
        = None)
  /\ (forall later joined c,
        (later - now <= 24 * hour)%Z ->
        is_Some
          (GetRoom id
             (CleanupStaleRooms later
                (AddClient joined c id
                   (CreateRoom now rnd id name password ownerID maxPlayers s).2)))).
Proof.
  intros Hfresh Hperm.
  assert (id <> "continuous") as Hid by (intros ->; done).
  assert (String.eqb id "continuous" = false) as Hidb by by apply String.eqb_neq.
  unfold CreateRoom, GetRoom, IsPlayerBanned, GetRoom. cbn [fst snd rooms set_rooms].
  split; [by rewrite lookup_insert_eq|].
  split; [by intros other Hne; rewrite lookup_insert_ne|].
  split; [by rewrite map_size_insert_None|].
  split; [done|].
  split; [intros who; by rewrite lookup_insert_eq|].
  split.
  - intros later. unfold CleanupStaleRooms. cbn [rooms set_rooms].
    rewrite sweep_lookup, existsb_keyed, lookup_insert_eq.
    unfold swept. rewrite Hidb. done.
  - intros later joined c Hlater. unfold AddClient, GetRoom. cbn [rooms set_rooms].
    rewrite lookup_insert_eq.
    match goal with |- context [Room.AddClient joined c id ?r] =>
      destruct (AddClient_scheduled joined c id r eq_refl) as (Hst & Hcr & Hcl);
      revert Hst Hcr Hcl; generalize (Room.AddClient joined c id r) end.
    intros r' Hst Hcr Hcl. cbn in Hst, Hcr.
    assert (forall s', rooms s' !! id = Some r' ->
              is_Some (rooms (CleanupStaleRooms later s') !! id)) as Hkeep.
    { intros s' Hs'. unfold CleanupStaleRooms. cbn [rooms set_rooms].
      rewrite sweep_lookup, existsb_keyed, Hs'. unfold swept.
      rewrite Hst, Hcr. cbn [GameStatus_eqb andb orb].
      assert ((24 * hour <? later - now)%Z = false) as -> by (apply Z.ltb_ge; lia).
      destruct Hcl as [cl Hcl].
      assert (size (clients r') <> 0%nat) as Hsz.
      { intros Hz. apply map_size_empty_iff in Hz. rewrite Hz in Hcl. done. }
      apply Nat.eqb_neq in Hsz. rewrite Hsz. rewrite andb_false_r. by eexists. }
    destruct (negb _); apply Hkeep; cbn [rooms set_rooms set_sessionManager];
      by rewrite lookup_insert_eq.
Qed.

(** X22.  [FindRoomForClient] answers with a room of the directory that
    holds the client, and finds one exactly when some room of the
    directory holds the client. *)
Theorem find_room_for_client (clientID : string) (s : Server) :
  (forall room, FindRoomForClient clientID s = Some room ->
     is_Some (clients room !! clientID) /\ exists id, rooms s !! id = Some room)
  /\ (FindRoomForClient clientID s = None
      <-> forall id room, rooms s !! id = Some room -> clients room !! clientID = None).
Proof.
  unfold FindRoomForClient. split.
  - intros room Hfind.
    destruct (List.find _ _) as [[id r]|] eqn:E; [|done]. injection Hfind as <-.
    apply find_some in E as [Hin Hc]. cbn in Hc. apply bool_decide_eq_true_1 in Hc.
    split; [done|]. exists id. by apply elem_of_map_to_list, list_elem_of_In.
  - split.
    + intros Hnone id room Hroom.
      destruct (List.find _ _) as [[id' r]|] eqn:E; [done|].
      pose proof (find_none _ _ E (id, room)) as Hnot. cbn in Hnot.
      destruct (clients room !! clientID) eqn:Hc; [|done].
      rewrite bool_decide_eq_true_2 in Hnot by by eexists.
      discriminate Hnot. by apply list_elem_of_In, elem_of_map_to_list.
    + intros Hall. destruct (List.find _ _) as [[id r]|] eqn:E; [|done].
      apply find_some in E as [Hin Hc]. cbn in Hc. apply bool_decide_eq_true_1 in Hc.
      apply list_elem_of_In, elem_of_map_to_list in Hin.
      rewrite (Hall id r Hin) in Hc. by destruct Hc.
Qed.

(** ** Sessions *)

Lemma find_session_some test (sm : SessionManager) s :
  Sessions.find_session test sm = Some s ->
  test s = true /\ exists k, sm !! k = Some s.
Proof.
  unfold Sessions.find_session. intros Hfind.
  destruct (List.find _ _) as [[k s']|] eqn:E; [|done]. injection Hfind as <-.
  apply find_some in E as [Hin Ht]. split; [done|]. exists k.
  by apply elem_of_map_to_list, list_elem_of_In.
Qed.

Lemma well_keyed_insert (sm : SessionManager) k s :
  well_keyed sm -> SessID s = k -> well_keyed (<[k := s]> sm).
Proof.
  intros Hwk Hk k' s' Hs'. destruct (decide (k' = k)) as [->|Hne].
  - rewrite lookup_insert_eq in Hs'. by injection Hs' as <-.
  - rewrite lookup_insert_ne in Hs' by done. by apply Hwk.
Qed.

(** X24.  Opening a session and closing it.  In a table where every
    session is stored under its identifier, [CreateSession] returns an
    identifier under which a live session is found afterwards, bound to
    the client and the room given and seen at the time of the call; the
    sessions stored under other identifiers are untouched and the table
    is still keyed by identifier.  Invalidating that session hides it from
    [GetSessionByID], though [GetSession] still returns it, dead. *)
Theorem session_round_trip (now : Z) (fresh name clientID roomID : string)
    (sm : SessionManager) :
  well_keyed sm ->
  exists s,
    Sessions.GetSessionByID (Sessions.CreateSession now fresh name clientID roomID sm).1
      (Sessions.CreateSession now fresh name clientID roomID sm).2 = Some s
    /\ SessID s = (Sessions.CreateSession now fresh name clientID roomID sm).1
    /\ SessClientID s = clientID /\ SessRoomID s = roomID
    /\ LastSeen s = now /\ SessAlive s = true
    /\ (forall k, k <> (Sessions.CreateSession now fresh name clientID roomID sm).1 ->
          (Sessions.CreateSession now fresh name clientID roomID sm).2 !! k = sm !! k)
    /\ well_keyed (Sessions.CreateSession now fresh name clientID roomID sm).2
    /\ Sessions.GetSessionByID (Sessions.CreateSession now fresh name clientID roomID sm).1
         (Sessions.InvalidateSession
            (Sessions.CreateSession now fresh name clientID roomID sm).1
            (Sessions.CreateSession now fresh name clientID roomID sm).2) = None
    /\ Sessions.GetSession (Sessions.CreateSession now fresh name clientID roomID sm).1
         (Sessions.InvalidateSession
            (Sessions.CreateSession now fresh name clientID roomID sm).1
            (Sessions.CreateSession now fresh name clientID roomID sm).2)
       = Some (mkSession (SessID s) (SessName s) (SessClientID s) (SessRoomID s)
                 (CreatedAt s) (LastSeen s) false).
Proof.
  intros Hwk.
  assert (forall k s (sm0 : SessionManager), SessAlive s = true ->
            Sessions.GetSessionByID k (<[k := s]> sm0) = Some s
            /\ Sessions.GetSessionByID k (Sessions.InvalidateSession k (<[k := s]> sm0))
               = None
            /\ Sessions.GetSession k (Sessions.InvalidateSession k (<[k := s]> sm0))
               = Some (mkSession (SessID s) (SessName s) (SessClientID s) (SessRoomID s)
                         (CreatedAt s) (LastSeen s) false)) as Hput.
  { intros k s sm0 Hal.
    unfold Sessions.GetSessionByID, Sessions.InvalidateSession, Sessions.GetSession.
    repeat (rewrite lookup_insert_eq; cbv beta iota). rewrite Hal.
    cbn [SessAlive]. done. }
  unfold Sessions.CreateSession.
  destruct (Sessions.find_session (fun s => String.eqb (SessClientID s) clientID) sm)
    as [s|] eqn:E1.
  - apply find_session_some in E1 as [Ht [k Hk]]. apply String.eqb_eq in Ht.
    cbn [fst snd]. eexists. destruct (Hput (SessID s)
      (mkSession (SessID s) (SessName s) (SessClientID s) roomID (CreatedAt s) now true)
      sm eq_refl) as (H1 & H2 & H3).
    split; [exact H1|]. cbn [SessID SessClientID SessRoomID LastSeen SessAlive].
    do 5 (split; [done|]). split; [by intros k' Hne; rewrite lookup_insert_ne|].
    split; [by apply well_keyed_insert|]. split; [exact H2|exact H3].
  - destruct (Sessions.find_session
                (fun s => String.eqb (SessName s) name && SessAlive s) sm) as [s|] eqn:E2.
    + apply find_session_some in E2 as [Ht [k Hk]].
      cbn [fst snd]. eexists. destruct (Hput (SessID s)
        (mkSession (SessID s) (SessName s) clientID roomID (CreatedAt s) now true)
        sm eq_refl) as (H1 & H2 & H3).
      split; [exact H1|]. cbn [SessID SessClientID SessRoomID LastSeen SessAlive].
      do 5 (split; [done|]). split; [by intros k' Hne; rewrite lookup_insert_ne|].
      split; [by apply well_keyed_insert|]. split; [exact H2|exact H3].
    + cbn [fst snd]. eexists. destruct (Hput fresh
        (mkSession fresh name clientID roomID now now true) sm eq_refl) as (H1 & H2 & H3).
      split; [exact H1|]. cbn [SessID SessClientID SessRoomID LastSeen SessAlive].
      do 5 (split; [done|]). split; [by intros k' Hne; rewrite lookup_insert_ne|].
      split; [by apply well_keyed_insert|]. split; [exact H2|exact H3].
Qed.

(** X25.  When a client is removed from the session table no live session
    is left with its client id, and the sessions of the other clients are
    what they were: a session is found alive afterwards exactly when it
    was alive and belongs to another client. *)
Theorem sessions_of_a_removed_client (clientID : string) (sm : SessionManager) :
  (forall s, s ∈ Sessions.GetActiveSessions (Sessions.RemoveClient clientID sm) ->
     SessClientID s <> clientID)
  /\ (forall k s,
        Sessions.GetSessionByID k (Sessions.RemoveClient clientID sm) = Some s
        <-> Sessions.GetSessionByID k sm = Some s /\ SessClientID s <> clientID)
  /\ (forall k, is_Some (Sessions.GetSession k (Sessions.RemoveClient clientID sm))
                <-> is_Some (Sessions.GetSession k sm)).
Proof.
  assert (forall k s,
            Sessions.GetSessionByID k (Sessions.RemoveClient clientID sm) = Some s
            <-> Sessions.GetSessionByID k sm = Some s /\ SessClientID s <> clientID) as Hby.
  { intros k s. unfold Sessions.GetSessionByID, Sessions.RemoveClient.
    rewrite lookup_fmap. destruct (sm !! k) as [s0|]; cbn [fmap option_fmap option_map];
      [|split; [done|by intros [? _]]].
    destruct (String.eqb (SessClientID s0) clientID) eqn:Hc.
    - cbn [SessAlive]. apply String.eqb_eq in Hc. split; [done|].
      intros [Hs Hne]. destruct (SessAlive s0); [|done]. injection Hs as <-. done.
    - apply String.eqb_neq in Hc. destruct (SessAlive s0); [|split; [done|by intros [? _]]].
      split; [intros [= <-]; done|by intros [? _]]. }
  split; [|split; [exact Hby|]].
  - intros s Hin. unfold Sessions.GetActiveSessions in Hin.
    apply list_elem_of_In, filter_In in Hin as [Hin Hal].
    apply list_elem_of_In, list_elem_of_fmap in Hin as [[k s'] [-> Hin]].
    apply elem_of_map_to_list in Hin. cbn [snd] in *.
    assert (Sessions.GetSessionByID k (Sessions.RemoveClient clientID sm) = Some s') as H
      by (unfold Sessions.GetSessionByID; by rewrite Hin, Hal).
    by apply Hby in H as [_ H].
  - intros k. unfold Sessions.GetSession, Sessions.RemoveClient.
    rewrite lookup_fmap. by rewrite fmap_is_Some.
Qed.

(** ** The leaderboard *)

Lemma keep_top_spec es continuous party :
  Leaderboard.keep_top es continuous party
  = ((continuous
      ++ take (500 - length continuous) (List.filter (fun e => negb (for_party e)) es))%list,
     (party ++ take (500 - length party) (List.filter for_party es))%list).
Proof.
  revert continuous party. induction es as [|e es IH]; intros c p.
  { cbn. by rewrite !take_nil, !app_nil_r. }
  cbn [Leaderboard.keep_top List.filter]. fold (for_party e).
  destruct (for_party e) eqn:He; cbn [andb negb].
  - destruct (Nat.ltb_spec (length p) 500) as [Hlt|Hge].
    + rewrite IH, length_app. cbn [length]. f_equal.
      replace (500 - length p)%nat with (S (500 - (length p + 1)))%nat by lia.
      cbn [take]. by rewrite <- app_assoc.
    + rewrite IH. f_equal.
      replace (500 - length p)%nat with 0%nat by lia. by rewrite !take_0.
  - destruct (Nat.ltb_spec (length c) 500) as [Hlt|Hge].
    + rewrite IH, length_app. cbn [length]. f_equal.
      replace (500 - length c)%nat with (S (500 - (length c + 1)))%nat by lia.
      cbn [take]. by rewrite <- app_assoc.
    + rewrite IH. f_equal.
      replace (500 - length c)%nat with 0%nat by lia. by rewrite !take_0.
Qed.

Lemma filter_split (f : LeaderboardEntry -> bool) l :
  (List.filter (fun e => negb (f e)) l ++ List.filter f l)%list ≡ₚ l.
Proof.
  induction l as [|e l IH]; [done|]. cbn [List.filter].
  destruct (f e); cbn [negb app].
  - rewrite <- Permutation_middle. by constructor.
  - by constructor.
Qed.

Lemma less_asymmetric a b : Leaderboard.less a b = true -> Leaderboard.less b a = false.
Proof.
  unfold Leaderboard.less. destruct (Won a), (Won b); cbn; try done.
  - intros Hab. apply Qltb_lt in Hab. apply Qltb_ge. lra.
  - intros Hab. apply Qltb_lt in Hab. apply Qltb_ge. lra.
Qed.

Lemma insert_sorted_perm e l : Leaderboard.insert_sorted e l ≡ₚ e :: l.
Proof.
  induction l as [|x l IH]; [done|]. cbn [Leaderboard.insert_sorted].
  destruct (Leaderboard.less e x); [done|]. rewrite IH. apply perm_swap.
Qed.

Lemma insertion_sort_perm l : Leaderboard.insertion_sort l ≡ₚ l.
Proof.
  induction l as [|x l IH]; [done|]. cbn [Leaderboard.insertion_sort foldr].
  fold (Leaderboard.insertion_sort l). by rewrite insert_sorted_perm, IH.
Qed.

Lemma insert_sorted_sorted e l :
  Sorted ranked l -> Sorted ranked (Leaderboard.insert_sorted e l).
Proof.
  induction 1 as [|x l Hs IH Hhd]; [by repeat constructor|].
  cbn [Leaderboard.insert_sorted]. destruct (Leaderboard.less e x) eqn:Hex.
  - constructor; [by constructor|]. constructor. by apply less_asymmetric.
  - constructor; [exact IH|]. destruct Hhd as [|y l Hxy]; cbn [Leaderboard.insert_sorted].
    + by constructor.
    + destruct (Leaderboard.less e y); by constructor.
Qed.

Lemma insertion_sort_sorted l : Sorted ranked (Leaderboard.insertion_sort l).
Proof.
  induction l as [|x l IH]; [constructor|]. cbn [Leaderboard.insertion_sort foldr].
  by apply insert_sorted_sorted.
Qed.

(** X26.  Recording a result, for any sorting procedure that returns a
    sorted arrangement of its argument.  The board that results is sorted
    (wins first, then more miles first); it is an arrangement of at most
    500 entries of the party mode and at most 500 of the other modes, so
    of at most 1000 entries; it holds nothing but the new entry and
    entries that were there; and as long as the board held fewer than 500
    entries nothing is dropped. *)
Theorem add_entry (sort : list LeaderboardEntry -> list LeaderboardEntry)
    (now : Z) (name : string) (won : bool) (miles : Q) (turns : Z) (mode : string)
    (entries : list LeaderboardEntry) :
  (forall l, sort l ≡ₚ l) -> (forall l, Sorted ranked (sort l)) ->
  Sorted ranked (Leaderboard.AddEntry sort now name won miles turns mode entries)
  /\ (exists continuous party,
        Leaderboard.AddEntry sort now name won miles turns mode entries
        ≡ₚ (continuous ++ party)%list
        /\ (length continuous <= 500)%nat /\ (length party <= 500)%nat
        /\ Forall (fun e => for_party e = false) continuous
        /\ Forall (fun e => for_party e = true) party)
  /\ (length (Leaderboard.AddEntry sort now name won miles turns mode entries)
      <= 1000)%nat
  /\ (forall e, e ∈ Leaderboard.AddEntry sort now name won miles turns mode entries ->
        e ∈ entries \/ e = mkEntry name won miles turns now mode)
  /\ ((length entries < 500)%nat ->
      Leaderboard.AddEntry sort now name won miles turns mode entries
      ≡ₚ (entries ++ [mkEntry name won miles turns now mode])%list).
Proof.
  intros Hperm Hsorted. unfold Leaderboard.AddEntry. rewrite keep_top_spec.
  cbn [app length]. rewrite !Nat.sub_0_r.
  pose proof (Hperm (entries ++ [mkEntry name won miles turns now mode])%list) as HS.
  revert HS. generalize (sort (entries ++ [mkEntry name won miles turns now mode])%list).
  intros S HS.
  set (c := take 500 (List.filter (fun e => negb (for_party e)) S)).
  set (p := take 500 (List.filter for_party S)).
  assert (length c <= 500)%nat as Hc by (subst c; rewrite length_take; lia).
  assert (length p <= 500)%nat as Hp by (subst p; rewrite length_take; lia).
  assert (forall e, e ∈ c -> for_party e = false /\ e ∈ S) as HcS.
  { intros e He. subst c. apply subseteq_take in He.
    apply list_elem_of_In, filter_In in He as [Hin Hf].
    split; [by apply negb_true_iff|by apply list_elem_of_In]. }
  assert (forall e, e ∈ p -> for_party e = true /\ e ∈ S) as HpS.
  { intros e He. subst p. apply subseteq_take in He.
    apply list_elem_of_In, filter_In in He as [Hin Hf].
    split; [done|by apply list_elem_of_In]. }
  split; [apply Hsorted|]. split; [|split; [|split]].
  - exists c, p. split; [apply Hperm|]. split; [exact Hc|]. split; [exact Hp|]. split.
    + apply Forall_forall. intros e He. by apply HcS.
    + apply Forall_forall. intros e He. by apply HpS.
  - rewrite (Permutation_length (Hperm _)), length_app. lia.
  - intros e He. rewrite (Hperm _) in He.
    assert (e ∈ S) as HeS.
    { apply elem_of_app in He as [He|He]; [by apply HcS|by apply HpS]. }
    rewrite HS in HeS. apply elem_of_app in HeS as [HeS|HeS]; [by left|right].
    by apply list_elem_of_singleton in HeS.
  - intros Hlt. rewrite (Hperm _), <- HS.
    assert (length S <= 500)%nat as HlS.
    { rewrite (Permutation_length HS), length_app. cbn [length]. lia. }
    subst c p. rewrite !take_ge.
    + apply filter_split.
    + etransitivity; [apply List.filter_length_le|exact HlS].
    + etransitivity; [apply List.filter_length_le|exact HlS].
Qed.

(** X27.  Reading the board.  A negative count is an error for [GetTop]
    and for [GetTopByMode].  Otherwise [GetTop] returns the first [n]
    entries (all of them when there are fewer), and [GetTopByMode] the
    first [n] entries of the mode asked for, entries without a mode
    counting as continuous; asked for none, it still returns the first
    one. *)
Theorem reading_the_board (n : Z) (mode : string) (entries : list LeaderboardEntry) :
  ((n < 0)%Z ->
   Leaderboard.GetTop n entries = None /\ Leaderboard.GetTopByMode n mode entries = None)
  /\ ((0 <= n)%Z ->
      Leaderboard.GetTop n entries = Some (take (Z.to_nat n) entries)
      /\ Leaderboard.GetTopByMode n mode entries
         = Some (take (Z.to_nat (Z.max n 1))
                   (List.filter (fun e => String.eqb (Leaderboard.entryMode e) mode)
                      entries))).
Proof.
  assert (forall es result,
            (length result < Z.to_nat (Z.max n 1))%nat ->
            Leaderboard.top_by_mode n mode es result
            = (result ++ take (Z.to_nat (Z.max n 1) - length result)
                          (List.filter (fun e => String.eqb (Leaderboard.entryMode e) mode)
                             es))%list) as Hloop.
  { induction es as [|e es IH]; intros result Hlen.
    { cbn. by rewrite take_nil, app_nil_r. }
    cbn [Leaderboard.top_by_mode List.filter].
    destruct (String.eqb (Leaderboard.entryMode e) mode); [|by apply IH].
    rewrite length_app. cbn [length].
    destruct (Z.leb_spec n (Z.of_nat (length result + 1))) as [Hle|Hgt].
    - replace (Z.to_nat (Z.max n 1) - length result)%nat with 1%nat by lia.
      cbn [take]. by rewrite take_0.
    - rewrite IH by (rewrite length_app; cbn [length]; lia).
      rewrite length_app. cbn [length]. rewrite <- app_assoc. cbn [app].
      replace (Z.to_nat (Z.max n 1) - length result)%nat
        with (S (Z.to_nat (Z.max n 1) - (length result + 1)))%nat by lia.
      done. }
  unfold Leaderboard.GetTop, Leaderboard.GetTopByMode. split.
  - intros Hneg. assert ((n <? 0)%Z = true) as Hn by (apply Z.ltb_lt; lia).
    rewrite Hn. split; [|done].
    destruct (Z.ltb_spec (Z.of_nat (length entries)) n); [lia|]. by rewrite Hn.
  - intros Hpos. assert ((n <? 0)%Z = false) as Hn by (apply Z.ltb_ge; lia).
    rewrite Hn. split.
    + destruct (Z.ltb_spec (Z.of_nat (length entries)) n) as [Hlt|Hge].
      * destruct (Z.ltb_spec (Z.of_nat (length entries)) 0); [lia|].
        rewrite Nat2Z.id. by rewrite !take_ge by lia.
      * by rewrite Hn.
    + rewrite Hloop by (cbn [length]; lia). cbn [app length]. by rewrite Nat.sub_0_r.
Qed.

(** ** The further properties at concrete inputs *)

Lemma hunters_nonneg : resources_nonneg (game hunters_room).
Proof. repeat split; apply Qleb_le; reflexivity. Qed.

Lemma fort_nonneg : resources_nonneg (game fort_room).
Proof. repeat split; apply Qleb_le; reflexivity. Qed.

Lemma hunters_heap_ok : heap_ok (game hunters_room).
Proof.
  repeat (constructor;
          [split; [repeat (constructor; [done|]); constructor
                  |intros m [= <-] H; discriminate H]|]).
  constructor.
Qed.

(** X1 at a concrete input: after Alice, the turn of the two hunters goes
    to Bob. *)
Lemma next_turn_round_robin_witness :
  GetHumanPlayers (game hunters_room) = [0%nat; 1%nat]
  /\ GetCurrentPlayer (NextTurn (game hunters_room)) = Some 1%nat
  /\ current_is_alive_human (NextTurn (game hunters_room)).
Proof.
  assert (GetHumanPlayers (game hunters_room) = [0%nat; 1%nat]) as Hh by reflexivity.
  destruct (next_turn_round_robin (game hunters_room) 0%nat [1%nat] Hh) as (H1 & H2 & _).
  split; [exact Hh|]. split; [|exact H2]. rewrite H1. reflexivity.
Defined.

(** X2 at a concrete input: the turn counter of the two hunters. *)
Lemma next_turn_frame_witness :
  GetHumanPlayers (game hunters_room) <> []
  /\ TurnNumber (NextTurn (game hunters_room)) = wrap64 (TurnNumber (game hunters_room) + 1)
  /\ same_resources (game hunters_room) (NextTurn (game hunters_room)).
Proof.
  assert (GetHumanPlayers (game hunters_room) <> []) as Hh by (intros H; discriminate H).
  destruct (proj2 (next_turn_frame (game hunters_room)) Hh) as (H1 & _ & _ & _ & H5 & _).
  split; [exact Hh|]. split; [exact H1|exact H5].
Defined.

(** X4 at a concrete input: a shot of Alice. *)
Lemma hunt_shot_effect_witness :
  rand_ok (Rand (game hunters_room))
  /\ resources_nonneg (game hunters_room)
  /\ (Food (game hunters_room)
      <= Food (Game.HandleHuntShoot (Some 0%nat) 300 (game hunters_room)).2)%Q
  /\ (Bullets (Game.HandleHuntShoot (Some 0%nat) 300 (game hunters_room)).2
      <= Bullets (game hunters_room))%Q.
Proof.
  destruct (hunt_shot_effect 0%nat 300 (game hunters_room) constant_draws_ok hunters_nonneg)
    as (H1 & H2 & _).
  split; [exact constant_draws_ok|]. split; [exact hunters_nonneg|]. split; [exact H1|exact H2].
Defined.

(** X5 at a concrete input: Alice buys two packs of food at the fort. *)
Lemma fort_trade_witness :
  Phase (game fort_room) = PhaseFort
  /\ resources_nonneg (game fort_room)
  /\ (Price (mkFortItem 10 25 "Food Pack (25 lbs)") * float64 2 <= Cash (game fort_room))%Q
  /\ Cash (Game.HandleFortBuy "food" 2 (game fort_room)).2
     = (Cash (game fort_room) - Price (mkFortItem 10 25 "Food Pack (25 lbs)") * float64 2)%Q
  /\ Food (Game.HandleFortBuy "food" 2 (game fort_room)).2
     = (Food (game fort_room) + Qty (mkFortItem 10 25 "Food Pack (25 lbs)") * float64 2)%Q.
Proof.
  assert (Price (mkFortItem 10 25 "Food Pack (25 lbs)") * float64 2
          <= Cash (game fort_room))%Q as Hcash by (apply Qleb_le; reflexivity).
  destruct (proj1 (fort_trade (game fort_room) "food" 2
                     (mkFortItem 10 25 "Food Pack (25 lbs)") Food "food" sub_Food
                     eq_refl eq_refl eq_refl eq_refl fort_nonneg) Hcash)
    as (_ & H2 & H3 & _).
  split; [reflexivity|]. split; [exact fort_nonneg|]. split; [exact Hcash|].
  split; [exact H2|exact H3].
Defined.


(** X7 at concrete inputs: a purchase away from the fort, and a purchase of
    nothing at the fort. *)
Lemma fort_refusals_witness :
  Phase (game hunters_room) <> PhaseFort
  /\ Game.HandleFortBuy "food" 2 (game hunters_room)
     = (ln "You're not at a fort!", game hunters_room)
  /\ Game.HandleFortSell "food" 0 (game fort_room) = (ln "Invalid quantity.", game fort_room).
Proof.
  assert (Phase (game hunters_room) <> PhaseFort) as Hph by (intros H; discriminate H).
  split; [exact Hph|]. split.
  - exact (proj1 (proj1 (fort_refusals (game hunters_room) "food" 2) Hph)).
  - assert (0 <= 0)%Z as Hq by lia.
    exact (proj2 (proj1 (proj2 (fort_refusals (game fort_room) "food" 0)) eq_refl Hq)).
Defined.

(** X8 at a concrete input: the parties of the two hunters after a week
    of travel. *)
Lemma parties_stay_consistent_witness :
  heap_ok (game hunters_room)
  /\ heap_ok (ProcessTurn (Some 0%nat) "continue" (game hunters_room)).2.
Proof.
  split; [exact hunters_heap_ok|].
  exact (proj1 (parties_stay_consistent (game hunters_room) hunters_heap_ok)
           (Some 0%nat) "continue").
Defined.

(** X9 at a concrete input: the leader of Alice's party takes 999 points
    of damage. *)
Lemma death_of_a_leader_witness :
  Party (deref 0%nat (game hunters_room)) !! 0%nat = Some (mkPartyMember "You" true 100 false)
  /\ (wrap64 (Health (mkPartyMember "You" true 100 false) - 999) <= 0)%Z
  /\ Alive (deref 0%nat (DamagePartyMember 0 0 999 (game hunters_room)).2) = false.
Proof.
  assert (wrap64 (Health (mkPartyMember "You" true 100 false) - 999) <= 0)%Z as Hh
    by (vm_compute; discriminate).
  assert (0 < length (Heap (game hunters_room)))%nat as Hlt by (cbn; lia).
  split; [reflexivity|]. split; [exact Hh|].
  exact (proj1 (death_of_a_leader 0%nat 999 (game hunters_room)
                  (mkPartyMember "You" true 100 false) Hlt eq_refl eq_refl Hh)).
Defined.

(** X10 at a concrete input: a third player for the two hunters. *)
Lemma add_player_is_fresh_witness :
  roster_allocated (game hunters_room)
  /\ Players (AddPlayer 7 "Carol" PlayerTypeHuman (game hunters_room)).2
     = (Players (game hunters_room)
        ++ [(AddPlayer 7 "Carol" PlayerTypeHuman (game hunters_room)).1])%list
  /\ roster_allocated (AddPlayer 7 "Carol" PlayerTypeHuman (game hunters_room)).2.
Proof.
  assert (roster_allocated (game hunters_room)) as Hall by reflexivity.
  destruct (add_player_is_fresh 7 "Carol" PlayerTypeHuman (game hunters_room) Hall)
    as (_ & H2 & _ & _ & H5 & _).
  split; [exact Hall|]. split; [exact H2|exact H5].
Defined.

(** X11 at a concrete input: Alice answers the riders. *)
Lemma requests_keep_resources_witness :
  resources_nonneg (game hunters_room)
  /\ GameOver (game hunters_room) = false
  /\ resources_nonneg
       (game (Room.room_after (Room.HandleRiderTactic 0 "a" 2 hunters_room))).
Proof.
  split; [exact hunters_nonneg|]. split; [reflexivity|].
  exact (proj1 (proj2 (proj2 (requests_keep_resources 0 "a" hunters_room
                                hunters_nonneg eq_refl))) 2%Z).
Defined.

(** X12 at a concrete input: Bob shoots while Alice holds the turn. *)
Lemma out_of_turn_requests_witness :
  clients hunters_room !! "b" = Some (seat "b" "Bob" 1)
  /\ Room.current hunters_room = Some (0%nat, alice)
  /\ Room.HandleHuntShoot 0 "b" 300 hunters_room
     = Room.mkReply (ln "It's not your turn.") hunters_room [].
Proof.
  assert (clients hunters_room !! "b" = Some (seat "b" "Bob" 1)) as Hc by reflexivity.
  assert (match Room.current hunters_room with
          | Some (_, cp) => ID cp <> ClientID (seat "b" "Bob" 1)
          | None => True
          end) as Hturn by (intros H; discriminate H).
  split; [exact Hc|]. split; [reflexivity|].
  exact (proj1 (proj2 (proj2 (proj2 (proj2
           (out_of_turn_requests 0 "b" hunters_room (seat "b" "Bob" 1) Hc Hturn)))))
           300%Z).
Defined.

(** X13 at a concrete input: Alice, who owns the room, kicks Bob. *)
Lemma kick_client_witness :
  ownerID hunters_room = "a"
  /\ is_Some (clients hunters_room !! "b")
  /\ (Room.KickClient 0 "a" "b" hunters_room).1 = true
  /\ clients (Room.KickClient 0 "a" "b" hunters_room).2 = delete "b" (clients hunters_room).
Proof.
  assert (is_Some (clients hunters_room !! "b")) as Hb by (by eexists).
  assert ("a" <> "b") as Hab by (intros H; discriminate H).
  destruct (kick_client 0 "a" "b" hunters_room) as (H1 & _ & H3).
  pose proof (proj2 H1 (conj eq_refl (conj Hab Hb))) as Hok.
  split; [reflexivity|]. split; [exact Hb|]. split; [exact Hok|].
  exact (proj1 (H3 Hok)).
Defined.

(** X15 at a concrete input: Carol joins the continuous room of Alice and
    Bob. *)
Lemma first_join_witness :
  roster_allocated (game untouched_room)
  /\ Room.find_existing carol (game untouched_room) = None
  /\ Players (game (Room.AddClient 0 carol "trail" untouched_room))
     = (Players (game untouched_room) ++ [length (Heap (game untouched_room))])%list
  /\ deref (length (Heap (game untouched_room)))
       (game (Room.AddClient 0 carol "trail" untouched_room))
     = mkPlayer (ClientID carol) (ClientName carol) PlayerTypeHuman newParty true 3 true.
Proof.
  assert (roster_allocated (game untouched_room)) as Hall by reflexivity.
  assert (Room.find_existing carol (game untouched_room) = None) as Hnone by reflexivity.
  pose proof (first_join 0 carol "trail" untouched_room Hall Hnone (or_introl eq_refl)) as H.
  cbv zeta in H. destruct H as (H1 & H2 & _).
  split; [exact Hall|]. split; [exact Hnone|]. split; [exact H1|exact H2].
Defined.

(** X16 at a concrete input: Bob, whose party has perished, logs out of
    the party room. *)
Lemma dead_player_logs_out_witness :
  clients widowed_room !! "b" = Some (seat "b" "Bob" 1)
  /\ Alive (deref 1%nat (game widowed_room)) = false
  /\ deadPlayers (Room.LogoutClient 0 "b" widowed_room)
     = <[ClientName (seat "b" "Bob" 1) := true]> (deadPlayers widowed_room).
Proof.
  split; [reflexivity|]. split; [reflexivity|].
  exact (proj1 (proj2 (dead_player_logs_out 0 "b" widowed_room (seat "b" "Bob" 1)
                         1%nat 1%nat eq_refl eq_refl eq_refl eq_refl eq_refl)) eq_refl).
Defined.


(** X18 at a concrete input: a day passes over the wagon nobody has
    touched. *)
Lemma loot_sites_decay_witness :
  rooms decaying_server !! "continuous" = Some untouched_room
  /\ exists room',
       rooms (deteriorateLootSites decaying_server) !! "continuous" = Some room'
       /\ length (LootSites (game room')) = length (LootSites (game untouched_room)).
Proof.
  assert (rooms decaying_server !! "continuous" = Some untouched_room) as Hroom
    by (vm_compute; reflexivity).
  destruct (loot_sites_decay decaying_server "continuous" untouched_room Hroom)
    as (room' & H1 & _ & _ & H4 & _).
  split; [exact Hroom|]. exists room'. split; [exact H1|exact H4].
Defined.

(** X19 at a concrete input: the turn of the two hunters is passed at
    time 5. *)
Lemma passing_the_turn_witness :
  GetHumanPlayers (game hunters_room) <> []
  /\ GameOver (game hunters_room) = false
  /\ exists a,
       GetCurrentPlayer (game (Room.advanceTurnAndCheckFort 5 hunters_room).2) = Some a
       /\ turnDeadline (Room.advanceTurnAndCheckFort 5 hunters_room).2
          = Some (5 + 20 * second)%Z.
Proof.
  assert (GetHumanPlayers (game hunters_room) <> []) as Hh by (intros H; discriminate H).
  destruct (proj2 (passing_the_turn 5 hunters_room) Hh eq_refl)
    as (a & H1 & _ & _ & H4 & _).
  split; [exact Hh|]. split; [reflexivity|]. exists a. split; [exact H1|exact H4].
Defined.


(** X21 at a concrete input: the first party room of a new server. *)
Lemma create_room_witness :
  rooms (NewServer 0 (constant_draws 0)) !! "party1" = None
  /\ rooms (NewServer 0 (constant_draws 0)) !! "continuous" <> None
  /\ GetRoom "party1"
       (CreateRoom 3 (constant_draws 0) "party1" "Friends" "secret" "a" 4
          (NewServer 0 (constant_draws 0))).2
     = Some (CreateRoom 3 (constant_draws 0) "party1" "Friends" "secret" "a" 4
               (NewServer 0 (constant_draws 0))).1.
Proof.
  assert (rooms (NewServer 0 (constant_draws 0)) !! "party1" = None) as Hfresh
    by (vm_compute; reflexivity).
  assert (rooms (NewServer 0 (constant_draws 0)) !! "continuous" <> None) as Hperm
    by (intros H; vm_compute in H; discriminate H).
  split; [exact Hfresh|]. split; [exact Hperm|].
  exact (proj1 (create_room 3 (constant_draws 0) "party1" "Friends" "secret" "a" 4
                  (NewServer 0 (constant_draws 0)) Hfresh Hperm)).
Defined.

Lemma one_session_well_keyed : well_keyed one_session.
Proof.
  intros k s Hs. unfold one_session in Hs.
  apply lookup_singleton_Some in Hs as [<- <-]. reflexivity.
Qed.

(** X24 at a concrete input: Alice, who has a session, opens one again. *)
Lemma session_round_trip_witness :
  well_keyed one_session
  /\ exists s,
       Sessions.GetSessionByID
         (Sessions.CreateSession 9 "s2" "Alice" "a" "party1" one_session).1
         (Sessions.CreateSession 9 "s2" "Alice" "a" "party1" one_session).2 = Some s
       /\ SessRoomID s = "party1".
Proof.
  destruct (session_round_trip 9 "s2" "Alice" "a" "party1" one_session
              one_session_well_keyed) as (s & H1 & _ & _ & H4 & _).
  split; [exact one_session_well_keyed|]. exists s. split; [exact H1|exact H4].
Defined.

(** X26 at a concrete input: a win of Alice recorded on the board that
    holds the result of Bob, sorting by insertion. *)
Lemma add_entry_witness :
  (forall l, Leaderboard.insertion_sort l ≡ₚ l)
  /\ (forall l, Sorted ranked (Leaderboard.insertion_sort l))
  /\ Sorted ranked
       (Leaderboard.AddEntry Leaderboard.insertion_sort 0 "Alice" true 4500 30 "party"
          old_board)
  /\ Leaderboard.AddEntry Leaderboard.insertion_sort 0 "Alice" true 4500 30 "party"
       old_board
     ≡ₚ (old_board ++ [mkEntry "Alice" true 4500 30 0 "party"])%list.
Proof.
  assert (length old_board < 500)%nat as Hlen by (cbn; lia).
  destruct (add_entry Leaderboard.insertion_sort 0 "Alice" true 4500 30 "party" old_board
              insertion_sort_perm insertion_sort_sorted) as (H1 & _ & _ & _ & H5).
  split; [exact insertion_sort_perm|]. split; [exact insertion_sort_sorted|].
  split; [exact H1|exact (H5 Hlen)].
Defined.

(** X27 at a concrete input: asked for no entry of the party mode, the
    board returns one. *)
Lemma reading_the_board_witness :
  (0 <= 0)%Z
  /\ Leaderboard.GetTopByMode 0 "party" old_board
     = Some (take (Z.to_nat (Z.max 0 1))
               (List.filter (fun e => String.eqb (Leaderboard.entryMode e) "party")
                  old_board))
  /\ Leaderboard.GetTopByMode 0 "party" old_board = Some old_board.
Proof.
  assert (0 <= 0)%Z as Hn by lia.
  destruct (proj2 (reading_the_board 0 "party" old_board) Hn) as (_ & H2).
  split; [exact Hn|]. split; [exact H2|]. rewrite H2. reflexivity.
Defined.
